(** * Cup Game: the round and game-mode state machine, embedded and verified

    The development follows the three Python programs of the repository:

    - [Legacy]   : [Cup_Game.py], the first terminal game;
    - [Terminal] : [cup_game_enhanced.py], class [CupGame] and its
                   [DatabaseManager];
    - [Web]      : [web_app.py], the Flask handlers working on the caller's
                   [session] dictionary.

    Python's ambient effects are made explicit.  The wall clock
    ([time.time()]), the random source ([random.choice]) and the
    availability of the SQLite store are oracles of an environment [Env];
    the number of readings taken from each one is part of the state, so
    that "no cup was drawn" is the statement that a counter did not move.
    Exceptions are results of a small state-and-exception monad in which,
    as in Python, the mutations done before a [raise] stay done.

    Conventions.  Clock readings and durations are rationals, so that the
    comparisons of the code are exact.  Integers are [Z].  The values of
    the JSON keys and the lines typed are strings.  Logging is left out,
    and so are [time.sleep] and [KeyboardInterrupt], which the programs
    only wait for or catch.  What the terminal prints is kept as a list of
    messages [Terminal.Msg] carrying the data of each line. *)

From Stdlib Require Import List String Ascii Bool NArith ZArith QArith Lia Lqa.
Import ListNotations.

Local Open Scope string_scope.
Local Open Scope list_scope.
Local Open Scope Z_scope.

(* ================================================================== *)
(** ** Python strings *)
(* ================================================================== *)

(** A [str] is modelled as a [string] whose characters are the code points
    below 256.  On that range [lower] and [strip] below are Python's
    [str.lower] and [str.strip] (without argument). *)
Module PyStr.

  (** [str.isspace] on one code point: TAB..CR, FS..US, SPACE, NEL, NBSP. *)
Definition isspace (c : ascii) : bool :=
    let n := N_of_ascii c in
    ((9 <=? n) && (n <=? 13) || (28 <=? n) && (n <=? 32)
     || (n =? 133) || (n =? 160))%N.

  (** Upper-case code points: A..Z and the Latin-1 capitals, U+00D7 (the
      multiplication sign) excluded. *)
Definition isupper (c : ascii) : bool :=
    let n := N_of_ascii c in
    ((65 <=? n) && (n <=? 90)
     || (192 <=? n) && (n <=? 222) && negb (n =? 215))%N.

Definition lower_char (c : ascii) : ascii :=
    if isupper c then ascii_of_N (N_of_ascii c + 32) else c.

Fixpoint lower (s : string) : string :=
    match s with
    | EmptyString => EmptyString
    | String c s' => String (lower_char c) (lower s')
    end.

Fixpoint lstrip (s : string) : string :=
    match s with
    | EmptyString => EmptyString
    | String c s' => if isspace c then lstrip s' else s
    end.

Fixpoint rstrip (s : string) : string :=
    match s with
    | EmptyString => EmptyString
    | String c s' =>
        match rstrip s' with
        | EmptyString => if isspace c then EmptyString else String c EmptyString
        | r => String c r
        end
    end.

Definition strip (s : string) : string := rstrip (lstrip s).

  (** Every character of the string is white space. *)
Fixpoint blank (s : string) : bool :=
    match s with
    | EmptyString => true
    | String c s' => isspace c && blank s'
    end.

  (** [x in l] for a list of strings. *)
Definition str_in (x : string) (l : list string) : bool :=
    existsb (String.eqb x) l.

End PyStr.

(* ================================================================== *)
(** ** Shared data model *)
(* ================================================================== *)

Inductive Difficulty := EASY | MEDIUM | HARD.
Inductive GameMode := CLASSIC | TIMED | STREAK.

(** The [.value] of the two enumerations. *)
Definition Difficulty_value (d : Difficulty) : string :=
  match d with EASY => "easy" | MEDIUM => "medium" | HARD => "hard" end.

Definition GameMode_value (m : GameMode) : string :=
  match m with CLASSIC => "classic" | TIMED => "timed" | STREAK => "streak" end.

Definition GameMode_eqb (a b : GameMode) : bool :=
  match a, b with
  | CLASSIC, CLASSIC | TIMED, TIMED | STREAK, STREAK => true
  | _, _ => false
  end.

(** The configuration dictionary.  [time_limit = None] is an absent key;
    [max_rounds = None] is an absent key (web) or the value [None]
    (terminal): the code reads both only through [config.get]. *)
Record Config := mkConfig {
  cups : list string;
  shuffle_time : Q;
  time_limit : option Z;
  max_rounds : option Z
}.

Definition set_time_limit (v : option Z) (c : Config) : Config :=
  mkConfig (cups c) (shuffle_time c) v (max_rounds c).

Definition set_max_rounds (v : option Z) (c : Config) : Config :=
  mkConfig (cups c) (shuffle_time c) (time_limit c) v.

(** [config.get('time_limit', 30)] *)
Definition get_time_limit (c : Config) : Z :=
  match time_limit c with Some n => n | None => 30 end.

(** Truth value of [config.get('max_rounds')]: the bound when it is set
    and not zero. *)
Definition truthy_max_rounds (c : Config) : option Z :=
  match max_rounds c with
  | Some n => if n =? 0 then None else Some n
  | None => None
  end.

(** One row of table [game_sessions]; [id] is the position in the table and
    [timestamp] is assigned by the store. *)
Record SessionRecord := mkRecord {
  rec_difficulty : string;
  rec_game_mode : string;
  rec_wins : Z;
  rec_losses : Z;
  rec_duration_seconds : option Q
}.

(** [max(0, x)] *)
Definition max0 (x : Q) : Q := if Qle_bool x 0 then 0%Q else x.

(* ================================================================== *)
(** ** Effects: clock, random source, store, exceptions *)
(* ================================================================== *)

Inductive Exn :=
| SqliteError | EOFError | TypeError | AttributeError | IndexError | KeyError.

Inductive Result (A : Type) :=
| Ok (a : A)
| Raise (e : Exn).
Arguments Ok {A} a.
Arguments Raise {A} e.

(** What the program does not control: the [k]-th reading of the clock,
    the [k]-th random integer, and whether the [k]-th [INSERT] fails. *)
Record Env := mkEnv {
  clock : nat -> Q;
  rng : nat -> nat;
  store_down : nat -> bool
}.

(** The process-wide state: the table and the number of readings taken from
    each oracle. *)
Record Sys := mkSys {
  db : list SessionRecord;
  clock_pos : nat;
  rng_pos : nat;
  save_pos : nat
}.

Record World (T : Type) := mkWorld {
  sys : Sys;
  obj : T
}.
Arguments mkWorld {T} sys obj.
Arguments sys {T} w.
Arguments obj {T} w.

Module Effects.
Section WithEnv.
Variable env : Env.
Context {T : Type}.

Definition M (A : Type) : Type := World T -> Result A * World T.

Definition ret {A} (a : A) : M A := fun w => (Ok a, w).

Definition bind {A B} (m : M A) (k : A -> M B) : M B :=
    fun w =>
      match m w with
      | (Ok a, w') => k a w'
      | (Raise e, w') => (Raise e, w')
      end.

Definition raise {A} (e : Exn) : M A := fun w => (Raise e, w).

  (** [try: m  except Exception as e: h e] *)
Definition try_except {A} (m : M A) (h : Exn -> M A) : M A :=
    fun w =>
      match m w with
      | (Ok a, w') => (Ok a, w')
      | (Raise e, w') => h e w'
      end.

Definition get_obj : M T := fun w => (Ok (obj w), w).

Definition put_obj (t : T) : M unit := fun w => (Ok tt, mkWorld (sys w) t).

Definition update (f : T -> T) : M unit :=
    fun w => (Ok tt, mkWorld (sys w) (f (obj w))).

  (** [time.time()] *)
Definition time_time : M Q :=
    fun w =>
      let s := sys w in
      (Ok (clock env (clock_pos s)),
       mkWorld (mkSys (db s) (S (clock_pos s)) (rng_pos s) (save_pos s)) (obj w)).

  (** [random.choice(seq)]: [seq[randbelow(len(seq))]], [IndexError] on an
      empty sequence. *)
Definition random_choice {A} (seq : list A) : M A :=
    fun w =>
      let s := sys w in
      match nth_error seq (rng env (rng_pos s) mod List.length seq)%nat with
      | Some x =>
          (Ok x, mkWorld (mkSys (db s) (clock_pos s) (S (rng_pos s)) (save_pos s)) (obj w))
      | None => (Raise IndexError, w)
      end.

  (** [DatabaseManager.save_game_session]: one [INSERT], committed; an
      [sqlite3.Error] is logged and raised again, and no row is added.
      The counters are taken to fit an INTEGER column (64 bits signed), as
      the scores of a played game do; outside that range [sqlite3] raises
      [OverflowError], which is not modelled. *)
Definition save_game_session (difficulty game_mode : string) (wins losses : Z)
             (duration : option Q) : M unit :=
    fun w =>
      let s := sys w in
      if store_down env (save_pos s) then
        (Raise SqliteError,
         mkWorld (mkSys (db s) (clock_pos s) (rng_pos s) (S (save_pos s))) (obj w))
      else
        (Ok tt,
         mkWorld (mkSys (db s ++ [mkRecord difficulty game_mode wins losses duration])
                        (clock_pos s) (rng_pos s) (S (save_pos s))) (obj w)).

End WithEnv.
End Effects.

Declare Scope py_scope.
Delimit Scope py_scope with py.
Notation "x <- m ;; k" := (Effects.bind m (fun x => k))
  (at level 61, m at next level, right associativity) : py_scope.
Notation "m ;; k" := (Effects.bind m (fun _ => k))
  (at level 61, right associativity) : py_scope.

(** The ten prizes of [cup_game_enhanced.py] and [web_app.py]. *)
Definition prizes : list string :=
  [ "a Disney Cruise ticket"; "a Ferrari"; "a mansion in Beverly Hills";
    "a giraffe"; "Jordan Air 1s"; "a golden watch"; "a private jet";
    "a treasure chest"; "a magical sword"; "a diamond ring" ].

(* ================================================================== *)
(** ** [web_app.py]: the Flask handlers *)
(* ================================================================== *)

Module Web.
Import PyStr.

  (** The keys [start_game] stores in the caller's [session]. *)
Record Session := mkSession {
    game_active : bool;
    difficulty : string;
    game_mode : string;
    config : Config;
    wins : Z;
    losses : Z;
    start_time : Q;
    round_number : Z
  }.

Definition set_game_active (v : bool) (s : Session) : Session :=
    mkSession v (difficulty s) (game_mode s) (config s) (wins s) (losses s)
              (start_time s) (round_number s).

Definition set_wins (v : Z) (s : Session) : Session :=
    mkSession (game_active s) (difficulty s) (game_mode s) (config s) v (losses s)
              (start_time s) (round_number s).

Definition set_losses (v : Z) (s : Session) : Session :=
    mkSession (game_active s) (difficulty s) (game_mode s) (config s) (wins s) v
              (start_time s) (round_number s).

Definition set_round_number (v : Z) (s : Session) : Session :=
    mkSession (game_active s) (difficulty s) (game_mode s) (config s) (wins s)
              (losses s) (start_time s) v.

  (** Flask's [session]: empty ([None]) until [start_game] has filled it;
      [start_game] is the only writer of keys and writes all of them. *)
Abbreviation Cookie := (option Session).

  (** [session.get('game_active')], as a truth value. *)
Definition session_get_game_active (c : Cookie) : bool :=
    match c with Some s => game_active s | None => false end.

  (** The JSON bodies of the two POST requests that have one: [None] is a
      request without a JSON object, an inner [None] an absent key. *)
Record StartBody := mkStartBody {
    sb_difficulty : option string;
    sb_game_mode : option string
  }.

Record PlayBody := mkPlayBody {
    pb_choice : option string
  }.

  (** [data.get(key, default)] *)
Definition get_default {A} (v : option A) (d : A) : A :=
    match v with Some x => x | None => d end.

  (** The JSON replies, one constructor per [jsonify] call of the module. *)
Inductive Response :=
  | RError (status : Z) (error : string)
  | RStarted (cfg : Config) (message : string)
  | RTimeLimit (reason : string) (final_wins final_losses : Z)
  | RGameOver (won_round : bool) (prize_cup prize reason : string)
              (final_wins final_losses : Z) (duration : Q)
  | RRound (won_round : bool) (prize_cup prize : string)
           (cur_wins cur_losses round : Z) (time_remaining : option Q)
           (shuffle : Q)
  | REnded (final_wins final_losses : Z) (duration : Q)
  | RInactive
  | RExpired (reason : string)
  | RStatus (diff mode : string) (cur_wins cur_losses round : Z)
            (time_remaining : option Q) (cfg : Config).

  (** The key ['game_over'] of a reply, when it has one. *)
Definition resp_game_over (r : Response) : option bool :=
    match r with
    | RTimeLimit _ _ _ | RGameOver _ _ _ _ _ _ _ | RExpired _ => Some true
    | RRound _ _ _ _ _ _ _ _ => Some false
    | _ => None
    end.

Definition resp_reason (r : Response) : option string :=
    match r with
    | RTimeLimit reason _ _ | RGameOver _ _ _ reason _ _ _ | RExpired reason =>
        Some reason
    | _ => None
    end.

Definition resp_won_round (r : Response) : option bool :=
    match r with
    | RGameOver w _ _ _ _ _ _ | RRound w _ _ _ _ _ _ _ => Some w
    | _ => None
    end.

  (** The table [game_config] of [start_game]. *)
Definition game_config (difficulty : string) : option Config :=
    if (difficulty =? "easy")%string then
      Some (mkConfig ["left"; "right"] 2%Q None None)
    else if (difficulty =? "medium")%string then
      Some (mkConfig ["left"; "middle"; "right"] (3 # 2)%Q None None)
    else if (difficulty =? "hard")%string then
      Some (mkConfig ["left"; "middle-left"; "middle-right"; "right"] 1%Q None None)
    else None.

Section WithEnv.
Variable env : Env.

Local Open Scope py_scope.

Abbreviation M := (@Effects.M Cookie).
Abbreviation ret := Effects.ret.

Definition get_json {A} (body : option A) : M A :=
    match body with
    | Some data => ret data
    | None => Effects.raise AttributeError
    end.

  (** [session[key]] for a key written by [start_game]. *)
Definition the_session : M Session :=
    c <- Effects.get_obj ;;
    match c with
    | Some s => ret s
    | None => Effects.raise KeyError
    end.

  (** [session[key] = v] on a filled session. *)
Definition session_update (f : Session -> Session) : M unit :=
    s <- the_session ;; Effects.put_obj (Some (f s)).

  (** [try: body  except Exception: return jsonify(error), 500] *)
Definition handler (error : string) (body : M Response)
    : World Cookie -> Response * World Cookie :=
    fun w =>
      match body w with
      | (Ok r, w') => (r, w')
      | (Raise _, w') => (RError 500 error, w')
      end.

  (** [POST /api/start_game] *)
Definition start_game_body (body : option StartBody) : M Response :=
    data <- get_json body ;;
    let difficulty := get_default (sb_difficulty data) "easy" in
    let game_mode := get_default (sb_game_mode data) "classic" in
    if negb (str_in difficulty ["easy"; "medium"; "hard"]) then
      ret (RError 400 "Invalid difficulty")
    else if negb (str_in game_mode ["classic"; "timed"; "streak"]) then
      ret (RError 400 "Invalid game mode")
    else
      base <- match game_config difficulty with
              | Some c => ret c
              | None => Effects.raise KeyError
              end ;;
      let config :=
        if (game_mode =? "timed")%string then set_time_limit (Some 30) base
        else if (game_mode =? "streak")%string then set_max_rounds (Some 10) base
        else base in
      now <- Effects.time_time env ;;
      Effects.put_obj
        (Some (mkSession true difficulty game_mode config 0 0 now 1)) ;;
      ret (RStarted config ("Started " ++ difficulty ++ " " ++ game_mode ++ " game!")).

Definition start_game (body : option StartBody) :=
    handler "Failed to start game" (start_game_body body).

  (** The three blocks of [play_round] that may [return] early yield
      [Some reply]; [None] falls through to the next statement. *)

  (** lines 93-102 *)
Definition check_time_limit : M (option Response) :=
    s <- the_session ;;
    if (game_mode s =? "timed")%string then
      now <- Effects.time_time env ;;
      let elapsed := (now - start_time s)%Q in
      if Qle_bool (inject_Z (get_time_limit (config s))) elapsed then
        session_update (set_game_active false) ;;
        s <- the_session ;;
        ret (Some (RTimeLimit "Time limit exceeded" (wins s) (losses s)))
      else ret None
    else ret None.

  (** lines 117-141 *)
Definition score_round (won_round : bool) (prize_cup prize : string)
    : M (option Response) :=
    if won_round then
      session_update (fun s => set_wins (wins s + 1) s) ;;
      ret None
    else
      session_update (fun s => set_losses (losses s + 1) s) ;;
      s <- the_session ;;
      if (game_mode s =? "streak")%string then
        session_update (set_game_active false) ;;
        now <- Effects.time_time env ;;
        s <- the_session ;;
        let duration := (now - start_time s)%Q in
        Effects.save_game_session env (difficulty s) (game_mode s)
                                  (wins s) (losses s) (Some duration) ;;
        s <- the_session ;;
        ret (Some (RGameOver false prize_cup prize "Streak broken"
                             (wins s) (losses s) duration))
      else ret None.

  (** lines 145-166 *)
Definition check_max_rounds (won_round : bool) (prize_cup prize : string)
    : M (option Response) :=
    s <- the_session ;;
    match truthy_max_rounds (config s) with
    | Some max =>
        let total_rounds := wins s + losses s in
        if max <=? total_rounds then
          session_update (set_game_active false) ;;
          now <- Effects.time_time env ;;
          s <- the_session ;;
          let duration := (now - start_time s)%Q in
          Effects.save_game_session env (difficulty s) (game_mode s)
                                    (wins s) (losses s) (Some duration) ;;
          s <- the_session ;;
          ret (Some (RGameOver won_round prize_cup prize "Max rounds completed"
                               (wins s) (losses s) duration))
        else ret None
    | None => ret None
    end.

  (** [POST /api/play_round] *)
Definition play_round_body (body : option PlayBody) : M Response :=
    c <- Effects.get_obj ;;
    if negb (session_get_game_active c) then ret (RError 400 "No active game")
    else
      data <- get_json body ;;
      let user_choice := strip (lower (get_default (pb_choice data) "")) in
      s <- the_session ;;
      let config := config s in
      if negb (str_in user_choice (cups config)) then
        ret (RError 400 "Invalid cup choice")
      else
        timed_out <- check_time_limit ;;
        match timed_out with
        | Some reply => ret reply
        | None =>
            prize_cup <- Effects.random_choice env (cups config) ;;
            prize <- Effects.random_choice env prizes ;;
            let won_round := (user_choice =? prize_cup)%string in
            streak_over <- score_round won_round prize_cup prize ;;
            match streak_over with
            | Some reply => ret reply
            | None =>
                session_update (fun s => set_round_number (round_number s + 1) s) ;;
                maxed <- check_max_rounds won_round prize_cup prize ;;
                match maxed with
                | Some reply => ret reply
                | None =>
                    s <- the_session ;;
                    time_remaining <-
                      (if (game_mode s =? "timed")%string then
                         now <- Effects.time_time env ;;
                         let elapsed := (now - start_time s)%Q in
                         ret (Some (max0 (inject_Z (get_time_limit config) - elapsed)%Q))
                       else ret None) ;;
                    s <- the_session ;;
                    ret (RRound won_round prize_cup prize (wins s) (losses s)
                                (round_number s) time_remaining (shuffle_time config))
                end
            end
        end.

Definition play_round (body : option PlayBody) :=
    handler "Failed to play round" (play_round_body body).

  (** [POST /api/end_game] *)
Definition end_game_body : M Response :=
    c <- Effects.get_obj ;;
    if negb (session_get_game_active c) then ret (RError 400 "No active game")
    else
      now <- Effects.time_time env ;;
      s <- the_session ;;
      let duration := (now - start_time s)%Q in
      Effects.save_game_session env (difficulty s) (game_mode s)
                                (wins s) (losses s) (Some duration) ;;
      s <- the_session ;;
      let final_wins := wins s in
      let final_losses := losses s in
      session_update (set_game_active false) ;;
      ret (REnded final_wins final_losses duration).

Definition end_game := handler "Failed to end game" end_game_body.

  (** [GET /api/game_status] *)
Definition get_game_status_body : M Response :=
    c <- Effects.get_obj ;;
    if negb (session_get_game_active c) then ret RInactive
    else
      s <- the_session ;;
      expired <-
        (if (game_mode s =? "timed")%string then
           now <- Effects.time_time env ;;
           let elapsed := (now - start_time s)%Q in
           let time_remaining := max0 (inject_Z (get_time_limit (config s)) - elapsed)%Q in
           if Qle_bool time_remaining 0 then
             session_update (set_game_active false) ;;
             now <- Effects.time_time env ;;
             s <- the_session ;;
             let duration := (now - start_time s)%Q in
             Effects.save_game_session env (difficulty s) (game_mode s)
                                       (wins s) (losses s) (Some duration) ;;
             ret (inl (RExpired "Time expired"))
           else ret (inr (Some time_remaining))
         else ret (inr None)) ;;
      match expired with
      | inl reply => ret reply
      | inr time_remaining =>
          s <- the_session ;;
          ret (RStatus (difficulty s) (game_mode s) (wins s) (losses s)
                       (round_number s) time_remaining (config s))
      end.

Definition get_game_status := handler "Failed to get game status" get_game_status_body.

  (** The requests of one caller, served one after the other. *)
Inductive Request :=
  | StartGame (body : option StartBody)
  | PlayRound (body : option PlayBody)
  | EndGame
  | GameStatus.

Definition serve (r : Request) : World Cookie -> Response * World Cookie :=
    match r with
    | StartGame body => start_game body
    | PlayRound body => play_round body
    | EndGame => end_game
    | GameStatus => get_game_status
    end.

Fixpoint serve_all (rs : list Request) (w : World Cookie)
    : list Response * World Cookie :=
    match rs with
    | [] => ([], w)
    | r :: rs' =>
        let (reply, w1) := serve r w in
        let (replies, w2) := serve_all rs' w1 in
        (reply :: replies, w2)
    end.

End WithEnv.
End Web.

(* ================================================================== *)
(** ** [cup_game_enhanced.py]: the terminal game *)
(* ================================================================== *)

Module Terminal.
Import PyStr.

(** What the game prints; the layout of the lines is the terminal's
    business, their order and their data are kept. *)
Inductive Msg :=
| MsgIntro (difficulty : Difficulty) (game_mode : GameMode) (n_cups : nat)
| MsgRules (cup_names : list string)
| MsgStatistics
| MsgStarting
| MsgPrompt (text : string)
| MsgTimesUp
| MsgTimeRemaining (remaining : Q)
| MsgAvailableCups (cup_names : list string)
| MsgInvalidInput (cup_names : list string)
| MsgShuffling
| MsgWon (prize prize_cup : string)
| MsgLost (prize_cup : string)
| MsgStreakBroken
| MsgCurrentScore (w l : Z)
| MsgRoundError
| MsgGameOver
| MsgFinalScore (w l : Z)
| MsgDuration (duration : Q)
| MsgWinRate (w l : Z)
| MsgUnexpectedError.

(** The attributes of a [CupGame]; [db_manager] is the table of [Sys] and
    [prizes] the constant list. *)
Record CupGame := mkCupGame {
  difficulty : Difficulty;
  game_mode : GameMode;
  wins : Z;
  losses : Z;
  start_time : option Q;
  config : Config
}.

Definition set_wins (v : Z) (g : CupGame) : CupGame :=
  mkCupGame (difficulty g) (game_mode g) v (losses g) (start_time g) (config g).

Definition set_losses (v : Z) (g : CupGame) : CupGame :=
  mkCupGame (difficulty g) (game_mode g) (wins g) v (start_time g) (config g).

Definition set_start_time (v : option Q) (g : CupGame) : CupGame :=
  mkCupGame (difficulty g) (game_mode g) (wins g) (losses g) v (config g).

(** [CupGame._get_game_config] *)
Definition _get_game_config (difficulty : Difficulty) (game_mode : GameMode) : Config :=
  let configs d :=
    match d with
    | EASY => mkConfig ["left"; "right"] 2%Q None None
    | MEDIUM => mkConfig ["left"; "middle"; "right"] (3 # 2)%Q None None
    | HARD => mkConfig ["left"; "middle-left"; "middle-right"; "right"] 1%Q None None
    end in
  match game_mode with
  | TIMED => set_time_limit (Some 30) (configs difficulty)
  | STREAK => set_max_rounds (Some 10) (configs difficulty)
  | CLASSIC => configs difficulty
  end.

(** [CupGame.__init__] *)
Definition new (difficulty : Difficulty) (game_mode : GameMode) : CupGame :=
  mkCupGame difficulty game_mode 0 0 None (_get_game_config difficulty game_mode).

(** [CupGame.validate_choice] *)
Definition validate_choice (g : CupGame) (choice : string) : bool :=
  str_in (lower choice) (cups (config g)).

(** The game object together with its terminal: the lines still to be
    read and the messages printed so far, oldest first. *)
Record Console := mkConsole {
  game : CupGame;
  stdin : list string;
  stdout : list Msg
}.

Definition set_game (v : CupGame) (c : Console) : Console :=
  mkConsole v (stdin c) (stdout c).

(** The [while not self.validate_choice(user_choice)] loop of [play_round],
    by recursion on the lines not read yet; [input] at the end of the input
    raises [EOFError]. *)
Fixpoint choose_again (g : CupGame) (user_choice : string)
         (lines : list string) (out : list Msg)
  : Result string * list string * list Msg :=
  if validate_choice g user_choice then (Ok user_choice, lines, out)
  else
    let out1 := out ++ [MsgInvalidInput (cups (config g)); MsgPrompt "Choose a cup: "] in
    match lines with
    | [] => (Raise EOFError, [], out1)
    | line :: rest => choose_again g (strip (lower line)) rest out1
    end.

Section WithEnv.
Variable env : Env.

Local Open Scope py_scope.

Abbreviation M := (@Effects.M Console).
Abbreviation ret := Effects.ret.

Definition print (m : Msg) : M unit :=
  Effects.update (fun c => mkConsole (game c) (stdin c) (stdout c ++ [m])).

(** [input(prompt)] *)
Definition input (prompt : string) : M string :=
  print (MsgPrompt prompt) ;;
  c <- Effects.get_obj ;;
  match stdin c with
  | [] => Effects.raise EOFError
  | line :: rest =>
      Effects.put_obj (mkConsole (game c) rest (stdout c)) ;;
      ret line
  end.

Definition self : M CupGame :=
  c <- Effects.get_obj ;; ret (game c).

Definition self_update (f : CupGame -> CupGame) : M unit :=
  Effects.update (fun c => set_game (f (game c)) c).

Definition while_invalid (user_choice : string) : M string :=
  fun w =>
    let c := obj w in
    match choose_again (game c) user_choice (stdin c) (stdout c) with
    | (r, lines, out) => (r, mkWorld (sys w) (mkConsole (game c) lines out))
    end.

(** lines 224-231: [true] when the time is up. *)
Definition check_time_limit : M bool :=
  g <- self ;;
  if GameMode_eqb (game_mode g) TIMED then
    now <- Effects.time_time env ;;
    start <- match start_time g with
             | Some t => ret t
             | None => Effects.raise TypeError
             end ;;
    let elapsed := (now - start)%Q in
    let limit := inject_Z (get_time_limit (config g)) in
    if Qle_bool limit elapsed then
      print MsgTimesUp ;; ret true
    else
      print (MsgTimeRemaining (limit - elapsed)%Q) ;; ret false
  else ret false.

(** lines 236-241: the prompt and the loop that asks again. *)
Definition read_choice : M string :=
  g <- self ;;
  print (MsgAvailableCups (cups (config g))) ;;
  line <- input "Choose a cup: " ;;
  while_invalid (strip (lower line)).

(** lines 243-269: scoring and the rules that end the game. *)
Definition settle_round (user_choice prize_cup prize : string) : M bool :=
  print MsgShuffling ;;
  streak_over <-
    (if (user_choice =? prize_cup)%string then
       self_update (fun g => set_wins (wins g + 1) g) ;;
       print (MsgWon prize prize_cup) ;;
       ret false
     else
       self_update (fun g => set_losses (losses g + 1) g) ;;
       print (MsgLost prize_cup) ;;
       g <- self ;;
       if GameMode_eqb (game_mode g) STREAK then
         print MsgStreakBroken ;; ret true
       else ret false) ;;
  if streak_over then ret false
  else
    g <- self ;;
    print (MsgCurrentScore (wins g) (losses g)) ;;
    match truthy_max_rounds (config g) with
    | Some max =>
        let total_rounds := wins g + losses g in
        if max <=? total_rounds then ret false else ret true
    | None => ret true
    end.

Definition play_round_body : M bool :=
  timed_out <- check_time_limit ;;
  if timed_out then ret false
  else
    g <- self ;;
    prize_cup <- Effects.random_choice env (cups (config g)) ;;
    prize <- Effects.random_choice env prizes ;;
    user_choice <- read_choice ;;
    settle_round user_choice prize_cup prize.

(** [CupGame.play_round]: [True] to go on, [False] to stop. *)
Definition play_round : M bool :=
  Effects.try_except play_round_body
    (fun _ => print MsgRoundError ;; ret false).

(** [CupGame.show_summary] *)
Definition show_summary : M unit :=
  Effects.try_except
    (g <- self ;;
     duration <-
       match start_time g with
       | Some t =>
           if Qeq_bool t 0 then ret None
           else now <- Effects.time_time env ;; ret (Some (now - t)%Q)
       | None => ret None
       end ;;
     print MsgGameOver ;;
     g <- self ;;
     print (MsgFinalScore (wins g) (losses g)) ;;
     match duration with
     | Some d => if Qeq_bool d 0 then ret tt else print (MsgDuration d)
     | None => ret tt
     end ;;
     g <- self ;;
     (if 0 <? wins g + losses g then print (MsgWinRate (wins g) (losses g))
      else ret tt) ;;
     g <- self ;;
     Effects.save_game_session env (Difficulty_value (difficulty g))
                               (GameMode_value (game_mode g))
                               (wins g) (losses g) duration)
    (fun _ => ret tt).

(** The [while True] loop of [run]; one unit of fuel per turn. *)
Fixpoint rounds (fuel : nat) (w : World Console)
  : option (Result unit * World Console) :=
  match fuel with
  | O => None
  | S fuel' =>
      match play_round w with
      | (Ok false, w1) => Some (Ok tt, w1)
      | (Ok true, w1) =>
          if GameMode_eqb (game_mode (game (obj w1))) CLASSIC then
            match input "Play another round? (y/n): " w1 with
            | (Ok again, w2) =>
                if (strip (lower again) =? "y")%string then rounds fuel' w2
                else Some (Ok tt, w2)
            | (Raise e, w2) => Some (Raise e, w2)
            end
          else rounds fuel' w1
      | (Raise e, w1) => Some (Raise e, w1)
      end
  end.

(** lines 338-347 of [run]: everything before the loop. *)
Definition run_intro : M unit :=
  now <- Effects.time_time env ;;
  self_update (set_start_time (Some now)) ;;
  g <- self ;;
  print (MsgIntro (difficulty g) (game_mode g) (List.length (cups (config g)))) ;;
  rules <- input "Would you like to see the rules? (y/n): " ;;
  (if (strip (lower rules) =? "y")%string
   then print (MsgRules (cups (config g))) else ret tt) ;;
  stats <- input "Would you like to see your statistics? (y/n): " ;;
  (if (strip (lower stats) =? "y")%string then print MsgStatistics else ret tt) ;;
  print MsgStarting.

(** [CupGame.run]: an exception that reaches [run] skips the summary. *)
Definition run (fuel : nat) (w : World Console) : option (World Console) :=
  match run_intro w with
  | (Ok _, w1) =>
      match rounds fuel w1 with
      | Some (Ok _, w2) => Some (snd (show_summary w2))
      | Some (Raise _, w2) => Some (snd (print MsgUnexpectedError w2))
      | None => None
      end
  | (Raise _, w1) => Some (snd (print MsgUnexpectedError w1))
  end.

End WithEnv.
End Terminal.

(* ================================================================== *)
(** ** [Cup_Game.py]: the first game *)
(* ================================================================== *)

Module Legacy.
Import PyStr.

Definition choices : list string := ["left"; "middle"; "right"].

(** [CupGame.validate_choice] *)
Definition validate_choice (choice : string) : bool := str_in choice choices.

End Legacy.

(* ================================================================== *)
(** ** [DatabaseManager.get_statistics] and its two readers *)
(* ================================================================== *)

Module Statistics.

(** One row of the [GROUP BY difficulty, game_mode] query, in the order of
    its columns. *)
Record CategoryRow := mkCategoryRow {
  cat_sessions : Z;
  cat_wins : Z;
  cat_losses : Z;
  cat_avg_duration : option Q;
  cat_difficulty : string;
  cat_game_mode : string
}.

Record Overall := mkOverall {
  total_sessions : Z;
  total_wins : Z;
  total_losses : Z;
  avg_duration : Q
}.

Record Stats := mkStats {
  overall : Overall;
  by_category : list CategoryRow
}.

Definition sum_Z (l : list Z) : Z := fold_right Z.add 0 l.

Definition sum_Q (l : list Q) : Q := fold_right Qplus 0%Q l.

(** [COUNT( * )] *)
Definition sql_count (rows : list SessionRecord) : Z := Z.of_nat (List.length rows).

(** [SUM(column)]: [NULL] over no row. *)
Definition sql_sum (vals : list Z) : option Z :=
  match vals with
  | [] => None
  | _ => Some (sum_Z vals)
  end.

(** The values of a nullable column that are not [NULL]. *)
Fixpoint non_null (vals : list (option Q)) : list Q :=
  match vals with
  | [] => []
  | Some q :: rest => q :: non_null rest
  | None :: rest => non_null rest
  end.

(** [AVG(column)]: over the values that are not [NULL]; [NULL] when there
    is none. *)
Definition sql_avg (vals : list (option Q)) : option Q :=
  match non_null vals with
  | [] => None
  | qs => Some (sum_Q qs / inject_Z (Z.of_nat (List.length qs)))%Q
  end.

(** [x or 0] on an integer column and on the average. *)
Definition or_0 (x : option Z) : Z :=
  match x with Some z => z | None => 0 end.

Definition or_0_Q (x : option Q) : Q :=
  match x with
  | Some q => if Qeq_bool q 0 then 0%Q else q
  | None => 0%Q
  end.

Definition category_of (r : SessionRecord) : string * string :=
  (rec_difficulty r, rec_game_mode r).

Definition category_eqb (a b : string * string) : bool :=
  (fst a =? fst b)%string && (snd a =? snd b)%string.

(** The groups of the table.  SQL leaves the order of the groups open;
    they are listed by first appearance. *)
Fixpoint groups (keys : list (string * string)) : list (string * string) :=
  match keys with
  | [] => []
  | k :: rest => k :: filter (fun k' => negb (category_eqb k k')) (groups rest)
  end.

Definition group_rows (table : list SessionRecord) (k : string * string)
  : list SessionRecord :=
  filter (fun r => category_eqb k (category_of r)) table.

(** The aggregates of one group; a group has a row, so its sums are not
    [NULL]. *)
Definition category_row (table : list SessionRecord) (k : string * string)
  : CategoryRow :=
  let rows := group_rows table k in
  mkCategoryRow (sql_count rows)
                (sum_Z (map rec_wins rows))
                (sum_Z (map rec_losses rows))
                (sql_avg (map rec_duration_seconds rows))
                (fst k) (snd k).

Definition no_statistics : Stats := mkStats (mkOverall 0 0 0 0) [].

(** [DatabaseManager.get_statistics] on a table; [read_fails] is an
    [sqlite3.Error] while connecting or querying, which the method answers
    with the empty statistics. *)
Definition get_statistics (read_fails : bool) (table : list SessionRecord) : Stats :=
  if read_fails then no_statistics
  else
    mkStats
      (mkOverall (sql_count table)
                 (or_0 (sql_sum (map rec_wins table)))
                 (or_0 (sql_sum (map rec_losses table)))
                 (or_0_Q (sql_avg (map rec_duration_seconds table))))
      (map (category_row table) (groups (map category_of table))).

(** What [show_statistics] prints. *)
Inductive Line :=
| LineHeader
| LineTotalSessions (n : Z)
| LineTotalWins (n : Z)
| LineTotalLosses (n : Z)
| LineWinRate (total_wins total_losses : Z)
| LineAverageDuration (seconds : Q)
| LineNoHistory
| LineError.

(** [CupGame.show_statistics]: the win rate divides by wins plus losses,
    and the [ZeroDivisionError] is caught after the totals were printed. *)
Definition show_statistics (read_fails : bool) (table : list SessionRecord)
  : list Line :=
  let o := overall (get_statistics read_fails table) in
  LineHeader ::
  (if 0 <? total_sessions o then
     LineTotalSessions (total_sessions o)
     :: LineTotalWins (total_wins o)
     :: LineTotalLosses (total_losses o)
     :: (if total_wins o + total_losses o =? 0 then [LineError]
         else LineWinRate (total_wins o) (total_losses o)
              :: (if Qeq_bool (avg_duration o) 0 then []
                  else [LineAverageDuration (avg_duration o)]))
   else [LineNoHistory]).

End Statistics.

(* ================================================================== *)
(** ** [select_difficulty] and [select_game_mode] *)
(* ================================================================== *)

Module Selection.
Import PyStr.

Inductive Msg :=
| MsgMenu (title : string) (entries : list string)
| MsgPrompt (text : string)
| MsgInvalidChoice.

(** The loop of [select_difficulty], by recursion on the lines not read
    yet.  [None] is a loop that never returns: at the end of the input
    every [input] raises [EOFError], the handler of the loop prints and the
    loop goes round again. *)
Fixpoint select_difficulty_loop (lines : list string) (out : list Msg)
  : option Difficulty * list string * list Msg :=
  let out1 := out ++ [MsgPrompt "Enter choice (1-3): "] in
  match lines with
  | [] => (None, [], out1)
  | line :: rest =>
      let choice := strip line in
      if (choice =? "1")%string then (Some EASY, rest, out1)
      else if (choice =? "2")%string then (Some MEDIUM, rest, out1)
      else if (choice =? "3")%string then (Some HARD, rest, out1)
      else select_difficulty_loop rest (out1 ++ [MsgInvalidChoice])
  end.

Definition select_difficulty (lines : list string) (out : list Msg)
  : option Difficulty * list string * list Msg :=
  select_difficulty_loop lines
    (out ++ [MsgMenu "Select difficulty:"
                     ["1. Easy (2 cups)"; "2. Medium (3 cups)"; "3. Hard (4 cups)"]]).

Fixpoint select_game_mode_loop (lines : list string) (out : list Msg)
  : option GameMode * list string * list Msg :=
  let out1 := out ++ [MsgPrompt "Enter choice (1-3): "] in
  match lines with
  | [] => (None, [], out1)
  | line :: rest =>
      let choice := strip line in
      if (choice =? "1")%string then (Some CLASSIC, rest, out1)
      else if (choice =? "2")%string then (Some TIMED, rest, out1)
      else if (choice =? "3")%string then (Some STREAK, rest, out1)
      else select_game_mode_loop rest (out1 ++ [MsgInvalidChoice])
  end.

Definition select_game_mode (lines : list string) (out : list Msg)
  : option GameMode * list string * list Msg :=
  select_game_mode_loop lines
    (out ++ [MsgMenu "Select game mode:"
                     ["1. Classic (Play until you quit)";
                      "2. Timed (30 second time limit)";
                      "3. Streak (Win 10 rounds in a row)"]]).

End Selection.

(* ================================================================== *)
(** ** [Cup_Game.py]: the rounds and the score file of the first game *)
(* ================================================================== *)

Module LegacyGame.
Import PyStr.

Inductive Msg :=
| MsgIntro
| MsgRules
| MsgPrompt (text : string)
| MsgShuffling
| MsgWon (prize prize_cup : string)
| MsgLost (prize_cup : string)
| MsgSummary (w l : Z).

Definition prizes : list string :=
  [ "a Disney Cruise ticket"; "a Ferrari"; "a mansion in Beverly Hills";
    "a giraffe"; "Jordan Air 1s" ].

Record CupGame := mkCupGame {
  wins : Z;
  losses : Z
}.

(** The game with its terminal and with the lines appended to
    [score_history.txt], each one given by its two numbers; the file can be
    opened for appending. *)
Record Console := mkConsole {
  game : CupGame;
  stdin : list string;
  stdout : list Msg;
  score_history : list (Z * Z)
}.

(** The [while not self.validate_choice(user_choice)] loop of
    [play_round]. *)
Fixpoint choose_again (user_choice : string) (lines : list string) (out : list Msg)
  : Result string * list string * list Msg :=
  if Legacy.validate_choice user_choice then (Ok user_choice, lines, out)
  else
    let out1 := out ++ [MsgPrompt "Invalid input. Choose left, middle, or right: "] in
    match lines with
    | [] => (Raise EOFError, [], out1)
    | line :: rest => choose_again (lower line) rest out1
    end.

Section WithEnv.
Variable env : Env.

Local Open Scope py_scope.

Abbreviation M := (@Effects.M Console).
Abbreviation ret := Effects.ret.

Definition print (m : Msg) : M unit :=
  Effects.update
    (fun c => mkConsole (game c) (stdin c) (stdout c ++ [m]) (score_history c)).

Definition input (prompt : string) : M string :=
  print (MsgPrompt prompt) ;;
  c <- Effects.get_obj ;;
  match stdin c with
  | [] => Effects.raise EOFError
  | line :: rest =>
      Effects.put_obj (mkConsole (game c) rest (stdout c) (score_history c)) ;;
      ret line
  end.

Definition self : M CupGame :=
  c <- Effects.get_obj ;; ret (game c).

Definition self_update (f : CupGame -> CupGame) : M unit :=
  Effects.update
    (fun c => mkConsole (f (game c)) (stdin c) (stdout c) (score_history c)).

Definition while_invalid (user_choice : string) : M string :=
  fun w =>
    let c := obj w in
    match choose_again user_choice (stdin c) (stdout c) with
    | (r, lines, out) =>
        (r, mkWorld (sys w) (mkConsole (game c) lines out (score_history c)))
    end.

(** [CupGame.play_round] *)
Definition play_round : M unit :=
  prize_cup <- Effects.random_choice env Legacy.choices ;;
  prize <- Effects.random_choice env prizes ;;
  line <- input "Choose a cup (left, middle, right): " ;;
  user_choice <- while_invalid (lower line) ;;
  print MsgShuffling ;;
  if (user_choice =? prize_cup)%string then
    self_update (fun g => mkCupGame (wins g + 1) (losses g)) ;;
    print (MsgWon prize prize_cup)
  else
    self_update (fun g => mkCupGame (wins g) (losses g + 1)) ;;
    print (MsgLost prize_cup).

(** [CupGame.save_score] *)
Definition save_score : M unit :=
  Effects.update
    (fun c => mkConsole (game c) (stdin c) (stdout c)
                        (score_history c ++ [(wins (game c), losses (game c))])).

(** [CupGame.show_summary] *)
Definition show_summary : M unit :=
  g <- self ;;
  print (MsgSummary (wins g) (losses g)) ;;
  save_score.

(** The [while True] loop of [run]; one unit of fuel per turn. *)
Fixpoint rounds (fuel : nat) (w : World Console)
  : option (Result unit * World Console) :=
  match fuel with
  | O => None
  | S fuel' =>
      match (play_round ;; input "Play again? (y/n): ") w with
      | (Ok again, w1) =>
          if (lower again =? "y")%string then rounds fuel' w1
          else Some (Ok tt, w1)
      | (Raise e, w1) => Some (Raise e, w1)
      end
  end.

(** [CupGame.run]; nothing in it catches an exception. *)
Definition run (fuel : nat) (w : World Console)
  : option (Result unit * World Console) :=
  let intro : M unit :=
    print MsgIntro ;;
    rules <- input "Would you like to see the rules? (y/n): " ;;
    (if (lower rules =? "y")%string then print MsgRules else ret tt) in
  match intro w with
  | (Ok _, w1) =>
      match rounds fuel w1 with
      | Some (Ok _, w2) => Some (show_summary w2)
      | other => other
      end
  | (Raise e, w1) => Some (Raise e, w1)
  end.

End WithEnv.
End LegacyGame.

(* ================================================================== *)
(** ** Vocabulary of the statements *)
(* ================================================================== *)

Abbreviation game_of w := (Terminal.game (obj w)).
Abbreviation unread w := (List.length (Terminal.stdin (obj w))).

(** The configuration the spec's section 4.1 prescribes. *)
Definition spec_cups (d : Difficulty) : list string :=
  match d with
  | EASY => ["left"; "right"]
  | MEDIUM => ["left"; "middle"; "right"]
  | HARD => ["left"; "middle-left"; "middle-right"; "right"]
  end.

Definition spec_delay (d : Difficulty) : Q :=
  match d with EASY => 2%Q | MEDIUM => (3 # 2)%Q | HARD => 1%Q end.

Definition spec_config (d : Difficulty) (m : GameMode) : Config :=
  mkConfig (spec_cups d) (spec_delay d)
           (match m with TIMED => Some 30 | _ => None end)
           (match m with STREAK => Some 10 | _ => None end).

Definition start_body (d : Difficulty) (m : GameMode) : option Web.StartBody :=
  Some (Web.mkStartBody (Some (Difficulty_value d)) (Some (GameMode_value m))).

Definition is_start_game (r : Web.Request) : bool :=
  match r with Web.StartGame _ => true | _ => false end.

(** What a caller without an active game is answered. *)
Definition inactive_reply (r : Web.Request) : Web.Response :=
  match r with
  | Web.GameStatus => Web.RInactive
  | _ => Web.RError 400 "No active game"
  end.

(** Between two states of one session: the keys no handler but
    [start_game] writes are kept, and the score does not go down. *)
Definition session_le (s s' : Web.Session) : Prop :=
  Web.difficulty s' = Web.difficulty s
  /\ Web.game_mode s' = Web.game_mode s
  /\ Web.config s' = Web.config s
  /\ Web.start_time s' = Web.start_time s
  /\ Web.wins s <= Web.wins s'
  /\ Web.losses s <= Web.losses s'.

(** The bound of a session with a round target: the score stays within
    the target, strictly below it while the game is active. *)
Definition within_target (s : Web.Session) : Prop :=
  forall max, truthy_max_rounds (Web.config s) = Some max ->
    Web.wins s + Web.losses s <= max
    /\ (Web.game_active s = true -> Web.wins s + Web.losses s < max).

Definition cookie_within_target (c : Web.Cookie) : Prop :=
  match c with Some s => within_target s | None => True end.

(** The session [start_game] writes for a difficulty, a mode, a base
    configuration and a clock reading. *)
Definition fresh_session (d m : string) (base : Config) (now : Q) : Web.Session :=
  Web.mkSession true d m
    (if (m =? "timed")%string then set_time_limit (Some 30) base
     else if (m =? "streak")%string then set_max_rounds (Some 10) base
     else base)
    0 0 now 1.

Definition game_le (g g' : Terminal.CupGame) : Prop :=
  Terminal.difficulty g' = Terminal.difficulty g
  /\ Terminal.game_mode g' = Terminal.game_mode g
  /\ Terminal.config g' = Terminal.config g
  /\ Terminal.wins g <= Terminal.wins g'
  /\ Terminal.losses g <= Terminal.losses g'.

Definition score (g : Terminal.CupGame) : Z := Terminal.wins g + Terminal.losses g.

Definition good_session (s : Web.Session) : Prop :=
  within_target s
  /\ forall n, max_rounds (Web.config s) = Some n -> n = 10.

Definition good_cookie (c : Web.Cookie) : Prop :=
  match c with Some s => good_session s | None => True end.

(** A clock that stands still, a random source that counts, and a store
    that is up or down: the environment of the concrete runs below. *)
Definition demo_env (now : Q) (down : bool) : Env :=
  mkEnv (fun _ => now) (fun k => k) (fun _ => down).

Definition demo_session (d m : string) (c : Config) (w l : Z) : Web.Session :=
  Web.mkSession true d m c w l 0%Q (w + l + 1).

Definition play_body (choice : string) : option Web.PlayBody :=
  Some (Web.mkPlayBody (Some choice)).

Definition c9_requests : list Web.Request :=
  [Web.StartGame (start_body EASY STREAK); Web.PlayRound (play_body "left")].

Definition c9_session : Web.Session :=
  Web.mkSession true "easy" "streak" (mkConfig ["left"; "right"] 2 None (Some 10))
                1 0 5 2.

(** The choice as [play_round] compares it with the cups. *)
Definition normalised (data : Web.PlayBody) : string :=
  PyStr.strip (PyStr.lower (Web.get_default (Web.pb_choice data) "")).

(** The world with [lines] as the input still to be read. *)
Definition with_stdin (lines : list string) (w : World Terminal.Console)
  : World Terminal.Console :=
  mkWorld (sys w) (Terminal.mkConsole (Terminal.game (obj w)) lines
                                      (Terminal.stdout (obj w))).

Definition easy_cups : Config := mkConfig ["left"; "right"] 2 None None.
Definition hard_timed : Config :=
  mkConfig ["left"; "middle-left"; "middle-right"; "right"] 1 (Some 30) None.

Definition c2_world : World Web.Cookie :=
  mkWorld (mkSys [] 1 0 0) (Some (demo_session "hard" "timed" hard_timed 2 1)).

Definition c4_world : World Web.Cookie :=
  mkWorld (mkSys [] 1 0 0)
          (Some (demo_session "easy" "streak" (set_max_rounds (Some 10) easy_cups) 3 0)).

Definition c4_after : World Web.Cookie :=
  mkWorld (mkSys [mkRecord "easy" "streak" 3 1 (Some 5%Q)] 2 2 1)
          (Some (Web.mkSession false "easy" "streak"
                               (set_max_rounds (Some 10) easy_cups) 3 1 0 4)).

Definition c5_after : World Web.Cookie :=
  mkWorld (mkSys [] 2 2 1)
          (Some (Web.mkSession false "easy" "streak"
                               (set_max_rounds (Some 10) easy_cups) 3 1 0 4)).

(** The session after the round that breaks a streak. *)
Definition streak_lost (s : Web.Session) : Web.Session :=
  Web.set_game_active false (Web.set_losses (Web.losses s + 1) s).

(** *** Vocabulary of the further properties *)

(** The outcome a reply of [play_round] carries: won flag, prize cup,
    prize, wins, losses. *)
Definition resp_outcome (r : Web.Response) : option (bool * string * string * Z * Z) :=
  match r with
  | Web.RGameOver won cup prize _ w l _ => Some (won, cup, prize, w, l)
  | Web.RRound won cup prize w l _ _ _ => Some (won, cup, prize, w, l)
  | _ => None
  end.

(** What holds of every session the handlers can produce. *)
Definition reach_inv (s : Web.Session) : Prop :=
  0 <= Web.wins s /\ 0 <= Web.losses s
  /\ Web.wins s + Web.losses s <= Web.round_number s <= Web.wins s + Web.losses s + 1
  /\ (Web.game_active s = true -> Web.round_number s = Web.wins s + Web.losses s + 1)
  /\ ((Web.game_mode s =? "streak")%string = true ->
      Web.losses s <= 1 /\ (Web.game_active s = true -> Web.losses s = 0)).

Definition reach_cookie (c : Web.Cookie) : Prop :=
  match c with Some s => reach_inv s | None => True end.

Definition is_play_or_status (r : Web.Request) : bool :=
  match r with Web.PlayRound _ | Web.GameStatus => true | _ => false end.

(** No rule of [play_round] or [get_game_status] ends the session: it is
    neither timed nor a streak and has no round target. *)
Definition open_ended (s : Web.Session) : Prop :=
  (Web.game_mode s =? "timed")%string = false
  /\ (Web.game_mode s =? "streak")%string = false
  /\ truthy_max_rounds (Web.config s) = None.

(** A store whose first [INSERT] fails and whose later ones succeed. *)
Definition flaky_env (now : Q) : Env :=
  mkEnv (fun _ => now) (fun k => k) (fun k => Nat.eqb k 0).

(** The line as the terminal game compares it with the cups. *)
Definition typed (line : string) : string := PyStr.strip (PyStr.lower line).

(** Whether the loop of [run] goes on after a round that left the score at
    [total]. *)
Definition goes_on (c : Config) (total : Z) : bool :=
  match truthy_max_rounds c with
  | Some max => negb (max <=? total)
  | None => true
  end.

(** The row [show_summary] writes for a game. *)
Definition summary_record (g : Terminal.CupGame) (duration : option Q) : SessionRecord :=
  mkRecord (Difficulty_value (Terminal.difficulty g)) (GameMode_value (Terminal.game_mode g))
           (Terminal.wins g) (Terminal.losses g) duration.


Definition row_category (row : Statistics.CategoryRow) : string * string :=
  (Statistics.cat_difficulty row, Statistics.cat_game_mode row).

(** What a line of the two menus selects. *)
Definition menu_choice {A} (one two three : A) (line : string) : option A :=
  let choice := PyStr.strip line in
  if (choice =? "1")%string then Some one
  else if (choice =? "2")%string then Some two
  else if (choice =? "3")%string then Some three
  else None.

(** What a menu prints for the lines it refuses. *)
Definition refusals (bad : list string) : list Selection.Msg :=
  flat_map (fun _ => [Selection.MsgPrompt "Enter choice (1-3): ";
                      Selection.MsgInvalidChoice]) bad.

Abbreviation legacy_game w := (LegacyGame.game (obj w)).
Abbreviation legacy_score w :=
  (LegacyGame.wins (LegacyGame.game (obj w)) + LegacyGame.losses (LegacyGame.game (obj w))).
Abbreviation legacy_unread w := (List.length (LegacyGame.stdin (obj w))).

Definition classic_session : Web.Session :=
  demo_session "medium" "classic" (mkConfig ["left"; "middle"; "right"] (3 # 2) None None) 4 2.

Definition streak_game (lines : list string) : World Terminal.Console :=
  mkWorld (mkSys [] 0 0 0) (Terminal.mkConsole (Terminal.new EASY STREAK) lines []).

Definition two_sessions : list SessionRecord :=
  [mkRecord "easy" "classic" 3 2 (Some 100%Q); mkRecord "medium" "timed" 5 1 None].

Definition legacy_console (lines : list string) : World LegacyGame.Console :=
  mkWorld (mkSys [] 0 0 0) (LegacyGame.mkConsole (LegacyGame.mkCupGame 0 0) lines [] []).

(* ================================================================== *)
(** * Properties *)
(* ================================================================== *)

(** ** Strings *)

Module PyStrFacts.
Import PyStr.
Local Open Scope string_scope.

Lemma isspace_not_upper (c : ascii) : isspace c = true -> lower_char c = c.
Proof.
  destruct c as [[] [] [] [] [] [] [] []]; vm_compute; congruence.
Qed.

Lemma isspace_lower_char (c : ascii) : isspace (lower_char c) = isspace c.
Proof.
  destruct c as [[] [] [] [] [] [] [] []]; vm_compute; reflexivity.
Qed.

Lemma lower_char_idem (c : ascii) : lower_char (lower_char c) = lower_char c.
Proof.
  destruct c as [[] [] [] [] [] [] [] []]; vm_compute; reflexivity.
Qed.

Lemma lower_idem (s : string) : lower (lower s) = lower s.
Proof.
  induction s as [|c s IH]; cbn [lower]; [reflexivity|].
  now rewrite lower_char_idem, IH.
Qed.

Lemma lower_app (a b : string) : lower (a ++ b) = lower a ++ lower b.
Proof.
  induction a as [|c a IH]; cbn [lower append]; [reflexivity|].
  now rewrite IH.
Qed.

Lemma blank_lower (s : string) : blank s = true -> lower s = s.
Proof.
  induction s as [|c s IH]; cbn [blank lower]; [reflexivity|].
  intros H. apply andb_true_iff in H as [Hc Hs].
  now rewrite (isspace_not_upper c Hc), (IH Hs).
Qed.

Lemma lstrip_blank (s : string) : blank s = true -> lstrip s = "".
Proof.
  induction s as [|c s IH]; cbn [blank lstrip]; [reflexivity|].
  intros H. apply andb_true_iff in H as [Hc Hs].
  rewrite Hc. auto.
Qed.

Lemma rstrip_blank (s : string) : blank s = true -> rstrip s = "".
Proof.
  induction s as [|c s IH]; cbn [blank rstrip]; [reflexivity|].
  intros H. apply andb_true_iff in H as [Hc Hs].
  now rewrite (IH Hs), Hc.
Qed.

Lemma lstrip_blank_app (p s : string) : blank p = true -> lstrip (p ++ s) = lstrip s.
Proof.
  induction p as [|c p IH]; cbn [blank lstrip append]; [reflexivity|].
  intros H. apply andb_true_iff in H as [Hc Hp].
  rewrite Hc. auto.
Qed.

Lemma rstrip_app_blank (s q : string) : blank q = true -> rstrip (s ++ q) = rstrip s.
Proof.
  intros Hq. induction s as [|c s IH]; cbn [rstrip append].
  - now apply rstrip_blank.
  - now rewrite IH.
Qed.

Lemma strip_app_blank (s q : string) : blank q = true -> strip (s ++ q) = strip s.
Proof.
  intros Hq. unfold strip. induction s as [|c s IH]; cbn [lstrip append].
  - now rewrite (lstrip_blank q Hq).
  - destruct (isspace c); [exact IH|].
    change (String c (s ++ q)) with (String c s ++ q).
    now apply rstrip_app_blank.
Qed.

(** White space around a string is invisible to [strip]. *)
Lemma strip_surrounded (p s q : string) :
  blank p = true -> blank q = true -> strip (p ++ s ++ q) = strip s.
Proof.
  intros Hp Hq. unfold strip at 1. rewrite (lstrip_blank_app p _ Hp).
  now apply strip_app_blank.
Qed.

(** The normalisation of the callers, [.lower().strip()]. *)
Lemma normalise_surrounded (p s q : string) :
  blank p = true -> blank q = true ->
  strip (lower (p ++ s ++ q)) = strip (lower s).
Proof.
  intros Hp Hq. rewrite !lower_app, (blank_lower p Hp), (blank_lower q Hq).
  now apply strip_surrounded.
Qed.

Lemma str_in_In (x : string) (l : list string) : str_in x l = true <-> In x l.
Proof.
  unfold str_in. rewrite existsb_exists. split.
  - intros [y [Hy He]]. apply String.eqb_eq in He. now subst.
  - intros H. exists x. split; [assumption|apply String.eqb_refl].
Qed.

End PyStrFacts.

(** ** Configuration *)

Lemma spec_cups_NoDup (d : Difficulty) : NoDup (spec_cups d).
Proof.
  destruct d; cbn;
    repeat (constructor; [cbn; intuition discriminate|]); constructor.
Qed.

Lemma web_start_game_run (env : Env) (d : Difficulty) (m : GameMode)
      (w : World Web.Cookie) :
  Web.start_game env (start_body d m) w =
  (Web.RStarted (spec_config d m)
                ("Started " ++ Difficulty_value d ++ " " ++ GameMode_value m ++ " game!"),
   mkWorld (mkSys (db (sys w)) (S (clock_pos (sys w))) (rng_pos (sys w)) (save_pos (sys w)))
           (Some (Web.mkSession true (Difficulty_value d) (GameMode_value m)
                                (spec_config d m) 0 0
                                (clock env (clock_pos (sys w))) 1))).
Proof.
  destruct d, m; reflexivity.
Qed.

(** C6. Configuration derivation is a function of (difficulty, mode) alone:
    easy gives the cups left, right and a 2.0 s delay, medium left, middle,
    right and 1.5 s, hard left, middle-left, middle-right, right and 1.0 s;
    the names are distinct; timed adds a time limit of 30, streak a target
    of 10 rounds, classic neither.  The terminal's [_get_game_config] and
    the configuration [start_game] answers and stores agree on it, whatever
    the state of the world. *)
Theorem C6_configuration_derivation :
  forall (d : Difficulty) (m : GameMode),
    let c := Terminal._get_game_config d m in
    cups c = match d with
             | EASY => ["left"; "right"]
             | MEDIUM => ["left"; "middle"; "right"]
             | HARD => ["left"; "middle-left"; "middle-right"; "right"]
             end
    /\ List.length (cups c) = match d with EASY => 2 | MEDIUM => 3 | HARD => 4 end%nat
    /\ NoDup (cups c)
    /\ shuffle_time c = match d with EASY => 2%Q | MEDIUM => (3 # 2)%Q | HARD => 1%Q end
    /\ time_limit c = match m with TIMED => Some 30 | _ => None end
    /\ max_rounds c = match m with STREAK => Some 10 | _ => None end
    /\ forall (env : Env) (w : World Web.Cookie),
         exists message w',
           Web.start_game env (start_body d m) w = (Web.RStarted c message, w')
           /\ option_map Web.config (obj w') = Some c.
Proof.
  intros d m c. subst c.
  replace (Terminal._get_game_config d m) with (spec_config d m)
    by (destruct d, m; reflexivity).
  repeat apply conj.
  - destruct d; reflexivity.
  - destruct d; reflexivity.
  - apply spec_cups_NoDup.
  - destruct d; reflexivity.
  - reflexivity.
  - reflexivity.
  - intros env w. rewrite web_start_game_run. eauto.
Qed.

(** ** The web handlers, request by request *)

Ltac web_unfold :=
  unfold Web.serve, Web.play_round, Web.end_game, Web.get_game_status,
    Web.start_game, Web.handler, Web.play_round_body, Web.end_game_body,
    Web.get_game_status_body, Web.start_game_body, Web.check_time_limit,
    Web.score_round, Web.check_max_rounds, Web.session_update,
    Web.the_session, Web.get_json, Web.session_get_game_active,
    Effects.bind, Effects.ret, Effects.raise, Effects.get_obj,
    Effects.put_obj, Effects.time_time, Effects.random_choice,
    Effects.save_game_session.

(** One case analysis on the innermost scrutinee the goal is stuck on. *)
Ltac case_step :=
  match goal with
  | |- context [match ?x with _ => _ end] =>
      lazymatch x with
      | context [match _ with _ => _ end] => fail
      | _ => destruct x eqn:?
      end
  end.

Ltac case_all := repeat (case_step; cbn in * ).

Section WebFacts.
Variable env : Env.

Lemma web_inactive_noop (r : Web.Request) (w : World Web.Cookie) :
  Web.session_get_game_active (obj w) = false ->
  is_start_game r = false ->
  Web.serve env r w = (inactive_reply r, w).
Proof.
  destruct w as [sy [s|]], r; cbn; intros Ha Hr; try discriminate;
    web_unfold; cbn; try rewrite Ha; reflexivity.
Qed.

Lemma web_serve_all_inactive (rs : list Web.Request) (w : World Web.Cookie) :
  Web.session_get_game_active (obj w) = false ->
  forallb (fun r => negb (is_start_game r)) rs = true ->
  Web.serve_all env rs w = (map inactive_reply rs, w).
Proof.
  intros Ha. induction rs as [|r rs IH]; cbn [forallb map Web.serve_all];
    [reflexivity|].
  intros H. apply andb_true_iff in H as [Hr Hrs].
  apply negb_true_iff in Hr.
  now rewrite (web_inactive_noop r w Ha Hr), (IH Hrs).
Qed.

Lemma session_le_refl (s : Web.Session) : session_le s s.
Proof. unfold session_le. repeat apply conj; try reflexivity; lia. Qed.

Lemma session_le_trans (a b c : Web.Session) :
  session_le a b -> session_le b c -> session_le a c.
Proof.
  unfold session_le. intros (?&?&?&?&?&?) (?&?&?&?&?&?).
  repeat apply conj; try congruence; lia.
Qed.

(** A request that is not [start_game] keeps the session and moves the
    score by at most one round, upward. *)
Lemma web_serve_step (r : Web.Request) (sy : Sys) (s : Web.Session) :
  is_start_game r = false ->
  exists s',
    obj (snd (Web.serve env r (mkWorld sy (Some s)))) = Some s'
    /\ session_le s s'
    /\ Web.wins s' + Web.losses s' <= Web.wins s + Web.losses s + 1
    /\ (Web.game_active s' = true -> Web.game_active s = true)
    /\ (forall max, truthy_max_rounds (Web.config s) = Some max ->
        Web.game_active s' = true ->
        Web.wins s' + Web.losses s' <> Web.wins s + Web.losses s ->
        Web.wins s' + Web.losses s' < max).
Proof.
  intros Hr. destruct s as [act d m c wi lo st rn].
  destruct r as [b|b| |]; [discriminate Hr| | |];
    web_unfold; cbn; case_all;
    (eexists; split; [reflexivity|]); unfold session_le; cbn;
    repeat apply conj; try reflexivity; try lia; try congruence;
    try (intros; lia);
    try (intros max Hm; inversion Hm; subst; intros; lia).
Qed.

Lemma web_serve_within_target (r : Web.Request) (sy : Sys) (s : Web.Session) :
  is_start_game r = false ->
  within_target s ->
  cookie_within_target (obj (snd (Web.serve env r (mkWorld sy (Some s))))).
Proof.
  intros Hr Hs.
  destruct (web_serve_step r sy s Hr) as (s' & Hs' & Hle & Hsum & Hact & Hmax).
  rewrite Hs'. cbn. intros max Hm.
  destruct Hle as (_ & _ & Hc & _ & Hw & Hl).
  rewrite Hc in Hm. specialize (Hs max Hm) as [Hbound Hstrict].
  specialize (Hmax max Hm).
  destruct (Z.eq_dec (Web.wins s' + Web.losses s') (Web.wins s + Web.losses s))
    as [He|Hne].
  - rewrite He. split; [assumption|]. intros Ha. auto.
  - destruct (Web.game_active s') eqn:Ha.
    + specialize (Hmax eq_refl Hne). split; [lia|intros; lia].
    + split; [|discriminate].
      destruct (Web.game_active s) eqn:Hs0.
      * specialize (Hstrict eq_refl). lia.
      * exfalso. apply Hne.
        pose proof (web_inactive_noop r (mkWorld sy (Some s)) Hs0 Hr) as Hn.
        rewrite Hn in Hs'. cbn in Hs'. inversion Hs'. reflexivity.
Qed.

End WebFacts.

Section WebStart.
Variable env : Env.

Lemma game_config_valid (d : string) :
  PyStr.str_in d ["easy"; "medium"; "hard"] = true ->
  exists c, Web.game_config d = Some c /\ time_limit c = None /\ max_rounds c = None.
Proof.
  intros H. apply PyStrFacts.str_in_In in H. cbn in H.
  destruct H as [<-|[<-|[<-|[]]]]; eexists; (split; [reflexivity|]); split; reflexivity.
Qed.

Lemma game_config_max_rounds (d : string) (c : Config) :
  Web.game_config d = Some c -> max_rounds c = None.
Proof.
  unfold Web.game_config.
  repeat (destruct (_ =? _)%string; [intros H; inversion H; reflexivity|]).
  discriminate.
Qed.

(** [start_game] either answers an error and leaves the world as it is, or
    overwrites the session with a fresh one; it never touches the table. *)
Lemma web_start_game_cases (body : option Web.StartBody) (w : World Web.Cookie) :
  (exists status error,
      Web.start_game env body w = (Web.RError status error, w))
  \/ (exists d m base,
         Web.game_config d = Some base
         /\ Web.start_game env body w =
            (Web.RStarted (Web.config (fresh_session d m base (clock env (clock_pos (sys w)))))
                          ("Started " ++ d ++ " " ++ m ++ " game!"),
             mkWorld (mkSys (db (sys w)) (S (clock_pos (sys w))) (rng_pos (sys w))
                            (save_pos (sys w)))
                     (Some (fresh_session d m base (clock env (clock_pos (sys w))))))).
Proof.
  destruct body as [[od om]|]; web_unfold; cbn -[PyStr.str_in Web.game_config].
  - destruct (PyStr.str_in _ ["easy"; "medium"; "hard"]); cbn -[PyStr.str_in Web.game_config];
      [|left; eauto].
    destruct (PyStr.str_in _ ["classic"; "timed"; "streak"]); cbn -[Web.game_config];
      [|left; eauto].
    destruct (Web.game_config _) as [base|] eqn:Hb; cbn; [|left; eauto].
    right. exists (Web.get_default od "easy"), (Web.get_default om "classic"), base.
    split; [exact Hb|]. unfold fresh_session. cbn. reflexivity.
  - left; eauto.
Qed.

Lemma fresh_session_within_target (d m : string) (base : Config) (now : Q) :
  max_rounds base = None ->
  within_target (fresh_session d m base now)
  /\ (forall n, max_rounds (Web.config (fresh_session d m base now)) = Some n -> n = 10).
Proof.
  intros Hb. unfold within_target, fresh_session, truthy_max_rounds. cbn.
  destruct (m =? "timed")%string; [|destruct (m =? "streak")%string]; cbn;
    rewrite ?Hb; split; intros n Hn; inversion Hn; subst; try split; intros; lia.
Qed.

Lemma web_start_game_valid (data : Web.StartBody) (w : World Web.Cookie) :
  let d := Web.get_default (Web.sb_difficulty data) "easy" in
  let m := Web.get_default (Web.sb_game_mode data) "classic" in
  PyStr.str_in d ["easy"; "medium"; "hard"] = true ->
  PyStr.str_in m ["classic"; "timed"; "streak"] = true ->
  exists base,
    Web.game_config d = Some base
    /\ Web.start_game env (Some data) w =
       (Web.RStarted (Web.config (fresh_session d m base (clock env (clock_pos (sys w)))))
                     ("Started " ++ d ++ " " ++ m ++ " game!"),
        mkWorld (mkSys (db (sys w)) (S (clock_pos (sys w))) (rng_pos (sys w))
                       (save_pos (sys w)))
                (Some (fresh_session d m base (clock env (clock_pos (sys w)))))).
Proof.
  intros d m Hd Hm.
  destruct (game_config_valid d Hd) as (base & Hb & _).
  exists base. split; [exact Hb|].
  destruct data as [od om]. subst d m. cbn [Web.sb_difficulty Web.sb_game_mode] in *.
  web_unfold. cbn -[PyStr.str_in Web.game_config].
  rewrite Hd. cbn -[PyStr.str_in Web.game_config].
  rewrite Hm. cbn -[Web.game_config]. rewrite Hb. reflexivity.
Qed.

End WebStart.

(** ** The terminal game, round by round *)

Ltac term_unfold :=
  unfold Terminal.play_round, Terminal.play_round_body,
    Terminal.check_time_limit, Terminal.read_choice, Terminal.settle_round,
    Terminal.show_summary, Terminal.run_intro, Terminal.while_invalid,
    Terminal.input, Terminal.print, Terminal.self, Terminal.self_update,
    Terminal.set_game, Effects.try_except, Effects.update,
    Effects.bind, Effects.ret, Effects.raise, Effects.get_obj,
    Effects.put_obj, Effects.time_time, Effects.random_choice,
    Effects.save_game_session.


Lemma game_le_refl (g : Terminal.CupGame) : game_le g g.
Proof. unfold game_le. repeat apply conj; try reflexivity; lia. Qed.

Lemma game_le_trans (a b c : Terminal.CupGame) :
  game_le a b -> game_le b c -> game_le a c.
Proof.
  unfold game_le. intros (?&?&?&?&?) (?&?&?&?&?).
  repeat apply conj; try congruence; lia.
Qed.

Lemma choose_again_length g u l out r l' out' :
  Terminal.choose_again g u l out = (r, l', out') ->
  (List.length l' <= List.length l)%nat.
Proof.
  revert u out. induction l as [|x l IH]; intros u out; cbn [Terminal.choose_again].
  - destruct (Terminal.validate_choice g u); intros H; inversion H; subst; cbn; lia.
  - destruct (Terminal.validate_choice g u).
    + intros H; inversion H; subst; cbn; lia.
    + intros H. apply IH in H. cbn. lia.
Qed.

(** What the loop returns and what it leaves unread do not depend on what
    was printed before. *)
Lemma choose_again_stdout g u l out1 out2 :
  fst (Terminal.choose_again g u l out1) = fst (Terminal.choose_again g u l out2).
Proof.
  revert u out1 out2. induction l as [|x l IH]; intros u out1 out2;
    cbn [Terminal.choose_again]; destruct (Terminal.validate_choice g u);
    try reflexivity.
  apply IH.
Qed.

Section TerminalFacts.
Variable env : Env.

(** [play_round] never raises, keeps the configuration, moves the score by
    at most one round, and answers [True] only after it has read a line
    and with the score below the target when there is one. *)
Lemma terminal_play_round_step (w : World Terminal.Console) :
  exists b w',
    Terminal.play_round env w = (Ok b, w')
    /\ game_le (game_of w) (game_of w')
    /\ score (game_of w') <= score (game_of w) + 1
    /\ (unread w' <= unread w)%nat
    /\ (b = true ->
        (unread w' < unread w)%nat
        /\ forall max, truthy_max_rounds (Terminal.config (game_of w)) = Some max ->
             score (game_of w') < max).
Proof.
  destruct w as [sy [[d m wi lo st c] lines out]].
  term_unfold. cbn. case_all.
  all: repeat match goal with
       | H : Terminal.choose_again _ _ _ _ = _ |- _ => apply choose_again_length in H
       end.
  all: do 2 eexists; (split; [reflexivity|]); unfold game_le, score; cbn in *.
  all: repeat apply conj; try reflexivity; try lia; try congruence.
  all: try (intros Hb; try discriminate Hb; split; [lia|];
            intros max Hm; inversion Hm; subst; lia).
Qed.

Lemma terminal_input_game (prompt : string) (w : World Terminal.Console) r w' :
  Terminal.input prompt w = (r, w') ->
  game_of w' = game_of w /\ (unread w' <= unread w)%nat.
Proof.
  destruct w as [sy [g lines out]]. term_unfold. cbn.
  destruct lines; cbn; intros H; inversion H; subst; cbn; split; auto; lia.
Qed.

(** The loop keeps the score within a target it started below. *)
Lemma terminal_rounds_spec (fuel : nat) :
  forall (w : World Terminal.Console) r w',
    Terminal.rounds env fuel w = Some (r, w') ->
    game_le (game_of w) (game_of w')
    /\ forall max, truthy_max_rounds (Terminal.config (game_of w)) = Some max ->
         score (game_of w) < max -> score (game_of w') <= max.
Proof.
  induction fuel as [|fuel IH]; intros w r w'; cbn [Terminal.rounds]; [discriminate|].
  destruct (terminal_play_round_step w) as (b & w1 & Hp & Hle & Hsc & _ & Hb).
  rewrite Hp. destruct b.
  - destruct (Hb eq_refl) as [_ Hmax].
    assert (Hcfg : Terminal.config (game_of w1) = Terminal.config (game_of w))
      by apply Hle.
    assert (Hgo : forall w2 r w',
               game_of w2 = game_of w1 ->
               Terminal.rounds env fuel w2 = Some (r, w') ->
               game_le (game_of w) (game_of w')
               /\ forall max, truthy_max_rounds (Terminal.config (game_of w)) = Some max ->
                    score (game_of w) < max -> score (game_of w') <= max).
    { intros w2 r2 w2' Hg H2. apply IH in H2. rewrite Hg in H2.
      destruct H2 as [Hle2 Hb2]. split; [eapply game_le_trans; eassumption|].
      intros max Hm _. apply Hb2; [now rewrite Hcfg|auto]. }
    destruct (GameMode_eqb _ CLASSIC).
    + destruct (Terminal.input _ w1) as [[again|e] w2] eqn:Hi;
        apply terminal_input_game in Hi as [Hg _].
      * destruct (_ =? _)%string.
        -- apply Hgo; assumption.
        -- intros H; inversion H; subst. rewrite Hg. split; [assumption|].
           intros max Hm _. specialize (Hmax max Hm). lia.
      * intros H; inversion H; subst. rewrite Hg. split; [assumption|].
        intros max Hm _. specialize (Hmax max Hm). lia.
    + apply Hgo. reflexivity.
  - intros H; inversion H; subst. split; [assumption|]. intros; lia.
Qed.

(** The loop ends: every turn but the last reads a line. *)
Lemma terminal_rounds_terminates (fuel : nat) :
  forall w : World Terminal.Console,
    (unread w < fuel)%nat -> exists res, Terminal.rounds env fuel w = Some res.
Proof.
  induction fuel as [|fuel IH]; intros w Hlen; [lia|]. cbn [Terminal.rounds].
  destruct (terminal_play_round_step w) as (b & w1 & Hp & _ & _ & _ & Hb).
  rewrite Hp. destruct b; [|eauto].
  destruct (Hb eq_refl) as [Hlt _].
  destruct (GameMode_eqb _ CLASSIC).
  - destruct (Terminal.input _ w1) as [[again|e] w2] eqn:Hi; [|eauto].
    apply terminal_input_game in Hi as [_ Hl].
    destruct (_ =? _)%string; [|eauto]. apply IH. lia.
  - apply IH. lia.
Qed.

(** [show_summary] never raises and leaves the game as it is; it adds to
    the table at most the one row of this game. *)
Lemma terminal_show_summary_spec (w : World Terminal.Console) :
  exists w',
    Terminal.show_summary env w = (Ok tt, w')
    /\ game_of w' = game_of w
    /\ (db (sys w') = db (sys w)
        \/ exists duration,
             db (sys w') =
             db (sys w) ++ [mkRecord (Difficulty_value (Terminal.difficulty (game_of w)))
                                     (GameMode_value (Terminal.game_mode (game_of w)))
                                     (Terminal.wins (game_of w))
                                     (Terminal.losses (game_of w)) duration]).
Proof.
  destruct w as [sy [[d m wi lo st c] lines out]].
  term_unfold. cbn. case_all; eexists; (split; [reflexivity|]); cbn;
    (split; [reflexivity|]); eauto.
Qed.

Lemma terminal_run_intro_spec (w : World Terminal.Console) r w' :
  Terminal.run_intro env w = (r, w') ->
  (exists t, game_of w' = Terminal.set_start_time t (game_of w))
  /\ (unread w' <= unread w)%nat.
Proof.
  destruct w as [sy [[d m wi lo st c] lines out]].
  term_unfold. cbn. case_all; intros H; inversion H; subst; cbn;
    (split; [eexists; unfold Terminal.set_start_time; cbn; reflexivity|]);
    repeat match goal with H : _ :: _ = _ |- _ => rewrite <- H end; cbn; lia.
Qed.

(** A whole [run]: with one unit of fuel more than there are lines to read
    it ends, and the final score is within the target reached from a score
    below it. *)
Lemma terminal_run_spec (w : World Terminal.Console) :
  exists w',
    Terminal.run env (S (unread w)) w = Some w'
    /\ game_le (game_of w) (game_of w')
    /\ forall max, truthy_max_rounds (Terminal.config (game_of w)) = Some max ->
         score (game_of w) < max -> score (game_of w') <= max.
Proof.
  unfold Terminal.run.
  destruct (Terminal.run_intro env w) as [[[]|e] w1] eqn:Hi;
    apply terminal_run_intro_spec in Hi as [[t Ht] Hlen].
  - destruct (terminal_rounds_terminates (S (unread w)) w1) as [[r w2] Hr]; [lia|].
    rewrite Hr. apply terminal_rounds_spec in Hr as [Hle2 Hb].
    rewrite Ht in Hle2, Hb.
    assert (Hle : game_le (game_of w) (game_of w2)).
    { eapply game_le_trans; [|exact Hle2].
      unfold game_le. cbn. repeat apply conj; try reflexivity; lia. }
    destruct r as [[]|e].
    + destruct (terminal_show_summary_spec w2) as (w3 & Hs & Hg & _).
      rewrite Hs. cbn [snd]. eexists; split; [reflexivity|]. rewrite Hg.
      split; [assumption|]. intros max Hm Hlt. now apply Hb.
    + eexists; split; [reflexivity|]. cbn [snd].
      change (game_of (snd (Terminal.print Terminal.MsgUnexpectedError w2)))
        with (game_of w2).
      split; [assumption|]. intros max Hm Hlt. now apply Hb.
  - eexists; split; [reflexivity|].
    change (game_of (snd (Terminal.print Terminal.MsgUnexpectedError w1)))
      with (game_of w1).
    rewrite Ht. split.
    + unfold game_le. cbn. repeat apply conj; try reflexivity; lia.
    + intros max _ Hlt. unfold score in *. cbn. lia.
Qed.

End TerminalFacts.

(** ** Sequences of requests *)

Section WebRuns.
Variable env : Env.

Lemma web_serve_all_cons (r : Web.Request) (rs : list Web.Request)
      (w : World Web.Cookie) :
  snd (Web.serve_all env (r :: rs) w)
  = snd (Web.serve_all env rs (snd (Web.serve env r w))).
Proof.
  cbn [Web.serve_all]. destruct (Web.serve env r w) as [reply w1]. cbn [snd].
  destruct (Web.serve_all env rs w1). reflexivity.
Qed.

Lemma web_serve_all_le (rs : list Web.Request) :
  forall (sy : Sys) (s : Web.Session),
    forallb (fun r => negb (is_start_game r)) rs = true ->
    exists s',
      obj (snd (Web.serve_all env rs (mkWorld sy (Some s)))) = Some s'
      /\ session_le s s'.
Proof.
  induction rs as [|r rs IH]; intros sy s H.
  - exists s. split; [reflexivity|apply session_le_refl].
  - cbn [forallb] in H. apply andb_true_iff in H as [Hr Hrs].
    apply negb_true_iff in Hr. rewrite web_serve_all_cons.
    destruct (web_serve_step env r sy s Hr) as (s1 & H1 & Hle & _).
    destruct (snd (Web.serve env r (mkWorld sy (Some s)))) as [sy1 c1].
    cbn in H1. subst c1.
    destruct (IH sy1 s1 Hrs) as (s2 & H2 & Hle2).
    exists s2. split; [assumption|].
    eapply session_le_trans; eassumption.
Qed.

Lemma web_serve_good (r : Web.Request) (w : World Web.Cookie) :
  good_cookie (obj w) -> good_cookie (obj (snd (Web.serve env r w))).
Proof.
  intros Hg. destruct (is_start_game r) eqn:Hr.
  - destruct r as [body| | |]; try discriminate. cbn [Web.serve].
    destruct (web_start_game_cases env body w)
      as [(st & er & H)|(d & m & base & Hb & H)]; rewrite H; cbn [snd obj];
      [assumption|].
    apply fresh_session_within_target. eapply game_config_max_rounds; eassumption.
  - destruct w as [sy [s|]].
    + destruct Hg as [Hw Hn].
      pose proof (web_serve_within_target env r sy s Hr Hw) as Hw'.
      destruct (web_serve_step env r sy s Hr) as (s' & Hs' & Hle & _).
      rewrite Hs' in Hw' |- *. cbn [good_cookie cookie_within_target] in *.
      split; [exact Hw'|].
      destruct Hle as (_ & _ & Hc & _). rewrite Hc. exact Hn.
    + rewrite (web_inactive_noop env r (mkWorld sy None)); [exact I|reflexivity|assumption].
Qed.

Lemma web_serve_all_good (rs : list Web.Request) :
  forall w : World Web.Cookie,
    good_cookie (obj w) -> good_cookie (obj (snd (Web.serve_all env rs w))).
Proof.
  induction rs as [|r rs IH]; intros w Hg; [assumption|].
  rewrite web_serve_all_cons. apply IH. now apply web_serve_good.
Qed.

End WebRuns.

(** ** The claims *)

(** C10. A call of [start_game] with a valid difficulty and mode writes a
    fresh session (no wins, no losses, active, started at the clock's
    reading) whatever the caller's session was, also over a game in
    progress; it makes no attempt on the store, the table stays as it was,
    and neither the answer nor the world after the call depends on the
    session it replaced. *)
Theorem C10_start_game_reinitialises :
  forall (env : Env) (data : Web.StartBody) (w : World Web.Cookie),
    let d := Web.get_default (Web.sb_difficulty data) "easy" in
    let m := Web.get_default (Web.sb_game_mode data) "classic" in
    PyStr.str_in d ["easy"; "medium"; "hard"] = true ->
    PyStr.str_in m ["classic"; "timed"; "streak"] = true ->
    exists cfg message w',
      Web.start_game env (Some data) w = (Web.RStarted cfg message, w')
      /\ obj w' = Some (Web.mkSession true d m cfg 0 0 (clock env (clock_pos (sys w))) 1)
      /\ db (sys w') = db (sys w)
      /\ save_pos (sys w') = save_pos (sys w)
      /\ forall old : Web.Cookie,
           Web.start_game env (Some data) (mkWorld (sys w) old)
           = (Web.RStarted cfg message, w').
Proof.
  intros env data w d m Hd Hm.
  destruct (web_start_game_valid env data w Hd Hm) as (base & Hb & H).
  do 3 eexists. split; [exact H|]. cbn [obj sys db save_pos].
  repeat apply conj; try reflexivity.
  intros old.
  destruct (web_start_game_valid env data (mkWorld (sys w) old) Hd Hm)
    as (base' & Hb' & H').
  fold d m in Hb, Hb'. rewrite Hb in Hb'. inversion Hb'. subst base'.
  exact H'.
Qed.

Lemma C10_start_game_reinitialises_witness :
  exists cfg message w',
    Web.start_game (demo_env 7 false)
                   (Some (Web.mkStartBody (Some "hard") None))
                   (mkWorld (mkSys [] 3 4 0)
                            (Some (demo_session "easy" "streak"
                                     (mkConfig ["left"; "right"] 2 None (Some 10)) 3 0)))
    = (Web.RStarted cfg message, w')
    /\ obj w' = Some (Web.mkSession true "hard" "classic" cfg 0 0 7 1)
    /\ db (sys w') = []
    /\ save_pos (sys w') = 0%nat
    /\ forall old : Web.Cookie,
         Web.start_game (demo_env 7 false)
                        (Some (Web.mkStartBody (Some "hard") None))
                        (mkWorld (mkSys [] 3 4 0) old)
         = (Web.RStarted cfg message, w').
Proof.
  apply (C10_start_game_reinitialises
           (demo_env 7 false) (Web.mkStartBody (Some "hard") None)
           (mkWorld (mkSys [] 3 4 0)
                    (Some (demo_session "easy" "streak"
                             (mkConfig ["left"; "right"] 2 None (Some 10)) 3 0))));
    reflexivity.
Defined.

(** C8. Across the requests served on one session (every request but
    [start_game], which replaces the session) neither the wins, nor the
    losses, nor their sum ever go down; the same holds for a round of the
    terminal game and for a whole [run] of it. *)
Theorem C8_score_never_decreases :
  forall env : Env,
    (forall (rs : list Web.Request) (w : World Web.Cookie) (s : Web.Session),
        forallb (fun r => negb (is_start_game r)) rs = true ->
        obj w = Some s ->
        exists s',
          obj (snd (Web.serve_all env rs w)) = Some s'
          /\ Web.wins s <= Web.wins s'
          /\ Web.losses s <= Web.losses s'
          /\ Web.wins s + Web.losses s <= Web.wins s' + Web.losses s')
    /\ (forall w : World Terminal.Console,
          let g := Terminal.game (obj w) in
          let g' := Terminal.game (obj (snd (Terminal.play_round env w))) in
          Terminal.wins g <= Terminal.wins g'
          /\ Terminal.losses g <= Terminal.losses g'
          /\ Terminal.wins g + Terminal.losses g
             <= Terminal.wins g' + Terminal.losses g')
    /\ (forall w : World Terminal.Console,
          exists w',
            Terminal.run env (S (List.length (Terminal.stdin (obj w)))) w = Some w'
            /\ Terminal.wins (Terminal.game (obj w)) <= Terminal.wins (Terminal.game (obj w'))
            /\ Terminal.losses (Terminal.game (obj w))
               <= Terminal.losses (Terminal.game (obj w'))).
Proof.
  intros env. repeat apply conj.
  - intros rs [sy c] s Hrs Hs. cbn in Hs. subst c.
    destruct (web_serve_all_le env rs sy s Hrs) as (s' & Hs' & Hle).
    exists s'. split; [assumption|].
    destruct Hle as (_ & _ & _ & _ & Hw & Hl). repeat apply conj; lia.
  - intros w g g'. subst g g'.
    destruct (terminal_play_round_step env w) as (b & w' & Hp & Hle & _).
    rewrite Hp. cbn [snd]. destruct Hle as (_ & _ & _ & Hw & Hl).
    repeat apply conj; lia.
  - intros w. destruct (terminal_run_spec env w) as (w' & Hr & Hle & _).
    exists w'. split; [assumption|]. destruct Hle as (_ & _ & _ & Hw & Hl).
    split; assumption.
Qed.

Lemma C8_score_never_decreases_witness :
  exists s',
    obj (snd (Web.serve_all (demo_env 5 false)
                [Web.PlayRound (play_body "left"); Web.GameStatus;
                 Web.PlayRound (play_body "right"); Web.EndGame]
                (mkWorld (mkSys [] 1 0 0)
                         (Some (demo_session "easy" "classic"
                                  (mkConfig ["left"; "right"] 2 None None) 2 1)))))
    = Some s'
    /\ 2 <= Web.wins s' /\ 1 <= Web.losses s' /\ 2 + 1 <= Web.wins s' + Web.losses s'.
Proof.
  apply (proj1 (C8_score_never_decreases (demo_env 5 false))
               [Web.PlayRound (play_body "left"); Web.GameStatus;
                Web.PlayRound (play_body "right"); Web.EndGame]
               (mkWorld (mkSys [] 1 0 0)
                        (Some (demo_session "easy" "classic"
                                 (mkConfig ["left"; "right"] 2 None None) 2 1)))
               (demo_session "easy" "classic"
                             (mkConfig ["left"; "right"] 2 None None) 2 1));
    reflexivity.
Defined.

(** C9. In a session whose configuration sets a round target, wins plus
    losses never exceed the target: after any sequence of requests served
    from an empty session the sum is at most the target, and below it as
    long as the game is active, so that the game is inactive from the round
    in which the sum reaches the target.  A [run] of the terminal game
    ends, with the sum within the target. *)
Theorem C9_score_within_target :
  forall env : Env,
    (forall (rs : list Web.Request) (sy : Sys) (s : Web.Session) (n : Z),
        obj (snd (Web.serve_all env rs (mkWorld sy None))) = Some s ->
        max_rounds (Web.config s) = Some n ->
        Web.wins s + Web.losses s <= n
        /\ (Web.game_active s = true -> Web.wins s + Web.losses s < n))
    /\ (forall (d : Difficulty) (m : GameMode) (sy : Sys) (lines : list string),
          exists w',
            Terminal.run env (S (List.length lines))
                         (mkWorld sy (Terminal.mkConsole (Terminal.new d m) lines []))
            = Some w'
            /\ forall n, max_rounds (Terminal.config (Terminal.game (obj w'))) = Some n ->
                 Terminal.wins (Terminal.game (obj w'))
                 + Terminal.losses (Terminal.game (obj w')) <= n).
Proof.
  intros env. split.
  - intros rs sy s n Hs Hn.
    pose proof (web_serve_all_good env rs (mkWorld sy None) I) as Hg.
    rewrite Hs in Hg. destruct Hg as [Hw H10].
    apply Hw. unfold truthy_max_rounds. rewrite Hn.
    rewrite (H10 n Hn). reflexivity.
  - intros d m sy lines.
    destruct (terminal_run_spec env
                (mkWorld sy (Terminal.mkConsole (Terminal.new d m) lines [])))
      as (w' & Hr & Hle & Hb).
    exists w'. split; [exact Hr|]. intros n Hn.
    destruct Hle as (_ & _ & Hc & _). cbn in Hc. rewrite Hc in Hn.
    cbn in Hb. apply (Hb n).
    + unfold truthy_max_rounds. rewrite Hn.
      destruct d, m; cbn in Hn; inversion Hn; reflexivity.
    + destruct d, m; cbn in Hn; inversion Hn; reflexivity.
Qed.


Lemma C9_score_within_target_witness :
  Web.wins c9_session + Web.losses c9_session <= 10
  /\ (Web.game_active c9_session = true ->
      Web.wins c9_session + Web.losses c9_session < 10).
Proof.
  apply (proj1 (C9_score_within_target (demo_env 5 false))
               c9_requests (mkSys [] 0 0 0) c9_session 10); reflexivity.
Defined.

(** ** One round of the web game, path by path *)

Section WebRound.
Variable env : Env.

Lemma web_play_round_invalid (data : Web.PlayBody) (w : World Web.Cookie)
      (s : Web.Session) :
  obj w = Some s ->
  Web.game_active s = true ->
  PyStr.str_in (normalised data) (cups (Web.config s)) = false ->
  Web.play_round env (Some data) w = (Web.RError 400 "Invalid cup choice", w).
Proof.
  destruct w as [sy c]. cbn [obj]. intros -> Ha Hv. unfold normalised in Hv.
  web_unfold. cbn -[PyStr.str_in PyStr.strip PyStr.lower].
  rewrite Ha. cbn -[PyStr.str_in PyStr.strip PyStr.lower].
  rewrite Hv. reflexivity.
Qed.

Lemma web_play_round_time_up (data : Web.PlayBody) (w : World Web.Cookie)
      (s : Web.Session) :
  obj w = Some s ->
  Web.game_active s = true ->
  Web.game_mode s = "timed" ->
  PyStr.str_in (normalised data) (cups (Web.config s)) = true ->
  Qle_bool (inject_Z (get_time_limit (Web.config s)))
           (clock env (clock_pos (sys w)) - Web.start_time s) = true ->
  Web.play_round env (Some data) w
  = (Web.RTimeLimit "Time limit exceeded" (Web.wins s) (Web.losses s),
     mkWorld (mkSys (db (sys w)) (S (clock_pos (sys w))) (rng_pos (sys w))
                    (save_pos (sys w)))
             (Some (Web.set_game_active false s))).
Proof.
  destruct w as [sy c], s as [act d m cf wi lo st rn]. cbn [obj sys].
  cbn [Web.game_active Web.game_mode Web.config Web.start_time Web.wins Web.losses].
  intros -> -> -> Hv He. unfold normalised in Hv.
  web_unfold. cbn -[PyStr.str_in PyStr.strip PyStr.lower Qle_bool Qminus inject_Z].
  rewrite Hv. cbn -[PyStr.str_in PyStr.strip PyStr.lower Qle_bool Qminus inject_Z].
  rewrite He. reflexivity.
Qed.

(** In streak mode a round whose accepted choice is not the drawn cup ends
    the game: the session has one more loss and is inactive, one reading of
    the clock and two draws were made; the reply is the game-over reply
    when the store takes the record, the generic error when it does not. *)
Lemma web_streak_round_lost (data : Web.PlayBody) (sy : Sys) (s : Web.Session)
      (cup : string) :
  Web.game_active s = true ->
  Web.game_mode s = "streak" ->
  PyStr.str_in (normalised data) (cups (Web.config s)) = true ->
  nth_error (cups (Web.config s))
            (rng env (rng_pos sy) mod List.length (cups (Web.config s)))%nat = Some cup ->
  (normalised data =? cup)%string = false ->
  exists prize,
    In prize prizes
    /\ Web.play_round env (Some data) (mkWorld sy (Some s))
       = (if store_down env (save_pos sy)
          then Web.RError 500 "Failed to play round"
          else Web.RGameOver false cup prize "Streak broken"
                             (Web.wins s) (Web.losses s + 1)
                             (clock env (clock_pos sy) - Web.start_time s)%Q,
          mkWorld (mkSys (if store_down env (save_pos sy) then db sy
                          else db sy ++ [mkRecord (Web.difficulty s) "streak"
                                                  (Web.wins s) (Web.losses s + 1)
                                                  (Some (clock env (clock_pos sy)
                                                         - Web.start_time s)%Q)])
                         (S (clock_pos sy)) (S (S (rng_pos sy))) (S (save_pos sy)))
                  (Some (streak_lost s))).
Proof.
  destruct sy as [tb cp rp sp], s as [act d m c wi lo st rn].
  cbn [Web.game_active Web.game_mode Web.config Web.wins Web.losses Web.start_time
       Web.difficulty rng_pos clock_pos save_pos db].
  intros -> -> Hv Hcup Hne. unfold normalised in *.
  destruct (nth_error prizes (rng env (S rp) mod List.length prizes)%nat)
    as [prize|] eqn:Hp.
  2:{ apply nth_error_None in Hp. exfalso.
      pose proof (Nat.mod_upper_bound (rng env (S rp)) (List.length prizes)) as Hb.
      cbn [List.length prizes] in *. lia. }
  exists prize. split; [eapply nth_error_In; exact Hp|].
  web_unfold.
  cbn -[prizes PyStr.str_in PyStr.strip PyStr.lower nth_error Nat.modulo Qminus].
  rewrite Hv.
  cbn -[prizes PyStr.str_in PyStr.strip PyStr.lower nth_error Nat.modulo Qminus].
  rewrite Hcup.
  cbn -[prizes PyStr.str_in PyStr.strip PyStr.lower nth_error Nat.modulo Qminus].
  rewrite Hp.
  cbn -[prizes PyStr.str_in PyStr.strip PyStr.lower nth_error Nat.modulo Qminus].
  rewrite Hne.
  cbn -[prizes PyStr.str_in PyStr.strip PyStr.lower nth_error Nat.modulo Qminus].
  destruct (store_down env sp); reflexivity.
Qed.

(** A store error during [play_round]: the reply is the generic error, the
    table is as before, and the session has the round's score and is
    inactive. *)
Lemma web_play_round_store_error (body : option Web.PlayBody)
      (w : World Web.Cookie) (r : Web.Response) (w' : World Web.Cookie) :
  Web.play_round env body w = (r, w') ->
  save_pos (sys w') <> save_pos (sys w) ->
  store_down env (save_pos (sys w)) = true ->
  r = Web.RError 500 "Failed to play round"
  /\ db (sys w') = db (sys w)
  /\ exists s s',
       obj w = Some s /\ obj w' = Some s'
       /\ Web.game_active s = true /\ Web.game_active s' = false
       /\ (Web.wins s' = Web.wins s + 1 /\ Web.losses s' = Web.losses s
           \/ Web.wins s' = Web.wins s /\ Web.losses s' = Web.losses s + 1).
Proof.
  destruct w as [[tb cp rp sp] [[act d m cf wi lo st rn]|]].
  - web_unfold. cbn. case_all; intros H; inversion H; subst; cbn;
      intros Hs Hd; try (exfalso; apply Hs; reflexivity); try congruence;
      repeat apply conj; try reflexivity;
      do 2 eexists; repeat apply conj; try reflexivity; auto;
      destruct act; cbn in *; congruence.
  - web_unfold. cbn. intros H; inversion H; subst. cbn. intros Hs.
    exfalso; apply Hs; reflexivity.
Qed.

(** The expiry test of [get_game_status] is the one of [play_round]. *)
Lemma expiry_tests_agree (limit elapsed : Q) :
  Qle_bool limit elapsed = true -> Qle_bool (max0 (limit - elapsed)) 0 = true.
Proof.
  intros H. apply Qle_bool_iff in H. unfold max0.
  destruct (Qle_bool (limit - elapsed) 0) eqn:E; [reflexivity|].
  exfalso. assert (Ht : Qle_bool (limit - elapsed) 0 = true); [|congruence].
  apply Qle_bool_iff. lra.
Qed.

(** When the status poll finds the time expired, it stores the record. *)
Lemma web_status_time_up (w : World Web.Cookie) (s : Web.Session) :
  obj w = Some s ->
  Web.game_active s = true ->
  Web.game_mode s = "timed" ->
  Qle_bool (inject_Z (get_time_limit (Web.config s)))
           (clock env (clock_pos (sys w)) - Web.start_time s) = true ->
  store_down env (save_pos (sys w)) = false ->
  Web.get_game_status env w
  = (Web.RExpired "Time expired",
     mkWorld (mkSys (db (sys w)
                     ++ [mkRecord (Web.difficulty s) (Web.game_mode s)
                                  (Web.wins s) (Web.losses s)
                                  (Some (clock env (S (clock_pos (sys w)))
                                         - Web.start_time s)%Q)])
                    (S (S (clock_pos (sys w)))) (rng_pos (sys w))
                    (S (save_pos (sys w))))
             (Some (Web.set_game_active false s))).
Proof.
  destruct w as [[tb cp rp sp] c], s as [act d m cf wi lo st rn]. cbn [obj sys].
  cbn [Web.game_active Web.game_mode Web.config Web.start_time Web.wins
       Web.losses Web.difficulty db clock_pos rng_pos save_pos].
  intros -> -> -> He Hd. apply expiry_tests_agree in He.
  web_unfold. cbn -[Qle_bool Qminus inject_Z max0].
  rewrite He. cbn -[Qle_bool Qminus inject_Z max0]. rewrite Hd. reflexivity.
Qed.

End WebRound.

(** ** One round of the terminal game, path by path *)

(** The two runs of the loop that differ in what was printed before. *)
Ltac pair_choose_again :=
  match goal with
  | |- context [Terminal.choose_again ?g ?u ?l ?o1] =>
      match goal with
      | |- context [Terminal.choose_again g u l ?o2] =>
          lazymatch o1 with
          | o2 => fail
          | _ =>
              let Hso := fresh "Hso" in
              pose proof (choose_again_stdout g u l o1 o2) as Hso;
              destruct (Terminal.choose_again g u l o1) as [[? ?] ?];
              destruct (Terminal.choose_again g u l o2) as [[? ?] ?];
              cbn in Hso; inversion Hso; subst; clear Hso
          end
      end
  end.

(** The loop that asks again returns an accepted answer at once and skips
    the refused lines. *)
Lemma choose_again_valid g u l out :
  Terminal.validate_choice g u = true ->
  Terminal.choose_again g u l out = (Ok u, l, out).
Proof. intros H. destruct l; cbn [Terminal.choose_again]; now rewrite H. Qed.

Lemma choose_again_skips g (bad : list string) :
  forall (u good : string) (rest : list string) (out : list Terminal.Msg),
    Terminal.validate_choice g u = false ->
    Forall (fun l => Terminal.validate_choice g (typed l) = false) bad ->
    Terminal.validate_choice g (typed good) = true ->
    exists out',
      Terminal.choose_again g u (bad ++ good :: rest) out = (Ok (typed good), rest, out').
Proof.
  induction bad as [|b bad IH]; intros u good rest out Hu Hbad Hgood;
    cbn [app Terminal.choose_again]; rewrite Hu.
  - rewrite choose_again_valid by exact Hgood. eauto.
  - inversion Hbad; subst. now apply IH.
Qed.

Section TerminalRound.
Variable env : Env.

(** The prompt of a round, when refused lines are followed by an accepted
    one: the accepted line, lower-cased and trimmed, is the choice. *)
Lemma terminal_read_choice_spec (sy : Sys) (g : Terminal.CupGame)
      (bad : list string) (good : string) (rest : list string) (out : list Terminal.Msg) :
  Forall (fun l => Terminal.validate_choice g (typed l) = false) bad ->
  Terminal.validate_choice g (typed good) = true ->
  exists out',
    Terminal.read_choice
      (mkWorld sy (Terminal.mkConsole g (bad ++ good :: rest) out))
    = (Ok (typed good), mkWorld sy (Terminal.mkConsole g rest out')).
Proof.
  intros Hbad Hgood. unfold Terminal.read_choice. term_unfold.
  destruct bad as [|b bad]; cbn -[Terminal.choose_again].
  - fold (typed good). rewrite choose_again_valid by exact Hgood. eauto.
  - fold (typed b). inversion Hbad; subst.
    destruct (choose_again_skips g bad (typed b) good rest
                (((out ++ [Terminal.MsgAvailableCups (cups (Terminal.config g))])
                  ++ [Terminal.MsgPrompt "Choose a cup: "])) H1 H2 Hgood) as [out' Ho].
    rewrite Ho. eauto.
Qed.

Lemma terminal_time_up (w : World Terminal.Console) (t0 : Q) :
  Terminal.game_mode (game_of w) = TIMED ->
  Terminal.start_time (game_of w) = Some t0 ->
  Qle_bool (inject_Z (get_time_limit (Terminal.config (game_of w))))
           (clock env (clock_pos (sys w)) - t0) = true ->
  Terminal.play_round env w
  = (Ok false,
     mkWorld (mkSys (db (sys w)) (S (clock_pos (sys w))) (rng_pos (sys w))
                    (save_pos (sys w)))
             (Terminal.mkConsole (game_of w) (Terminal.stdin (obj w))
                                 (Terminal.stdout (obj w) ++ [Terminal.MsgTimesUp]))).
Proof.
  destruct w as [[tb cp rp sp] [[d m wi lo st c] lines out]].
  cbn [obj sys Terminal.game Terminal.game_mode Terminal.start_time
       Terminal.config db clock_pos rng_pos save_pos Terminal.stdin Terminal.stdout].
  intros -> -> He. term_unfold. cbn -[Qle_bool Qminus inject_Z].
  rewrite He. reflexivity.
Qed.

(** A line that is rejected changes nothing but the screen: the round
    goes as if the line had not been typed. *)
Lemma terminal_rejected_line (w : World Terminal.Console)
      (bad : string) (rest : list string) :
  Terminal.validate_choice (game_of w) (PyStr.strip (PyStr.lower bad)) = false ->
  let with_bad := Terminal.play_round env (with_stdin (bad :: rest) w) in
  let without := Terminal.play_round env (with_stdin rest w) in
  fst with_bad = fst without
  /\ sys (snd with_bad) = sys (snd without)
  /\ game_of (snd with_bad) = game_of (snd without).
Proof.
  destruct w as [[tb cp rp sp] [[d m wi lo st c] lines out]].
  unfold with_stdin. cbn [obj sys Terminal.game Terminal.stdout].
  intros Hbad. term_unfold.
  cbn -[PyStr.strip PyStr.lower Terminal.validate_choice].
  destruct rest as [|line rest];
    repeat (first [ rewrite Hbad | pair_choose_again | case_step ];
            cbn -[PyStr.strip PyStr.lower Terminal.validate_choice]).
  all: repeat apply conj; reflexivity.
Qed.

(** In streak mode a round in which the line accepted is not the drawn
    cup adds a loss, prints "Streak broken" last and answers [False]. *)
Lemma terminal_streak_round_lost (sy : Sys) (g : Terminal.CupGame)
      (bad : list string) (good : string) (rest : list string)
      (out : list Terminal.Msg) (cup : string) :
  Terminal.game_mode g = STREAK ->
  nth_error (cups (Terminal.config g))
            (rng env (rng_pos sy) mod List.length (cups (Terminal.config g)))%nat = Some cup ->
  Forall (fun l => Terminal.validate_choice g (typed l) = false) bad ->
  Terminal.validate_choice g (typed good) = true ->
  (typed good =? cup)%string = false ->
  exists out1,
    Terminal.play_round env (mkWorld sy (Terminal.mkConsole g (bad ++ good :: rest) out))
    = (Ok false,
       mkWorld (mkSys (db sy) (clock_pos sy) (S (S (rng_pos sy))) (save_pos sy))
               (Terminal.mkConsole (Terminal.set_losses (Terminal.losses g + 1) g) rest
                                   (out1 ++ [Terminal.MsgLost cup; Terminal.MsgStreakBroken]))).
Proof.
  intros Hm Hcup Hbad Hgood Hne.
  unfold Terminal.play_round, Terminal.play_round_body, Effects.try_except.
  unfold Effects.bind at 1. unfold Terminal.check_time_limit.
  unfold Effects.bind at 1. unfold Terminal.self at 1.
  unfold Effects.bind at 1. cbn [Effects.get_obj obj Terminal.game Effects.ret].
  rewrite Hm. cbn [GameMode_eqb Effects.ret].
  unfold Effects.bind at 1. unfold Terminal.self at 1.
  unfold Effects.bind at 1. cbn [Effects.get_obj obj Terminal.game Effects.ret].
  unfold Effects.bind at 1. unfold Effects.random_choice at 1. cbn [sys obj rng_pos].
  rewrite Hcup.
  unfold Effects.bind at 1. unfold Effects.random_choice at 1.
  cbn [sys obj rng_pos db clock_pos save_pos].
  destruct (nth_error prizes _) as [prize|] eqn:Hp.
  2:{ apply nth_error_None in Hp. exfalso.
      pose proof (Nat.mod_upper_bound (rng env (S (rng_pos sy))) (List.length prizes)) as Hb.
      cbn [List.length prizes] in *. lia. }
  unfold Effects.bind at 1.
  destruct (terminal_read_choice_spec
              (mkSys (db sy) (clock_pos sy) (S (S (rng_pos sy))) (save_pos sy))
              g bad good rest out Hbad Hgood) as [out1 Hr].
  rewrite Hr. unfold Terminal.settle_round. term_unfold. cbn.
  rewrite Hne. cbn. rewrite Hm. cbn.
  exists (out1 ++ [Terminal.MsgShuffling])%list.
  rewrite <- !app_assoc. reflexivity.
Qed.

(** A store error in [show_summary] is swallowed: the game object and what
    was printed before are kept, the table is as before. *)
Lemma terminal_summary_store_error (w : World Terminal.Console) :
  store_down env (save_pos (sys w)) = true ->
  exists w',
    Terminal.show_summary env w = (Ok tt, w')
    /\ game_of w' = game_of w
    /\ db (sys w') = db (sys w)
    /\ exists more, Terminal.stdout (obj w') = Terminal.stdout (obj w) ++ more.
Proof.
  destruct w as [[tb cp rp sp] [[d m wi lo st c] lines out]].
  cbn [sys save_pos]. intros Hd.
  term_unfold. cbn. repeat (first [rewrite Hd | case_step]; cbn).
  all: eexists; (split; [reflexivity|]); cbn;
    repeat apply conj; try reflexivity;
    rewrite <- ?app_assoc; eexists; reflexivity.
Qed.

(** White space around the line typed and the case of its letters are not
    seen by [play_round]. *)
Lemma terminal_padded_line (w : World Terminal.Console)
      (p choice q : string) (rest : list string) :
  PyStr.blank p = true -> PyStr.blank q = true ->
  let padded :=
    Terminal.play_round env (with_stdin ((p ++ choice ++ q)%string :: rest) w) in
  let plain := Terminal.play_round env (with_stdin (choice :: rest) w) in
  fst padded = fst plain
  /\ sys (snd padded) = sys (snd plain)
  /\ game_of (snd padded) = game_of (snd plain)
  /\ Terminal.stdout (obj (snd padded)) = Terminal.stdout (obj (snd plain)).
Proof.
  intros Hp Hq.
  destruct w as [[tb cp rp sp] [[d m wi lo st c] lines out]].
  unfold with_stdin. cbn [obj sys Terminal.game Terminal.stdout].
  term_unfold.
  cbn -[PyStr.strip PyStr.lower String.append Terminal.choose_again].
  repeat (first [ rewrite (PyStrFacts.normalise_surrounded p choice q Hp Hq)
                | case_step ];
          cbn -[PyStr.strip PyStr.lower String.append Terminal.choose_again]).
  all: repeat apply conj; reflexivity.
Qed.

End TerminalRound.

Section WebChoice.
Variable env : Env.

(** White space around the choice sent and the case of its letters are not
    seen by the web [play_round]. *)
Lemma web_padded_choice (w : World Web.Cookie) (p choice q : string) :
  PyStr.blank p = true -> PyStr.blank q = true ->
  Web.play_round env (play_body (p ++ choice ++ q)) w
  = Web.play_round env (play_body choice) w.
Proof.
  intros Hp Hq. unfold play_body, Web.play_round, Web.handler, Web.play_round_body.
  unfold Web.get_json, Effects.bind, Effects.ret, Effects.get_obj.
  cbn [Web.get_default Web.pb_choice].
  rewrite (PyStrFacts.normalise_surrounded p choice q Hp Hq). reflexivity.
Qed.

End WebChoice.

(** ** The claims, continued *)

(** C3, as the code has it.  [validate_choice] folds the case of its
    argument and tests membership in the cups of the configuration; it does
    not trim: under the easy configuration "LEFT" and "left" are accepted,
    "  LEFT " and "middle" are refused.  The trimming is done by the callers,
    which apply [.lower().strip()] to what the player sent before they
    validate it: a round of the web game and a round of the terminal game
    do not see white space around the choice.  The first game's
    [validate_choice] compares the string as it is. *)
Theorem C3_validate_choice_folds_case :
  forall (g : Terminal.CupGame) (choice : string),
    (Terminal.validate_choice g choice = true
     <-> In (PyStr.lower choice) (cups (Terminal.config g)))
    /\ Terminal.validate_choice g (PyStr.lower choice) = Terminal.validate_choice g choice
    /\ Terminal.validate_choice (Terminal.new EASY CLASSIC) "LEFT" = true
    /\ Terminal.validate_choice (Terminal.new EASY CLASSIC) "left" = true
    /\ Terminal.validate_choice (Terminal.new EASY CLASSIC) "  LEFT " = false
    /\ Terminal.validate_choice (Terminal.new EASY CLASSIC) "middle" = false
    /\ (forall (p q : string), PyStr.blank p = true -> PyStr.blank q = true ->
        (forall (env : Env) (w : World Web.Cookie),
            Web.play_round env (play_body (p ++ choice ++ q)) w
            = Web.play_round env (play_body choice) w)
        /\ (forall (env : Env) (w : World Terminal.Console) (rest : list string),
              let padded :=
                Terminal.play_round env (with_stdin ((p ++ choice ++ q)%string :: rest) w) in
              let plain := Terminal.play_round env (with_stdin (choice :: rest) w) in
              fst padded = fst plain
              /\ sys (snd padded) = sys (snd plain)
              /\ Terminal.game (obj (snd padded)) = Terminal.game (obj (snd plain))
              /\ Terminal.stdout (obj (snd padded)) = Terminal.stdout (obj (snd plain))))
    /\ (Legacy.validate_choice choice = true <-> In choice Legacy.choices).
Proof.
  intros g choice. repeat apply conj; try reflexivity.
  - apply PyStrFacts.str_in_In.
  - apply PyStrFacts.str_in_In.
  - unfold Terminal.validate_choice. now rewrite PyStrFacts.lower_idem.
  - intros p q Hp Hq. split.
    + intros env w. now apply web_padded_choice.
    + intros env w rest. now apply terminal_padded_line.
  - apply PyStrFacts.str_in_In.
  - apply PyStrFacts.str_in_In.
Qed.

Lemma C3_validate_choice_folds_case_witness :
  Web.play_round (demo_env 5 false) (play_body (" " ++ "LEFT" ++ "  "))
                 (mkWorld (mkSys [] 1 0 0) (Some (demo_session "easy" "classic" easy_cups 0 0)))
  = Web.play_round (demo_env 5 false) (play_body "LEFT")
                   (mkWorld (mkSys [] 1 0 0) (Some (demo_session "easy" "classic" easy_cups 0 0))).
Proof.
  apply (proj1 (proj2 (proj2 (proj2 (proj2 (proj2 (proj2
           (C3_validate_choice_folds_case (Terminal.new EASY CLASSIC) "LEFT")))))))
         " " "  " eq_refl eq_refl).
Defined.

(** The claim C3 fails on [validate_choice]: the padded string is refused
    where the bare one is accepted. *)
Lemma C3_counterexample :
  Terminal.validate_choice (Terminal.new EASY CLASSIC) "  LEFT " = false
  /\ Terminal.validate_choice (Terminal.new EASY CLASSIC) "left" = true
  /\ Legacy.validate_choice "LEFT" = false.
Proof. repeat split. Qed.

(** C7. An invalid choice is rejected and nothing else happens.  In the
    web game the reply is a 400 ("Invalid cup choice" when a game is
    active, "No active game" otherwise) and the world is as before: the
    session, the table, the random source and the clock.  In the terminal
    game the loop prints the rejection and the prompt and goes on with the
    next line, and the round ends as if the rejected line had not been
    typed: same result, same score, same draws, same table; the cup and the
    prize are drawn once per round, before the first line is read. *)
Theorem C7_invalid_choice_rejected :
  forall env : Env,
    (forall (data : Web.PlayBody) (w : World Web.Cookie) (s : Web.Session),
        obj w = Some s ->
        PyStr.str_in
          (PyStr.strip (PyStr.lower (Web.get_default (Web.pb_choice data) "")))
          (cups (Web.config s)) = false ->
        Web.play_round env (Some data) w
        = (Web.RError 400 (if Web.game_active s then "Invalid cup choice"
                           else "No active game"), w))
    /\ (forall (g : Terminal.CupGame) (bad line : string) (rest : list string)
               (out : list Terminal.Msg),
          Terminal.validate_choice g bad = false ->
          Terminal.choose_again g bad (line :: rest) out
          = Terminal.choose_again g (PyStr.strip (PyStr.lower line)) rest
              (out ++ [Terminal.MsgInvalidInput (cups (Terminal.config g));
                       Terminal.MsgPrompt "Choose a cup: "]))
    /\ (forall (w : World Terminal.Console) (bad : string) (rest : list string),
          Terminal.validate_choice (Terminal.game (obj w))
                                   (PyStr.strip (PyStr.lower bad)) = false ->
          let with_bad := Terminal.play_round env (with_stdin (bad :: rest) w) in
          let without := Terminal.play_round env (with_stdin rest w) in
          fst with_bad = fst without
          /\ sys (snd with_bad) = sys (snd without)
          /\ Terminal.game (obj (snd with_bad)) = Terminal.game (obj (snd without))).
Proof.
  intros env. repeat apply conj.
  - intros data w s Hs Hv. destruct (Web.game_active s) eqn:Ha.
    + now apply (web_play_round_invalid env data w s).
    + apply (web_inactive_noop env (Web.PlayRound (Some data)) w); [|reflexivity].
      rewrite Hs. exact Ha.
  - intros g bad line rest out Hv. cbn [Terminal.choose_again]. now rewrite Hv.
  - intros w bad rest Hv. now apply terminal_rejected_line.
Qed.

Lemma C7_invalid_choice_rejected_witness :
  Web.play_round (demo_env 5 false) (Some (Web.mkPlayBody (Some " Middle ")))
                 (mkWorld (mkSys [] 1 4 0) (Some (demo_session "easy" "classic" easy_cups 2 1)))
  = (Web.RError 400 "Invalid cup choice",
     mkWorld (mkSys [] 1 4 0) (Some (demo_session "easy" "classic" easy_cups 2 1))).
Proof.
  apply (proj1 (C7_invalid_choice_rejected (demo_env 5 false))
               (Web.mkPlayBody (Some " Middle "))
               (mkWorld (mkSys [] 1 4 0) (Some (demo_session "easy" "classic" easy_cups 2 1)))
               (demo_session "easy" "classic" easy_cups 2 1));
    reflexivity.
Defined.

(** C2, as the code has it.  Once [now - start_time >= time_limit] in timed
    mode: the terminal [play_round] stops before it reads any line, prints
    "Time's up!", answers [False], draws nothing and leaves the score as it
    is; the web [play_round] validates the choice first, and for a valid
    choice makes the session inactive and answers [game_over] with reason
    "Time limit exceeded" and the unchanged score, without a draw; an
    invalid choice is answered 400 "Invalid cup choice" and the session
    stays active. *)
Theorem C2_time_expiry_ends_round :
  forall env : Env,
    (forall (w : World Terminal.Console) (t0 : Q),
        Terminal.game_mode (Terminal.game (obj w)) = TIMED ->
        Terminal.start_time (Terminal.game (obj w)) = Some t0 ->
        (inject_Z (get_time_limit (Terminal.config (Terminal.game (obj w))))
         <= clock env (clock_pos (sys w)) - t0)%Q ->
        Terminal.play_round env w
        = (Ok false,
           mkWorld (mkSys (db (sys w)) (S (clock_pos (sys w))) (rng_pos (sys w))
                          (save_pos (sys w)))
                   (Terminal.mkConsole (Terminal.game (obj w)) (Terminal.stdin (obj w))
                      (Terminal.stdout (obj w) ++ [Terminal.MsgTimesUp]))))
    /\ (forall (data : Web.PlayBody) (w : World Web.Cookie) (s : Web.Session),
          obj w = Some s ->
          Web.game_active s = true ->
          Web.game_mode s = "timed" ->
          (inject_Z (get_time_limit (Web.config s))
           <= clock env (clock_pos (sys w)) - Web.start_time s)%Q ->
          let choice :=
            PyStr.strip (PyStr.lower (Web.get_default (Web.pb_choice data) "")) in
          (PyStr.str_in choice (cups (Web.config s)) = true ->
           exists w',
             Web.play_round env (Some data) w
             = (Web.RTimeLimit "Time limit exceeded" (Web.wins s) (Web.losses s), w')
             /\ obj w' = Some (Web.set_game_active false s)
             /\ rng_pos (sys w') = rng_pos (sys w))
          /\ (PyStr.str_in choice (cups (Web.config s)) = false ->
              Web.play_round env (Some data) w
              = (Web.RError 400 "Invalid cup choice", w))).
Proof.
  intros env. split.
  - intros w t0 Hm Hs He. apply Qle_bool_iff in He.
    now apply (terminal_time_up env w t0).
  - intros data w s Hs Ha Hm He choice. apply Qle_bool_iff in He. split; intros Hv.
    + eexists. split; [now apply (web_play_round_time_up env data w s)|].
      split; reflexivity.
    + now apply (web_play_round_invalid env data w s).
Qed.

Lemma C2_time_expiry_ends_round_witness :
  exists w',
    Web.play_round (demo_env 35 false) (Some (Web.mkPlayBody (Some "Right"))) c2_world
    = (Web.RTimeLimit "Time limit exceeded" 2 1, w')
    /\ obj w' = Some (Web.set_game_active false (demo_session "hard" "timed" hard_timed 2 1))
    /\ rng_pos (sys w') = 0%nat.
Proof.
  apply (proj1 (proj2 (C2_time_expiry_ends_round (demo_env 35 false))
                      (Web.mkPlayBody (Some "Right")) c2_world
                      (demo_session "hard" "timed" hard_timed 2 1)
                      eq_refl eq_refl eq_refl
                      ltac:(apply Qle_bool_iff; reflexivity)));
    reflexivity.
Defined.

(** The claim C2 fails on the web handler: 35 seconds into a 30-second
    game, a choice that is not a cup is answered "Invalid cup choice" and
    the session is still active. *)
Lemma C2_counterexample :
  Qle_bool (inject_Z 30) (clock (demo_env 35 false) 1 - 0) = true
  /\ Web.play_round (demo_env 35 false) (Some (Web.mkPlayBody (Some "banana"))) c2_world
     = (Web.RError 400 "Invalid cup choice", c2_world)
  /\ option_map Web.game_active (obj c2_world) = Some true.
Proof. repeat split. Qed.

(** C4, as the code has it.  Web: in an active streak-mode session, a round
    whose accepted choice is not the drawn cup leaves the session inactive
    with one more loss.  When the store takes the record the reply has
    [game_over] true and the reason "Streak broken", with the drawn cup and
    the new score; when the store fails the reply is the generic 500 and
    carries neither.  Either way every later [play_round] on the session is
    answered 400 "No active game" and leaves the world, wins and losses
    included, as it is.  Terminal: in a streak-mode game, a round in which
    the accepted line is not the drawn cup adds one loss, prints "Streak
    broken" last, answers [False], and the loop of [run] stops with it. *)
Theorem C4_streak_loss_ends_game :
  forall env : Env,
    (forall (data : Web.PlayBody) (sy : Sys) (s : Web.Session) (cup : string),
        Web.game_active s = true ->
        Web.game_mode s = "streak" ->
        PyStr.str_in (normalised data) (cups (Web.config s)) = true ->
        nth_error (cups (Web.config s))
                  (rng env (rng_pos sy) mod List.length (cups (Web.config s)))%nat
        = Some cup ->
        (normalised data =? cup)%string = false ->
        let reply := fst (Web.play_round env (Some data) (mkWorld sy (Some s))) in
        let w' := snd (Web.play_round env (Some data) (mkWorld sy (Some s))) in
        obj w' = Some (streak_lost s)
        /\ (store_down env (save_pos sy) = false ->
            Web.resp_game_over reply = Some true
            /\ Web.resp_reason reply = Some "Streak broken"
            /\ exists prize,
                 In prize prizes
                 /\ reply = Web.RGameOver false cup prize "Streak broken"
                                          (Web.wins s) (Web.losses s + 1)
                                          (clock env (clock_pos sy) - Web.start_time s)%Q)
        /\ (store_down env (save_pos sy) = true ->
            reply = Web.RError 500 "Failed to play round")
        /\ forall bodies : list (option Web.PlayBody),
             Web.serve_all env (map Web.PlayRound bodies) w'
             = (map (fun _ => Web.RError 400 "No active game") bodies, w'))
    /\ (forall (sy : Sys) (g : Terminal.CupGame) (bad : list string) (good : string)
               (rest : list string) (out : list Terminal.Msg) (cup : string),
          Terminal.game_mode g = STREAK ->
          nth_error (cups (Terminal.config g))
                    (rng env (rng_pos sy) mod List.length (cups (Terminal.config g)))%nat
          = Some cup ->
          Forall (fun l => Terminal.validate_choice g (typed l) = false) bad ->
          Terminal.validate_choice g (typed good) = true ->
          (typed good =? cup)%string = false ->
          let w := mkWorld sy (Terminal.mkConsole g (bad ++ good :: rest) out) in
          exists (out1 : list Terminal.Msg) (w' : World Terminal.Console),
            Terminal.play_round env w = (Ok false, w')
            /\ Terminal.game (obj w') = Terminal.set_losses (Terminal.losses g + 1) g
            /\ Terminal.stdin (obj w') = rest
            /\ Terminal.stdout (obj w')
               = (out1 ++ [Terminal.MsgLost cup; Terminal.MsgStreakBroken])%list
            /\ forall fuel, Terminal.rounds env (S fuel) w = Some (Ok tt, w')).
Proof.
  intros env. split.
  - intros data sy s cup Ha Hm Hv Hcup Hne. cbn zeta.
    destruct (web_streak_round_lost env data sy s cup Ha Hm Hv Hcup Hne)
      as (prize & Hin & Hp).
    rewrite Hp. cbn [fst snd obj].
    split; [reflexivity|]. split; [|split].
    + intros Hd. rewrite Hd. cbn [Web.resp_game_over Web.resp_reason].
      repeat apply conj; try reflexivity. exists prize. split; [exact Hin|reflexivity].
    + intros Hd. rewrite Hd. reflexivity.
    + intros bodies.
      rewrite web_serve_all_inactive.
      * rewrite map_map. reflexivity.
      * reflexivity.
      * induction bodies; [reflexivity|assumption].
  - intros sy g bad good rest out cup Hm Hcup Hbad Hgood Hne. cbn zeta.
    destruct (terminal_streak_round_lost env sy g bad good rest out cup
                Hm Hcup Hbad Hgood Hne) as [out1 Hp].
    eexists out1, _. split; [exact Hp|].
    cbn [obj Terminal.game Terminal.stdin Terminal.stdout].
    repeat apply conj; try reflexivity.
    intros fuel. cbn [Terminal.rounds]. rewrite Hp. reflexivity.
Qed.

Lemma C4_streak_loss_ends_game_witness :
  (obj (snd (Web.play_round (demo_env 5 false) (play_body "right") c4_world))
   = Some (streak_lost (demo_session "easy" "streak"
                                     (set_max_rounds (Some 10) easy_cups) 3 0))
   /\ (store_down (demo_env 5 false) 0 = false ->
       Web.resp_game_over (fst (Web.play_round (demo_env 5 false) (play_body "right") c4_world))
       = Some true
       /\ Web.resp_reason (fst (Web.play_round (demo_env 5 false) (play_body "right") c4_world))
          = Some "Streak broken"
       /\ exists prize,
            In prize prizes
            /\ fst (Web.play_round (demo_env 5 false) (play_body "right") c4_world)
               = Web.RGameOver false "left" prize "Streak broken" 3 (0 + 1) (5 - 0)%Q)
   /\ (store_down (demo_env 5 false) 0 = true ->
       fst (Web.play_round (demo_env 5 false) (play_body "right") c4_world)
       = Web.RError 500 "Failed to play round")
   /\ forall bodies : list (option Web.PlayBody),
        Web.serve_all (demo_env 5 false) (map Web.PlayRound bodies)
                      (snd (Web.play_round (demo_env 5 false) (play_body "right") c4_world))
        = (map (fun _ => Web.RError 400 "No active game") bodies,
           snd (Web.play_round (demo_env 5 false) (play_body "right") c4_world)))
  /\ exists (out1 : list Terminal.Msg) (w' : World Terminal.Console),
       Terminal.play_round (demo_env 5 false)
                           (streak_game (["banana"; "lef t"] ++ " RIGHT " :: ["left"]))
       = (Ok false, w')
       /\ Terminal.game (obj w') = Terminal.set_losses (0 + 1) (Terminal.new EASY STREAK)
       /\ Terminal.stdin (obj w') = ["left"]
       /\ Terminal.stdout (obj w')
          = (out1 ++ [Terminal.MsgLost "left"; Terminal.MsgStreakBroken])%list
       /\ forall fuel,
            Terminal.rounds (demo_env 5 false) (S fuel)
                            (streak_game (["banana"; "lef t"] ++ " RIGHT " :: ["left"]))
            = Some (Ok tt, w').
Proof.
  split.
  - apply (proj1 (C4_streak_loss_ends_game (demo_env 5 false))
                 (Web.mkPlayBody (Some "right")) (mkSys [] 1 0 0)
                 (demo_session "easy" "streak" (set_max_rounds (Some 10) easy_cups) 3 0)
                 "left");
      reflexivity.
  - apply (proj2 (C4_streak_loss_ends_game (demo_env 5 false))
                 (mkSys [] 0 0 0) (Terminal.new EASY STREAK)
                 ["banana"; "lef t"] " RIGHT " ["left"] [] "left").
    + reflexivity.
    + reflexivity.
    + repeat constructor.
    + reflexivity.
    + reflexivity.
Defined.

(** The claim C4 fails in two ways.  Web: with the store down, the round
    that breaks the streak is answered the generic 500, which has neither
    [game_over] nor a reason.  Terminal: [play_round] has no guard on a
    finished game; called again after the round that broke the streak, it
    plays and scores another round. *)
Lemma C4_counterexample :
  Web.play_round (demo_env 5 true) (play_body "right") c4_world
  = (Web.RError 500 "Failed to play round", c5_after)
  /\ Web.resp_game_over (Web.RError 500 "Failed to play round") = None
  /\ Web.resp_reason (Web.RError 500 "Failed to play round") = None
  /\ (let w1 := snd (Terminal.play_round (demo_env 5 false)
                                          (streak_game ["right"; "left"])) in
      fst (Terminal.play_round (demo_env 5 false) (streak_game ["right"; "left"])) = Ok false
      /\ Terminal.losses (Terminal.game (obj w1)) = 1
      /\ fst (Terminal.play_round (demo_env 5 false) w1) = Ok true
      /\ Terminal.wins (Terminal.game (obj (snd (Terminal.play_round (demo_env 5 false) w1))))
         = 1).
Proof. repeat split. Qed.

(** C5, as the code has it.  When the store fails while [play_round]
    persists the finished session, the reply is the generic 500 "Failed to
    play round" and carries no outcome of the round; nothing is added to
    the table; the session was active, is inactive now, and keeps the score
    of the round just played (one more win or one more loss).  In the
    terminal game the store is reached only by [show_summary], after the
    outcomes were printed: its error is swallowed, the game object and what
    was printed stay, the table is as before. *)
Theorem C5_store_error_during_round :
  forall env : Env,
    (forall (body : option Web.PlayBody) (w : World Web.Cookie)
            (r : Web.Response) (w' : World Web.Cookie),
        Web.play_round env body w = (r, w') ->
        save_pos (sys w') <> save_pos (sys w) ->
        store_down env (save_pos (sys w)) = true ->
        r = Web.RError 500 "Failed to play round"
        /\ Web.resp_won_round r = None
        /\ db (sys w') = db (sys w)
        /\ exists s s',
             obj w = Some s /\ obj w' = Some s'
             /\ Web.game_active s = true /\ Web.game_active s' = false
             /\ (Web.wins s' = Web.wins s + 1 /\ Web.losses s' = Web.losses s
                 \/ Web.wins s' = Web.wins s /\ Web.losses s' = Web.losses s + 1))
    /\ (forall w : World Terminal.Console,
          store_down env (save_pos (sys w)) = true ->
          exists w',
            Terminal.show_summary env w = (Ok tt, w')
            /\ Terminal.game (obj w') = Terminal.game (obj w)
            /\ db (sys w') = db (sys w)
            /\ exists more,
                 Terminal.stdout (obj w') = Terminal.stdout (obj w) ++ more).
Proof.
  intros env. split.
  - intros body w r w' Hp Hs Hd.
    destruct (web_play_round_store_error env body w r w' Hp Hs Hd)
      as (Hr & Hdb & Hex).
    repeat apply conj; try assumption. rewrite Hr. reflexivity.
  - intros w Hd. now apply terminal_summary_store_error.
Qed.

Lemma C5_store_error_during_round_witness :
  Web.RError 500 "Failed to play round" = Web.RError 500 "Failed to play round"
  /\ Web.resp_won_round (Web.RError 500 "Failed to play round") = None
  /\ db (sys c5_after) = db (sys c4_world)
  /\ exists s s',
       obj c4_world = Some s /\ obj c5_after = Some s'
       /\ Web.game_active s = true /\ Web.game_active s' = false
       /\ (Web.wins s' = Web.wins s + 1 /\ Web.losses s' = Web.losses s
           \/ Web.wins s' = Web.wins s /\ Web.losses s' = Web.losses s + 1).
Proof.
  apply (proj1 (C5_store_error_during_round (demo_env 5 true))
               (play_body "right") c4_world
               (Web.RError 500 "Failed to play round") c5_after).
  - reflexivity.
  - cbn. lia.
  - reflexivity.
Defined.

(** The claim C5 fails on the web handler: the store is down when a streak
    is broken, and the caller gets the generic error instead of the round's
    outcome (chosen cup, winning cup, prize, won flag, score). *)
Lemma C5_counterexample :
  Web.play_round (demo_env 5 true) (play_body "right") c4_world
  = (Web.RError 500 "Failed to play round", c5_after)
  /\ Web.resp_won_round (fst (Web.play_round (demo_env 5 true) (play_body "right") c4_world))
     = None.
Proof. split; reflexivity. Qed.

(** C1, where the code departs from it.  When [play_round] is the one that
    finds the time expired, the session finishes (reply "Time limit
    exceeded", session inactive) and no record is stored for it: not by
    this call, and not by any later request on the session, since the
    session is inactive.  The status poll does store the record when it
    finds the same session expired. *)
Theorem C1_round_time_expiry_stores_no_record :
  forall (env : Env) (data : Web.PlayBody) (w : World Web.Cookie)
         (s : Web.Session) (rs : list Web.Request),
    obj w = Some s ->
    Web.game_active s = true ->
    Web.game_mode s = "timed" ->
    PyStr.str_in (PyStr.strip (PyStr.lower (Web.get_default (Web.pb_choice data) "")))
                 (cups (Web.config s)) = true ->
    (inject_Z (get_time_limit (Web.config s))
     <= clock env (clock_pos (sys w)) - Web.start_time s)%Q ->
    forallb (fun r => negb (is_start_game r)) rs = true ->
    let reply := fst (Web.play_round env (Some data) w) in
    let w1 := snd (Web.play_round env (Some data) w) in
    Web.resp_game_over reply = Some true
    /\ Web.resp_reason reply = Some "Time limit exceeded"
    /\ option_map Web.game_active (obj w1) = Some false
    /\ db (sys w1) = db (sys w)
    /\ save_pos (sys w1) = save_pos (sys w)
    /\ snd (Web.serve_all env rs w1) = w1
    /\ (store_down env (save_pos (sys w)) = false ->
        db (sys (snd (Web.get_game_status env w)))
        = db (sys w)
          ++ [mkRecord (Web.difficulty s) (Web.game_mode s) (Web.wins s) (Web.losses s)
                       (Some (clock env (S (clock_pos (sys w))) - Web.start_time s)%Q)]).
Proof.
  intros env data w s rs Hs Ha Hm Hv He Hrs reply w1. subst reply w1.
  apply Qle_bool_iff in He.
  rewrite (web_play_round_time_up env data w s Hs Ha Hm Hv He).
  cbn [fst snd obj sys db save_pos option_map Web.resp_game_over Web.resp_reason].
  repeat apply conj; try reflexivity.
  - rewrite web_serve_all_inactive; [reflexivity|reflexivity|assumption].
  - intros Hd. rewrite (web_status_time_up env w s Hs Ha Hm He Hd). reflexivity.
Qed.

Lemma C1_round_time_expiry_stores_no_record_witness :
  let reply := fst (Web.play_round (demo_env 35 false) (play_body "left") c2_world) in
  let w1 := snd (Web.play_round (demo_env 35 false) (play_body "left") c2_world) in
  Web.resp_game_over reply = Some true
  /\ Web.resp_reason reply = Some "Time limit exceeded"
  /\ option_map Web.game_active (obj w1) = Some false
  /\ db (sys w1) = []
  /\ save_pos (sys w1) = 0%nat
  /\ snd (Web.serve_all (demo_env 35 false) [Web.GameStatus; Web.EndGame] w1) = w1
  /\ (store_down (demo_env 35 false) 0 = false ->
      db (sys (snd (Web.get_game_status (demo_env 35 false) c2_world)))
      = [] ++ [mkRecord "hard" "timed" 2 1 (Some (35 - 0)%Q)]).
Proof.
  apply (C1_round_time_expiry_stores_no_record
           (demo_env 35 false) (Web.mkPlayBody (Some "left")) c2_world
           (demo_session "hard" "timed" hard_timed 2 1)
           [Web.GameStatus; Web.EndGame]
           eq_refl eq_refl eq_refl eq_refl
           ltac:(apply Qle_bool_iff; reflexivity) eq_refl).
Defined.

(* ================================================================== *)
(** * Further properties of the code *)
(* ================================================================== *)

(** ** The web game *)

Section WebMore.
Variable env : Env.

(** X1. [end_game] on an active session, with the store up, appends one
    record with the session's difficulty, mode, wins and losses and the
    time since the start, answers that score and makes the session
    inactive; a second [end_game] is answered 400 "No active game" and
    changes nothing. *)
Theorem X1_end_game_stores_once (w : World Web.Cookie) (s : Web.Session) :
  obj w = Some s -> Web.game_active s = true ->
  store_down env (save_pos (sys w)) = false ->
  let d := (clock env (clock_pos (sys w)) - Web.start_time s)%Q in
  let w' := mkWorld (mkSys (db (sys w) ++ [mkRecord (Web.difficulty s) (Web.game_mode s)
                                             (Web.wins s) (Web.losses s) (Some d)])
                           (S (clock_pos (sys w))) (rng_pos (sys w)) (S (save_pos (sys w))))
                    (Some (Web.set_game_active false s)) in
  Web.end_game env w = (Web.REnded (Web.wins s) (Web.losses s) d, w')
  /\ Web.end_game env w' = (Web.RError 400 "No active game", w').
Proof.
  destruct w as [[tb cp rp sp] c], s as [act dd m cf wi lo st rn]. cbn [obj sys].
  cbn [Web.game_active save_pos]. intros -> -> Hd. cbn zeta. split.
  - web_unfold. cbn. rewrite Hd. reflexivity.
  - reflexivity.
Qed.

Lemma web_end_game_store_down (w : World Web.Cookie) (s : Web.Session) :
  obj w = Some s -> Web.game_active s = true ->
  store_down env (save_pos (sys w)) = true ->
  Web.end_game env w
  = (Web.RError 500 "Failed to end game",
     mkWorld (mkSys (db (sys w)) (S (clock_pos (sys w))) (rng_pos (sys w))
                    (S (save_pos (sys w)))) (Some s)).
Proof.
  destruct w as [[tb cp rp sp] c], s as [act dd m cf wi lo st rn]. cbn [obj sys].
  cbn [Web.game_active save_pos]. intros -> -> Hd.
  web_unfold. cbn. rewrite Hd. reflexivity.
Qed.

Lemma web_end_game_up (w : World Web.Cookie) (s : Web.Session) :
  obj w = Some s -> Web.game_active s = true ->
  store_down env (save_pos (sys w)) = false ->
  db (sys (snd (Web.end_game env w)))
  = db (sys w) ++ [mkRecord (Web.difficulty s) (Web.game_mode s) (Web.wins s) (Web.losses s)
                            (Some (clock env (clock_pos (sys w)) - Web.start_time s)%Q)].
Proof.
  destruct w as [[tb cp rp sp] c], s as [act dd m cf wi lo st rn]. cbn [obj sys].
  cbn [Web.game_active save_pos]. intros -> -> Hd.
  web_unfold. cbn. rewrite Hd. reflexivity.
Qed.

(** X2. When the store fails in [end_game] the caller is answered 500
    "Failed to end game", nothing is stored, and the session is left as it
    was, still active: the game can be ended again, and an [end_game] that
    finds the store up stores the one record of the session. *)
Theorem X2_end_game_store_error_keeps_game (w : World Web.Cookie) (s : Web.Session) :
  obj w = Some s -> Web.game_active s = true ->
  store_down env (save_pos (sys w)) = true ->
  fst (Web.end_game env w) = Web.RError 500 "Failed to end game"
  /\ obj (snd (Web.end_game env w)) = Some s
  /\ db (sys (snd (Web.end_game env w))) = db (sys w)
  /\ (store_down env (S (save_pos (sys w))) = false ->
      exists d,
        db (sys (snd (Web.end_game env (snd (Web.end_game env w)))))
        = db (sys w) ++ [mkRecord (Web.difficulty s) (Web.game_mode s)
                                  (Web.wins s) (Web.losses s) (Some d)]).
Proof.
  intros Hs Ha Hd. rewrite (web_end_game_store_down w s Hs Ha Hd). cbn [fst snd obj sys db].
  repeat apply conj; try reflexivity.
  intros Hup. eexists. rewrite (web_end_game_up _ s); [reflexivity|reflexivity|assumption|].
  exact Hup.
Qed.

Lemma web_serve_db_step (r : Web.Request) (sy : Sys) (s : Web.Session) :
  is_start_game r = false ->
  let w' := snd (Web.serve env r (mkWorld sy (Some s))) in
  db (sys w') = db sy
  \/ (Web.game_active s = true
      /\ exists s' d,
           obj w' = Some s' /\ Web.game_active s' = false
           /\ db (sys w') = db sy ++ [mkRecord (Web.difficulty s') (Web.game_mode s')
                                              (Web.wins s') (Web.losses s') (Some d)]).
Proof.
  intros Hr. destruct sy as [tb cp rp sp], s as [act d m c wi lo st rn].
  destruct r as [b|b| |]; [discriminate Hr| | |];
    web_unfold; cbn; case_all; cbn;
    try (left; reflexivity);
    right; (split; [destruct act; cbn in *; congruence|]);
    do 2 eexists; repeat apply conj; reflexivity.
Qed.

(** X3. Over any sequence of requests on one session (every request but
    [start_game]) the table grows by at most one record; when it grows,
    the session was active, is inactive at the end, and the record carries
    the session's difficulty, mode and final wins and losses. *)
Theorem X3_at_most_one_record_per_session (rs : list Web.Request) :
  forall (sy : Sys) (s : Web.Session),
    forallb (fun r => negb (is_start_game r)) rs = true ->
    exists s',
      obj (snd (Web.serve_all env rs (mkWorld sy (Some s)))) = Some s'
      /\ (db (sys (snd (Web.serve_all env rs (mkWorld sy (Some s))))) = db sy
          \/ (Web.game_active s = true /\ Web.game_active s' = false
              /\ exists d,
                   db (sys (snd (Web.serve_all env rs (mkWorld sy (Some s)))))
                   = db sy ++ [mkRecord (Web.difficulty s') (Web.game_mode s')
                                        (Web.wins s') (Web.losses s') (Some d)])).
Proof.
  induction rs as [|r rs IH]; intros sy s H.
  - exists s. split; [reflexivity|]. left. reflexivity.
  - cbn [forallb] in H. apply andb_true_iff in H as [Hr Hrs].
    apply negb_true_iff in Hr. rewrite web_serve_all_cons.
    pose proof (web_serve_db_step r sy s Hr) as Hstep. cbn zeta in Hstep.
    destruct (web_serve_step env r sy s Hr) as (s1 & H1 & _ & _ & Hact & _).
    destruct (snd (Web.serve env r (mkWorld sy (Some s)))) as [sy1 c1] eqn:E.
    cbn [obj sys] in *. subst c1.
    destruct Hstep as [Hdb|(Ha & s1' & d & Hs1 & Hina & Hdb)].
    + destruct (IH sy1 s1 Hrs) as (s2 & H2 & Hcase).
      exists s2. split; [assumption|]. rewrite <- Hdb.
      destruct Hcase as [Hc|(Ha1 & Ha2 & d & Hc)]; [left; assumption|].
      right. repeat apply conj; auto. exists d. assumption.
    + inversion Hs1; subst s1'.
      rewrite (web_serve_all_inactive env rs (mkWorld sy1 (Some s1))); [|exact Hina|exact Hrs].
      cbn [snd obj sys]. exists s1. split; [reflexivity|]. right.
      repeat apply conj; auto. exists d. assumption.
Qed.

(** X4. A status poll draws nothing and changes nothing of the session but,
    at most, its active flag.  While the game stays active the poll stores
    nothing and reports the session's difficulty, mode, score, round number
    and configuration; the time remaining is reported in timed mode only,
    and is positive. *)
Theorem X4_status_poll_read_only (w : World Web.Cookie) (s : Web.Session) :
  obj w = Some s ->
  let reply := fst (Web.get_game_status env w) in
  let w' := snd (Web.get_game_status env w) in
  rng_pos (sys w') = rng_pos (sys w)
  /\ (obj w' = Some s \/ obj w' = Some (Web.set_game_active false s))
  /\ (Web.session_get_game_active (obj w') = true ->
      obj w' = Some s /\ db (sys w') = db (sys w) /\ save_pos (sys w') = save_pos (sys w)
      /\ exists remaining,
           reply = Web.RStatus (Web.difficulty s) (Web.game_mode s) (Web.wins s)
                               (Web.losses s) (Web.round_number s) remaining (Web.config s)
           /\ match remaining with
              | Some t => (Web.game_mode s =? "timed")%string = true /\ (0 < t)%Q
              | None => (Web.game_mode s =? "timed")%string = false
              end).
Proof.
  destruct w as [[tb cp rp sp] c], s as [act d m cf wi lo st rn]. cbn [obj sys].
  intros ->. cbn zeta. web_unfold. cbn -[Qle_bool Qminus inject_Z max0].
  case_all; cbn -[Qle_bool Qminus inject_Z max0];
    repeat apply conj; try reflexivity; auto; try (intros; discriminate);
    try (destruct act; cbn in *; try discriminate; auto; fail).
  all: intros _; assert (Hact : act = true) by (destruct act; [reflexivity|discriminate]);
    subst act; repeat apply conj; try reflexivity; eexists; (split; [reflexivity|]);
    cbn -[Qle_bool Qminus inject_Z max0]; try reflexivity.
  split; [reflexivity|].
  match goal with H : Qle_bool ?x 0 = false |- _ =>
    destruct (Qlt_le_dec 0 x) as [Hlt|Hle]; [exact Hlt|];
    apply Qle_bool_iff in Hle; congruence end.
Qed.

(** X5. Whenever [play_round] answers a round outcome, the prize cup is one
    of the session's cups and the prize one of the ten prizes, the choice
    sent was one of the cups, the round is won exactly when the normalised
    choice is the prize cup, the score answered and stored in the session
    is the old score with one more win or one more loss accordingly, and
    exactly two random draws were made. *)
Theorem X5_round_outcome (body : option Web.PlayBody) (sy : Sys) (s : Web.Session)
        (reply : Web.Response) (w' : World Web.Cookie)
        (won : bool) (cup prize : string) (cw cl : Z) :
  Web.play_round env body (mkWorld sy (Some s)) = (reply, w') ->
  resp_outcome reply = Some (won, cup, prize, cw, cl) ->
  In cup (cups (Web.config s))
  /\ In prize prizes
  /\ (exists data, body = Some data
                   /\ won = (normalised data =? cup)%string
                   /\ In (normalised data) (cups (Web.config s)))
  /\ cw = Web.wins s + (if won then 1 else 0)
  /\ cl = Web.losses s + (if won then 0 else 1)
  /\ option_map Web.wins (obj w') = Some cw
  /\ option_map Web.losses (obj w') = Some cl
  /\ rng_pos (sys w') = S (S (rng_pos sy)).
Proof.
  destruct sy as [tb cp rp sp], s as [act d m c wi lo st rn].
  unfold normalised. web_unfold. cbn -[prizes PyStr.str_in nth_error Nat.modulo].
  repeat (case_step; cbn -[prizes PyStr.str_in nth_error Nat.modulo] in * );
    intros H; inversion H; subst; cbn -[prizes PyStr.str_in nth_error Nat.modulo];
    intros Ho; try discriminate Ho; inversion Ho; subst.
  all: repeat match goal with
       | H : nth_error _ _ = Some _ |- _ => apply nth_error_In in H
       | H : negb _ = false |- _ => apply negb_false_iff in H
       | H : PyStr.str_in _ _ = true |- _ => apply PyStrFacts.str_in_In in H
       end.
  all: repeat apply conj; try assumption; try reflexivity; try lia.
  all: try (eexists; repeat apply conj; [reflexivity| |assumption]; cbn; congruence).
Qed.

Lemma web_serve_reach_step (r : Web.Request) (sy : Sys) (s : Web.Session) :
  is_start_game r = false ->
  reach_inv s ->
  reach_cookie (obj (snd (Web.serve env r (mkWorld sy (Some s))))).
Proof.
  intros Hr. destruct s as [act d m c wi lo st rn]. unfold reach_inv. cbn.
  intros (Hw & Hl & Hrn & Hact & Hstreak).
  destruct r as [b|b| |]; [discriminate Hr| | |];
    web_unfold; cbn; case_all; unfold reach_inv; cbn;
    repeat match goal with
    | H : negb ?a = false |- _ => apply negb_false_iff in H; subst a
    | H : negb ?a = true |- _ => apply negb_true_iff in H; subst a
    end;
    try specialize (Hact eq_refl);
    repeat apply conj; try lia; try (intros; discriminate); auto;
    try (intros Hs; specialize (Hstreak Hs); lia);
    try (intros; lia);
    try (intros Hs; specialize (Hstreak Hs); destruct Hstreak as [H1 H2];
         try specialize (H2 eq_refl); split; intros; lia);
    try congruence.
Qed.

Lemma fresh_session_reach (d m : string) (base : Config) (now : Q) :
  reach_inv (fresh_session d m base now).
Proof.
  unfold reach_inv, fresh_session. cbn. repeat apply conj; try lia; intros; lia.
Qed.

Lemma web_serve_reach (r : Web.Request) (w : World Web.Cookie) :
  reach_cookie (obj w) -> reach_cookie (obj (snd (Web.serve env r w))).
Proof.
  intros Hg. destruct (is_start_game r) eqn:Hr.
  - destruct r as [body| | |]; try discriminate. cbn [Web.serve].
    destruct (web_start_game_cases env body w)
      as [(st & er & H)|(d & m & base & Hb & H)]; rewrite H; cbn [snd obj];
      [assumption|]. apply fresh_session_reach.
  - destruct w as [sy [s|]].
    + now apply web_serve_reach_step.
    + rewrite (web_inactive_noop env r (mkWorld sy None)); [exact I|reflexivity|assumption].
Qed.

Lemma web_serve_all_reach (rs : list Web.Request) :
  forall w : World Web.Cookie,
    reach_cookie (obj w) -> reach_cookie (obj (snd (Web.serve_all env rs w))).
Proof.
  induction rs as [|r rs IH]; intros w Hg; [assumption|].
  rewrite web_serve_all_cons. apply IH. now apply web_serve_reach.
Qed.

(** X6. In every session reached from an empty one by any sequence of
    requests, wins and losses are not negative and the round number is the
    number of rounds played plus one while the game is active (and at most
    that afterwards). *)
Theorem X6_round_number_counts_rounds (rs : list Web.Request) (sy : Sys)
        (s : Web.Session) :
  obj (snd (Web.serve_all env rs (mkWorld sy None))) = Some s ->
  0 <= Web.wins s /\ 0 <= Web.losses s
  /\ Web.wins s + Web.losses s <= Web.round_number s <= Web.wins s + Web.losses s + 1
  /\ (Web.game_active s = true -> Web.round_number s = Web.wins s + Web.losses s + 1).
Proof.
  intros Hs. pose proof (web_serve_all_reach rs (mkWorld sy None) I) as Hr.
  rewrite Hs in Hr. destruct Hr as (Hw & Hl & Hrn & Hact & _).
  repeat apply conj; try assumption; lia.
Qed.

(** X7. A streak game never has more than one loss, and none while it is
    active: in every session in streak mode reached from an empty one. *)
Theorem X7_streak_game_has_one_loss_at_most (rs : list Web.Request) (sy : Sys)
        (s : Web.Session) :
  obj (snd (Web.serve_all env rs (mkWorld sy None))) = Some s ->
  Web.game_mode s = "streak" ->
  Web.losses s <= 1 /\ (Web.game_active s = true -> Web.losses s = 0).
Proof.
  intros Hs Hm. pose proof (web_serve_all_reach rs (mkWorld sy None) I) as Hr.
  rewrite Hs in Hr. destruct Hr as (_ & _ & _ & _ & Hstreak).
  apply Hstreak. rewrite Hm. reflexivity.
Qed.

Lemma web_open_ended_step (r : Web.Request) (sy : Sys) (s : Web.Session) :
  is_play_or_status r = true ->
  open_ended s ->
  Web.game_active s = true ->
  exists s',
    obj (snd (Web.serve env r (mkWorld sy (Some s)))) = Some s'
    /\ Web.game_active s' = true
    /\ open_ended s'
    /\ db (sys (snd (Web.serve env r (mkWorld sy (Some s))))) = db sy.
Proof.
  intros Hr. destruct s as [act d m c wi lo st rn]. unfold open_ended. cbn.
  intros (Ht & Hs & Hm) ->.
  destruct r as [b|b| |]; try discriminate Hr;
    web_unfold; cbn; rewrite ?Ht, ?Hs, ?Hm; cbn;
    repeat (first [rewrite Ht | rewrite Hs | rewrite Hm | case_step]; cbn);
    eexists; repeat apply conj; reflexivity || assumption.
Qed.

(** X8. A game that is neither timed nor a streak and has no round target
    (a classic game) is never ended by playing rounds or polling the
    status: after any sequence of such requests the session is still
    active and nothing was stored; only [end_game] ends it. *)
Theorem X8_classic_game_stays_active (rs : list Web.Request) :
  forall (sy : Sys) (s : Web.Session),
    forallb is_play_or_status rs = true ->
    open_ended s ->
    Web.game_active s = true ->
    exists s',
      obj (snd (Web.serve_all env rs (mkWorld sy (Some s)))) = Some s'
      /\ Web.game_active s' = true
      /\ db (sys (snd (Web.serve_all env rs (mkWorld sy (Some s))))) = db sy.
Proof.
  induction rs as [|r rs IH]; intros sy s H Ho Ha.
  - exists s. repeat apply conj; auto.
  - cbn [forallb] in H. apply andb_true_iff in H as [Hr Hrs].
    rewrite web_serve_all_cons.
    destruct (web_open_ended_step r sy s Hr Ho Ha) as (s1 & H1 & Ha1 & Ho1 & Hdb).
    destruct (snd (Web.serve env r (mkWorld sy (Some s)))) as [sy1 c1].
    cbn [obj sys] in *. subst c1.
    destruct (IH sy1 s1 Hrs Ho1 Ha1) as (s2 & H2 & Ha2 & Hdb2).
    exists s2. repeat apply conj; auto. congruence.
Qed.

(** X9. [play_round] on an active session without a JSON body is answered
    500 "Failed to play round"; with a body that has no choice, in a game
    started by [start_game], it is answered 400 "Invalid cup choice" (the
    default choice is the empty string, which is no cup).  Both leave the
    world as it is. *)
Theorem X9_play_round_without_choice :
  (forall (w : World Web.Cookie) (s : Web.Session),
      obj w = Some s -> Web.game_active s = true ->
      Web.play_round env None w = (Web.RError 500 "Failed to play round", w))
  /\ (forall (d : Difficulty) (m : GameMode) (w : World Web.Cookie),
         Web.play_round env (Some (Web.mkPlayBody None))
                        (snd (Web.start_game env (start_body d m) w))
         = (Web.RError 400 "Invalid cup choice",
            snd (Web.start_game env (start_body d m) w))).
Proof.
  split.
  - intros [sy c] s. cbn [obj]. intros -> Ha.
    web_unfold. cbn. rewrite Ha. reflexivity.
  - intros d m w. rewrite web_start_game_run. cbn [snd].
    eapply web_play_round_invalid;
      [cbn [obj]; reflexivity | reflexivity | destruct d, m; reflexivity].
Qed.

(** X10. [start_game] rejects what it cannot start and then leaves the
    world, a game in progress included, as it is: 500 "Failed to start
    game" without a JSON body, 400 "Invalid difficulty" when the difficulty
    (default "easy") is not one of the three names as written, and, the
    difficulty being valid, 400 "Invalid game mode" when the mode (default
    "classic") is not one of the three names. *)
Theorem X10_start_game_rejects (body : option Web.StartBody) (w : World Web.Cookie) :
  match body with
  | None => Web.start_game env body w = (Web.RError 500 "Failed to start game", w)
  | Some data =>
      let d := Web.get_default (Web.sb_difficulty data) "easy" in
      let m := Web.get_default (Web.sb_game_mode data) "classic" in
      (~ In d ["easy"; "medium"; "hard"] ->
       Web.start_game env body w = (Web.RError 400 "Invalid difficulty", w))
      /\ (In d ["easy"; "medium"; "hard"] -> ~ In m ["classic"; "timed"; "streak"] ->
          Web.start_game env body w = (Web.RError 400 "Invalid game mode", w))
  end.
Proof.
  destruct body as [[od om]|]; [|reflexivity]. cbn zeta. cbn [Web.sb_difficulty Web.sb_game_mode].
  split.
  - intros Hd. web_unfold. cbn -[PyStr.str_in].
    destruct (PyStr.str_in _ ["easy"; "medium"; "hard"]) eqn:E; [|reflexivity].
    apply PyStrFacts.str_in_In in E. contradiction.
  - intros Hd Hm. apply PyStrFacts.str_in_In in Hd.
    web_unfold. cbn -[PyStr.str_in]. rewrite Hd. cbn -[PyStr.str_in].
    destruct (PyStr.str_in _ ["classic"; "timed"; "streak"]) eqn:E; [|reflexivity].
    apply PyStrFacts.str_in_In in E. contradiction.
Qed.

End WebMore.

(** ** The terminal game *)

Section TerminalMore.
Variable env : Env.

(** X11. A round of a terminal game that is not timed, when the player
    types any number of refused lines and then a line naming a cup: the
    refused lines are skipped, two random draws are made, the round is won
    exactly when the line typed (lower-cased, trimmed) is the drawn cup,
    wins or losses go up by one accordingly, and the answer is [False] after
    a loss in streak mode or once the round target is reached, [True]
    otherwise; the store is not touched. *)
Theorem X11_terminal_round_played (sy : Sys) (g : Terminal.CupGame)
        (bad : list string) (good : string) (rest : list string)
        (out : list Terminal.Msg) (cup : string) :
  GameMode_eqb (Terminal.game_mode g) TIMED = false ->
  nth_error (cups (Terminal.config g))
            (rng env (rng_pos sy) mod List.length (cups (Terminal.config g)))%nat = Some cup ->
  Forall (fun l => Terminal.validate_choice g (typed l) = false) bad ->
  Terminal.validate_choice g (typed good) = true ->
  let won := (typed good =? cup)%string in
  let g' := if won then Terminal.set_wins (Terminal.wins g + 1) g
            else Terminal.set_losses (Terminal.losses g + 1) g in
  exists out',
    Terminal.play_round env (mkWorld sy (Terminal.mkConsole g (bad ++ good :: rest) out))
    = (Ok (if won then goes_on (Terminal.config g) (Terminal.wins g + 1 + Terminal.losses g)
           else if GameMode_eqb (Terminal.game_mode g) STREAK then false
                else goes_on (Terminal.config g) (Terminal.wins g + (Terminal.losses g + 1))),
       mkWorld (mkSys (db sy) (clock_pos sy) (S (S (rng_pos sy))) (save_pos sy))
               (Terminal.mkConsole g' rest out')).
Proof.
  intros Hm Hcup Hbad Hgood. cbn zeta.
  unfold Terminal.play_round, Terminal.play_round_body, Effects.try_except.
  unfold Effects.bind at 1. unfold Terminal.check_time_limit.
  unfold Effects.bind at 1. unfold Terminal.self at 1.
  unfold Effects.bind at 1. cbn [Effects.get_obj obj Terminal.game Effects.ret].
  rewrite Hm. cbn [Effects.ret].
  unfold Effects.bind at 1. unfold Terminal.self at 1.
  unfold Effects.bind at 1. cbn [Effects.get_obj obj Terminal.game Effects.ret].
  unfold Effects.bind at 1. unfold Effects.random_choice at 1. cbn [sys obj rng_pos].
  rewrite Hcup.
  unfold Effects.bind at 1. unfold Effects.random_choice at 1.
  cbn [sys obj rng_pos db clock_pos save_pos].
  destruct (nth_error prizes _) as [prize|] eqn:Hp.
  2:{ apply nth_error_None in Hp. exfalso.
      pose proof (Nat.mod_upper_bound (rng env (S (rng_pos sy))) (List.length prizes)) as Hb.
      cbn [List.length prizes] in *. lia. }
  unfold Effects.bind at 1.
  destruct (terminal_read_choice_spec
              (mkSys (db sy) (clock_pos sy) (S (S (rng_pos sy))) (save_pos sy))
              g bad good rest out Hbad Hgood) as [out1 Hr].
  rewrite Hr. unfold Terminal.settle_round. term_unfold. cbn.
  unfold goes_on.
  destruct (typed good =? cup)%string; cbn.
  - destruct (truthy_max_rounds (Terminal.config g)) as [max|]; cbn;
      [destruct (max <=? _)|]; cbn; eexists; reflexivity.
  - destruct (GameMode_eqb (Terminal.game_mode g) STREAK); cbn; [eexists; reflexivity|].
    destruct (truthy_max_rounds (Terminal.config g)) as [max|]; cbn;
      [destruct (max <=? _)|]; cbn; eexists; reflexivity.
Qed.

(** The rounds and the prompts do not reach the store. *)
Lemma terminal_play_round_store (w : World Terminal.Console) :
  db (sys (snd (Terminal.play_round env w))) = db (sys w)
  /\ save_pos (sys (snd (Terminal.play_round env w))) = save_pos (sys w).
Proof.
  destruct w as [[tb cp rp sp] [[d m wi lo st c] lines out]].
  term_unfold. cbn. case_all; split; reflexivity.
Qed.

Lemma terminal_input_sys (prompt : string) (w : World Terminal.Console) :
  sys (snd (Terminal.input prompt w)) = sys w.
Proof.
  destruct w as [sy [g lines out]]. term_unfold. cbn. destruct lines; reflexivity.
Qed.

Lemma terminal_rounds_store (fuel : nat) :
  forall (w : World Terminal.Console) r w',
    Terminal.rounds env fuel w = Some (r, w') ->
    db (sys w') = db (sys w) /\ save_pos (sys w') = save_pos (sys w)
    /\ (GameMode_eqb (Terminal.game_mode (game_of w)) CLASSIC = false -> r = Ok tt).
Proof.
  induction fuel as [|fuel IH]; intros w r w'; cbn [Terminal.rounds]; [discriminate|].
  destruct (terminal_play_round_step env w) as (b & w1 & Hp & Hle & _).
  pose proof (terminal_play_round_store w) as [Hdb Hsp].
  rewrite Hp in *. cbn [snd] in *.
  assert (Hmode : Terminal.game_mode (game_of w1) = Terminal.game_mode (game_of w))
    by apply Hle.
  destruct b.
  - rewrite Hmode. destruct (GameMode_eqb _ CLASSIC) eqn:Hc.
    + pose proof (terminal_input_sys "Play another round? (y/n): " w1) as Hi.
      destruct (Terminal.input _ w1) as [[again|e] w2]; cbn [snd] in Hi.
      * destruct (_ =? _)%string.
        -- intros H. apply IH in H as (H1 & H2 & _). rewrite Hi in *.
           repeat apply conj; try congruence; try discriminate.
        -- intros H; inversion H; subst. rewrite Hi.
           repeat apply conj; try congruence; try discriminate.
      * intros H; inversion H; subst. rewrite Hi.
        repeat apply conj; try congruence; try discriminate.
    + intros H. apply IH in H as (H1 & H2 & H3).
      repeat apply conj; try congruence. intros _. apply H3. now rewrite Hmode.
  - intros H; inversion H; subst. repeat apply conj; auto.
Qed.

Lemma terminal_run_intro_store (w : World Terminal.Console) :
  db (sys (snd (Terminal.run_intro env w))) = db (sys w)
  /\ save_pos (sys (snd (Terminal.run_intro env w))) = save_pos (sys w)
  /\ ((2 <= unread w)%nat -> exists u, fst (Terminal.run_intro env w) = Ok u)
  /\ ((unread w < 2)%nat ->
      exists e out,
        Terminal.run_intro env w
        = (Raise e,
           mkWorld (mkSys (db (sys w)) (S (clock_pos (sys w))) (rng_pos (sys w))
                          (save_pos (sys w)))
                   (Terminal.mkConsole
                      (Terminal.set_start_time (Some (clock env (clock_pos (sys w))))
                                               (game_of w))
                      [] out))).
Proof.
  destruct w as [[tb cp rp sp] [[d m wi lo st c] lines out]].
  term_unfold. cbn.
  destruct lines as [|l1 [|l2 rest]]; cbn; case_all; repeat apply conj; try reflexivity;
    try (intros; cbn in *; lia); try (intros; eexists; reflexivity);
    intros; do 2 eexists; reflexivity.
Qed.

Lemma terminal_show_summary_stored (w : World Terminal.Console) :
  store_down env (save_pos (sys w)) = false ->
  exists w' duration,
    Terminal.show_summary env w = (Ok tt, w')
    /\ game_of w' = game_of w
    /\ db (sys w') = db (sys w) ++ [summary_record (game_of w) duration]
    /\ (duration = None <->
        match Terminal.start_time (game_of w) with
        | Some t => Qeq_bool t 0 = true
        | None => True
        end).
Proof.
  destruct w as [[tb cp rp sp] [[d m wi lo st c] lines out]].
  cbn [sys save_pos]. intros Hd.
  term_unfold. cbn. repeat (first [rewrite Hd | case_step]; cbn).
  all: do 2 eexists; (split; [reflexivity|]); cbn;
    repeat apply conj; try reflexivity; try (split; [discriminate|]); try tauto;
    try congruence.
Qed.

(** X12. When the input ends before the two questions of [run] are
    answered (fewer than two lines), [run] prints "An unexpected error
    occurred." and ends without a summary: no round is played, the score is
    as it was, and the store is not even tried. *)
Theorem X12_run_on_short_input (fuel : nat) (w : World Terminal.Console) :
  (List.length (Terminal.stdin (obj w)) < 2)%nat ->
  exists w' out,
    Terminal.run env fuel w = Some w'
    /\ db (sys w') = db (sys w)
    /\ save_pos (sys w') = save_pos (sys w)
    /\ rng_pos (sys w') = rng_pos (sys w)
    /\ Terminal.wins (Terminal.game (obj w')) = Terminal.wins (Terminal.game (obj w))
    /\ Terminal.losses (Terminal.game (obj w')) = Terminal.losses (Terminal.game (obj w))
    /\ Terminal.stdout (obj w') = out ++ [Terminal.MsgUnexpectedError].
Proof.
  intros Hlen.
  destruct (terminal_run_intro_store w) as (_ & _ & _ & Hshort).
  destruct (Hshort Hlen) as (e & out & Hi).
  unfold Terminal.run. rewrite Hi. do 2 eexists. split; [reflexivity|].
  cbn. repeat apply conj; reflexivity.
Qed.

(** X13. A [run] of the terminal game ends (given one unit of fuel more
    than there are lines to read) and adds at most one record to the table;
    the record it adds carries the difficulty, the mode and the final wins
    and losses of the game. *)
Theorem X13_run_stores_at_most_one_record (w : World Terminal.Console) :
  exists w',
    Terminal.run env (S (List.length (Terminal.stdin (obj w)))) w = Some w'
    /\ (db (sys w') = db (sys w)
        \/ exists duration,
             db (sys w') = db (sys w) ++ [summary_record (Terminal.game (obj w')) duration]).
Proof.
  unfold Terminal.run.
  destruct (terminal_run_intro_store w) as (Hdb & _ & _ & _).
  destruct (Terminal.run_intro env w) as [[[]|e] w1] eqn:Hi; cbn [snd] in Hdb.
  - apply terminal_run_intro_spec in Hi as [_ Hlen].
    destruct (terminal_rounds_terminates env (S (unread w)) w1) as [[r w2] Hr]; [lia|].
    rewrite Hr. apply terminal_rounds_store in Hr as (Hdb2 & _ & _).
    destruct r as [[]|e].
    + destruct (terminal_show_summary_spec env w2) as (w3 & Hs & Hg & Hcase).
      rewrite Hs. cbn [snd]. eexists; split; [reflexivity|].
      rewrite Hg. destruct Hcase as [H|[d H]]; [left; congruence|].
      right. exists d. unfold summary_record. congruence.
    + eexists; split; [reflexivity|]. left. cbn. congruence.
  - eexists; split; [reflexivity|]. left. cbn. congruence.
Qed.

(** X14. A [run] of a timed or streak game whose two questions are answered
    stores, when the store is up, exactly one record: the one of the final
    score.  (The loop of such a game asks nothing, so nothing can raise
    between the rounds and the summary.) *)
Theorem X14_run_stores_the_final_score (w : World Terminal.Console) :
  GameMode_eqb (Terminal.game_mode (Terminal.game (obj w))) CLASSIC = false ->
  (2 <= List.length (Terminal.stdin (obj w)))%nat ->
  store_down env (save_pos (sys w)) = false ->
  exists w' duration,
    Terminal.run env (S (List.length (Terminal.stdin (obj w)))) w = Some w'
    /\ db (sys w') = db (sys w) ++ [summary_record (Terminal.game (obj w')) duration].
Proof.
  intros Hm Hlen Hd. unfold Terminal.run.
  destruct (terminal_run_intro_store w) as (Hdb & Hsp & Hok & _).
  destruct (Hok Hlen) as [u Hu].
  destruct (Terminal.run_intro env w) as [[[]|e] w1] eqn:Hi; cbn [fst snd] in *;
    [|discriminate Hu].
  apply terminal_run_intro_spec in Hi as [[t Ht] Hl].
  destruct (terminal_rounds_terminates env (S (unread w)) w1) as [[r w2] Hr]; [lia|].
  rewrite Hr. apply terminal_rounds_store in Hr as (Hdb2 & Hsp2 & Hnc).
  rewrite Hnc by (rewrite Ht; exact Hm).
  destruct (terminal_show_summary_stored w2) as (w3 & d & Hs & Hg & Hdb3).
  { rewrite Hsp2, Hsp. exact Hd. }
  rewrite Hs. cbn [snd]. exists w3, d. split; [reflexivity|].
  rewrite Hg. destruct Hdb3 as [Hdb3 _]. congruence.
Qed.

(** X15. [show_summary] never raises and leaves the game, the input and
    the random source as they are, whether the store is up or down.  With
    the store up it appends the record of the game, with the store down the
    table is as before; the duration of the record is absent exactly when
    the game has no start time or a start time of 0 (which Python takes for
    false), and is otherwise the clock's reading minus the start time. *)
Theorem X15_show_summary_record (w : World Terminal.Console) :
  exists w' duration,
    Terminal.show_summary env w = (Ok tt, w')
    /\ Terminal.game (obj w') = Terminal.game (obj w)
    /\ Terminal.stdin (obj w') = Terminal.stdin (obj w)
    /\ rng_pos (sys w') = rng_pos (sys w)
    /\ duration = match Terminal.start_time (Terminal.game (obj w)) with
                  | Some t => if Qeq_bool t 0 then None
                              else Some (clock env (clock_pos (sys w)) - t)%Q
                  | None => None
                  end
    /\ (store_down env (save_pos (sys w)) = false ->
        db (sys w') = db (sys w) ++ [summary_record (Terminal.game (obj w)) duration])
    /\ (store_down env (save_pos (sys w)) = true -> db (sys w') = db (sys w)).
Proof.
  destruct w as [[tb cp rp sp] [[d m wi lo st c] lines out]].
  cbn [sys save_pos].
  destruct (store_down env sp) eqn:Hd.
  all: term_unfold; cbn; repeat (first [rewrite Hd | case_step]; cbn).
  all: do 2 eexists; (split; [reflexivity|]); cbn;
    repeat apply conj; try reflexivity; intros H; try discriminate H; reflexivity.
Qed.

End TerminalMore.

(** ** The statistics *)

Module StatisticsFacts.
Import Statistics.


Lemma or_0_sql_sum (vals : list Z) : or_0 (sql_sum vals) = sum_Z vals.
Proof. destruct vals; reflexivity. Qed.

Lemma category_eqb_eq (a b : string * string) : category_eqb a b = true <-> a = b.
Proof.
  destruct a as [a1 a2], b as [b1 b2]. unfold category_eqb. cbn.
  rewrite andb_true_iff, !String.eqb_eq. split; [intros [-> ->]; reflexivity|].
  intros H; inversion H; auto.
Qed.

Lemma category_eqb_refl (a : string * string) : category_eqb a a = true.
Proof. now apply category_eqb_eq. Qed.

Lemma groups_In (keys : list (string * string)) (k : string * string) :
  In k (groups keys) <-> In k keys.
Proof.
  induction keys as [|k0 keys IH]; cbn [groups In]; [tauto|].
  rewrite filter_In, IH. split.
  - intros [H|[H _]]; auto.
  - intros [H|H]; auto.
    destruct (category_eqb k0 k) eqn:E.
    + apply category_eqb_eq in E. auto.
    + right. split; [assumption|reflexivity].
Qed.

Lemma groups_NoDup (keys : list (string * string)) : NoDup (groups keys).
Proof.
  induction keys as [|k0 keys IH]; cbn [groups]; constructor.
  - rewrite filter_In. intros [_ H]. now rewrite category_eqb_refl in H.
  - now apply NoDup_filter.
Qed.

(** The one group of a row, among groups without repetition. *)
Lemma one_group (ks : list (string * string)) (k0 : string * string) (a : Z) :
  NoDup ks -> In k0 ks ->
  sum_Z (map (fun k => if category_eqb k k0 then a else 0) ks) = a.
Proof.
  induction ks as [|k ks IH]; intros Hnd Hin; [contradiction|].
  inversion Hnd as [|? ? Hnot Hnd']; subst. cbn [map sum_Z fold_right].
  fold (sum_Z (map (fun k => if category_eqb k k0 then a else 0) ks)).
  destruct Hin as [->|Hin].
  - rewrite category_eqb_refl.
    assert (Hz : sum_Z (map (fun k => if category_eqb k k0 then a else 0) ks) = 0).
    { clear IH Hnd Hnd'. induction ks as [|k ks IH]; [reflexivity|].
      cbn [map sum_Z fold_right].
      fold (sum_Z (map (fun k => if category_eqb k k0 then a else 0) ks)).
      destruct (category_eqb k k0) eqn:E.
      - apply category_eqb_eq in E. subst. exfalso. apply Hnot. now left.
      - rewrite IH; [reflexivity|]. intros H. apply Hnot. now right. }
    lia.
  - destruct (category_eqb k k0) eqn:E.
    + apply category_eqb_eq in E. subst. contradiction.
    + rewrite (IH Hnd' Hin). lia.
Qed.

(** Summing a column group by group is summing it over the table. *)
Lemma sum_by_group (f : SessionRecord -> Z) (ks : list (string * string)) :
  NoDup ks ->
  forall table : list SessionRecord,
    (forall r, In r table -> In (category_of r) ks) ->
    sum_Z (map (fun k => sum_Z (map f (group_rows table k))) ks)
    = sum_Z (map f table).
Proof.
  intros Hnd. induction table as [|r table IH]; intros Hcov.
  - clear Hnd Hcov. induction ks as [|k ks IH]; [reflexivity|].
    cbn [map sum_Z fold_right group_rows filter] in *. exact IH.
  - assert (Hsplit :
              forall k, sum_Z (map f (group_rows (r :: table) k))
                        = (if category_eqb k (category_of r) then f r else 0)
                          + sum_Z (map f (group_rows table k))).
    { intros k. unfold group_rows. cbn [filter].
      destruct (category_eqb k (category_of r)); cbn; unfold sum_Z; lia. }
    rewrite (map_ext _ _ Hsplit).
    assert (Hadd : forall (g h : string * string -> Z) (l : list (string * string)),
               sum_Z (map (fun k => g k + h k) l) = sum_Z (map g l) + sum_Z (map h l)).
    { intros g h l. induction l as [|x l IHl]; [reflexivity|].
      cbn [map sum_Z fold_right] in *. unfold sum_Z in *. lia. }
    rewrite Hadd, IH by (intros; apply Hcov; now right).
    rewrite (one_group ks (category_of r) (f r) Hnd) by (apply Hcov; now left).
    cbn [map sum_Z fold_right]. reflexivity.
Qed.

Lemma count_as_sum (rows : list SessionRecord) :
  sql_count rows = sum_Z (map (fun _ => 1) rows).
Proof.
  unfold sql_count. induction rows as [|r rows IH]; [reflexivity|].
  cbn [List.length map sum_Z fold_right]. unfold sum_Z in IH. lia.
Qed.

End StatisticsFacts.

Import StatisticsFacts.

Lemma statistics_totals (table : list SessionRecord) :
  let o := Statistics.overall (Statistics.get_statistics false table) in
  Statistics.total_sessions o = Z.of_nat (List.length table)
  /\ Statistics.total_wins o = Statistics.sum_Z (map rec_wins table)
  /\ Statistics.total_losses o = Statistics.sum_Z (map rec_losses table).
Proof.
  cbn. rewrite !or_0_sql_sum. repeat split.
Qed.


(** X17. The rows by category partition the table: there is one row for
    each (difficulty, mode) pair that occurs in the table and for no other,
    every row counts at least one session, and the rows' sessions, wins and
    losses add up to the overall totals. *)
Theorem X17_statistics_by_category :
  forall table : list SessionRecord,
    let stats := Statistics.get_statistics false table in
    let rows := Statistics.by_category stats in
    Statistics.sum_Z (map Statistics.cat_sessions rows)
    = Statistics.total_sessions (Statistics.overall stats)
    /\ Statistics.sum_Z (map Statistics.cat_wins rows)
       = Statistics.total_wins (Statistics.overall stats)
    /\ Statistics.sum_Z (map Statistics.cat_losses rows)
       = Statistics.total_losses (Statistics.overall stats)
    /\ NoDup (map row_category rows)
    /\ (forall k, In k (map row_category rows) <-> In k (map Statistics.category_of table))
    /\ (forall row, In row rows -> 1 <= Statistics.cat_sessions row).
Proof.
  intros table. cbn zeta.
  pose proof (statistics_totals table) as (H1 & H2 & H3). cbn zeta in *.
  rewrite H1, H2, H3. clear H1 H2 H3.
  unfold Statistics.get_statistics. cbn [Statistics.by_category].
  set (ks := Statistics.groups (map Statistics.category_of table)).
  assert (Hnd : NoDup ks) by apply groups_NoDup.
  assert (Hcov : forall r, In r table -> In (Statistics.category_of r) ks).
  { intros r Hr. apply groups_In. now apply in_map. }
  rewrite !map_map.
  assert (Hkeys : map (fun k => row_category (Statistics.category_row table k)) ks = ks).
  { rewrite <- (map_id ks) at 2. apply map_ext. intros [a b]. reflexivity. }
  repeat apply conj.
  - cbn [Statistics.category_row Statistics.cat_sessions].
    rewrite (map_ext _ (fun k => Statistics.sum_Z
                                   (map (fun _ => 1) (Statistics.group_rows table k))))
      by (intros; apply count_as_sum).
    rewrite (sum_by_group (fun _ => 1) ks Hnd table Hcov).
    now rewrite <- count_as_sum.
  - apply (sum_by_group rec_wins ks Hnd table Hcov).
  - apply (sum_by_group rec_losses ks Hnd table Hcov).
  - now rewrite Hkeys.
  - intros k. rewrite Hkeys. apply groups_In.
  - intros row Hrow. apply in_map_iff in Hrow as (k & <- & Hk).
    unfold ks in Hk. apply (proj1 (groups_In _ _)) in Hk.
    apply in_map_iff in Hk as (r & <- & Hr).
    cbn [Statistics.category_row Statistics.cat_sessions]. unfold Statistics.sql_count.
    assert (Hin : In r (Statistics.group_rows table (Statistics.category_of r))).
    { apply filter_In. split; [assumption|apply category_eqb_refl]. }
    destruct (Statistics.group_rows table (Statistics.category_of r)); [contradiction|].
    cbn [List.length]. lia.
Qed.

(** X18. What the statistics screen prints.  Without history (an empty
    table, or a read error) it prints the header and "No game history
    found."  With sessions but not one round played in them, it prints the
    three totals and then "Error retrieving statistics.": the win rate
    divides by wins plus losses.  Otherwise it prints the totals and the
    win rate, and no error. *)
Theorem X18_show_statistics_cases :
  forall (read_fails : bool) (table : list SessionRecord),
    let rounds := Statistics.sum_Z (map rec_wins table)
                  + Statistics.sum_Z (map rec_losses table) in
    (read_fails = true \/ table = [] ->
     Statistics.show_statistics read_fails table
     = [Statistics.LineHeader; Statistics.LineNoHistory])
    /\ (read_fails = false -> table <> [] -> rounds = 0 ->
        Statistics.show_statistics read_fails table
        = [Statistics.LineHeader;
           Statistics.LineTotalSessions (Z.of_nat (List.length table));
           Statistics.LineTotalWins (Statistics.sum_Z (map rec_wins table));
           Statistics.LineTotalLosses (Statistics.sum_Z (map rec_losses table));
           Statistics.LineError])
    /\ (read_fails = false -> table <> [] -> rounds <> 0 ->
        exists tail,
          Statistics.show_statistics read_fails table
          = [Statistics.LineHeader;
             Statistics.LineTotalSessions (Z.of_nat (List.length table));
             Statistics.LineTotalWins (Statistics.sum_Z (map rec_wins table));
             Statistics.LineTotalLosses (Statistics.sum_Z (map rec_losses table));
             Statistics.LineWinRate (Statistics.sum_Z (map rec_wins table))
                                    (Statistics.sum_Z (map rec_losses table))]
            ++ tail
          /\ ~ In Statistics.LineError tail).
Proof.
  intros rf table. cbn zeta. repeat apply conj.
  - intros [->| ->]; [reflexivity|]. destruct rf; reflexivity.
  - intros -> Hne Hz. unfold Statistics.show_statistics.
    pose proof (statistics_totals table) as (H1 & H2 & H3). cbn zeta in *.
    rewrite H1, H2, H3.
    destruct table as [|r table]; [contradiction|].
    replace (0 <? Z.of_nat (List.length (r :: table))) with true
      by (symmetry; apply Z.ltb_lt; cbn [List.length]; lia).
    apply Z.eqb_eq in Hz. rewrite Hz. reflexivity.
  - intros -> Hne Hz. unfold Statistics.show_statistics.
    pose proof (statistics_totals table) as (H1 & H2 & H3). cbn zeta in *.
    rewrite H1, H2, H3.
    destruct table as [|r table]; [contradiction|].
    replace (0 <? Z.of_nat (List.length (r :: table))) with true
      by (symmetry; apply Z.ltb_lt; cbn [List.length]; lia).
    apply Z.eqb_neq in Hz. rewrite Hz.
    eexists. split; [cbn [app]; reflexivity|].
    destruct (Qeq_bool _ 0); cbn; intuition discriminate.
Qed.

(** ** The two menus *)

Lemma select_difficulty_loop_skips (bad : list string) :
  forall (good : string) (rest : list string) (out : list Selection.Msg) (d : Difficulty),
    Forall (fun l => menu_choice EASY MEDIUM HARD l = None) bad ->
    menu_choice EASY MEDIUM HARD good = Some d ->
    Selection.select_difficulty_loop (bad ++ good :: rest) out
    = (Some d, rest, out ++ refusals bad ++ [Selection.MsgPrompt "Enter choice (1-3): "]).
Proof.
  induction bad as [|b bad IH]; intros good rest out d Hbad Hgood;
    cbn [app Selection.select_difficulty_loop refusals flat_map].
  - unfold menu_choice in Hgood.
    repeat (destruct (_ =? _)%string; [inversion Hgood; reflexivity|]). discriminate.
  - inversion Hbad as [|? ? Hb Hbad']; subst. unfold menu_choice in Hb.
    repeat (destruct (_ =? _)%string; [discriminate Hb|]).
    rewrite (IH good rest _ d Hbad' Hgood). unfold refusals.
    rewrite <- !app_assoc. reflexivity.
Qed.

Lemma select_game_mode_loop_skips (bad : list string) :
  forall (good : string) (rest : list string) (out : list Selection.Msg) (m : GameMode),
    Forall (fun l => menu_choice CLASSIC TIMED STREAK l = None) bad ->
    menu_choice CLASSIC TIMED STREAK good = Some m ->
    Selection.select_game_mode_loop (bad ++ good :: rest) out
    = (Some m, rest, out ++ refusals bad ++ [Selection.MsgPrompt "Enter choice (1-3): "]).
Proof.
  induction bad as [|b bad IH]; intros good rest out d Hbad Hgood;
    cbn [app Selection.select_game_mode_loop refusals flat_map].
  - unfold menu_choice in Hgood.
    repeat (destruct (_ =? _)%string; [inversion Hgood; reflexivity|]). discriminate.
  - inversion Hbad as [|? ? Hb Hbad']; subst. unfold menu_choice in Hb.
    repeat (destruct (_ =? _)%string; [discriminate Hb|]).
    rewrite (IH good rest _ d Hbad' Hgood). unfold refusals.
    rewrite <- !app_assoc. reflexivity.
Qed.

Lemma select_difficulty_loop_starves (lines : list string) :
  forall out : list Selection.Msg,
    Forall (fun l => menu_choice EASY MEDIUM HARD l = None) lines ->
    fst (fst (Selection.select_difficulty_loop lines out)) = None.
Proof.
  induction lines as [|l lines IH]; intros out Hbad; [reflexivity|].
  cbn [Selection.select_difficulty_loop]. inversion Hbad as [|? ? Hb Hbad']; subst.
  unfold menu_choice in Hb.
  repeat (destruct (_ =? _)%string; [discriminate Hb|]). now apply IH.
Qed.

Lemma select_game_mode_loop_starves (lines : list string) :
  forall out : list Selection.Msg,
    Forall (fun l => menu_choice CLASSIC TIMED STREAK l = None) lines ->
    fst (fst (Selection.select_game_mode_loop lines out)) = None.
Proof.
  induction lines as [|l lines IH]; intros out Hbad; [reflexivity|].
  cbn [Selection.select_game_mode_loop]. inversion Hbad as [|? ? Hb Hbad']; subst.
  unfold menu_choice in Hb.
  repeat (destruct (_ =? _)%string; [discriminate Hb|]). now apply IH.
Qed.

(** X19. The two menus return what the first accepted line selects (a line
    is accepted when, trimmed, it is "1", "2" or "3"), leave the lines after
    it unread, and print "Invalid choice" once for each refused line before
    it.  When no line is accepted they never return: at the end of the
    input the loop catches the [EOFError] and asks again. *)
Theorem X19_menus_return_first_accepted_line :
  forall (bad : list string) (good : string) (rest : list string)
         (out : list Selection.Msg),
    (forall d : Difficulty,
        Forall (fun l => menu_choice EASY MEDIUM HARD l = None) bad ->
        menu_choice EASY MEDIUM HARD good = Some d ->
        Selection.select_difficulty (bad ++ good :: rest) out
        = (Some d, rest,
           (out ++ [Selection.MsgMenu "Select difficulty:"
                      ["1. Easy (2 cups)"; "2. Medium (3 cups)"; "3. Hard (4 cups)"]])
           ++ refusals bad ++ [Selection.MsgPrompt "Enter choice (1-3): "]))
    /\ (forall m : GameMode,
          Forall (fun l => menu_choice CLASSIC TIMED STREAK l = None) bad ->
          menu_choice CLASSIC TIMED STREAK good = Some m ->
          Selection.select_game_mode (bad ++ good :: rest) out
          = (Some m, rest,
             (out ++ [Selection.MsgMenu "Select game mode:"
                        ["1. Classic (Play until you quit)";
                         "2. Timed (30 second time limit)";
                         "3. Streak (Win 10 rounds in a row)"]])
             ++ refusals bad ++ [Selection.MsgPrompt "Enter choice (1-3): "]))
    /\ (Forall (fun l => menu_choice EASY MEDIUM HARD l = None) bad ->
        fst (fst (Selection.select_difficulty bad out)) = None)
    /\ (Forall (fun l => menu_choice CLASSIC TIMED STREAK l = None) bad ->
        fst (fst (Selection.select_game_mode bad out)) = None).
Proof.
  intros bad good rest out. repeat apply conj.
  - intros d Hbad Hgood. unfold Selection.select_difficulty.
    now apply select_difficulty_loop_skips.
  - intros m Hbad Hgood. unfold Selection.select_game_mode.
    now apply select_game_mode_loop_skips.
  - intros Hbad. unfold Selection.select_difficulty.
    now apply select_difficulty_loop_starves.
  - intros Hbad. unfold Selection.select_game_mode.
    now apply select_game_mode_loop_starves.
Qed.

(** ** The first game *)

Ltac legacy_unfold :=
  unfold LegacyGame.play_round, LegacyGame.show_summary, LegacyGame.save_score,
    LegacyGame.while_invalid, LegacyGame.input, LegacyGame.print, LegacyGame.self,
    LegacyGame.self_update, Effects.update,
    Effects.bind, Effects.ret, Effects.raise, Effects.get_obj,
    Effects.put_obj, Effects.random_choice.

Lemma legacy_choose_again_length u l out r l' out' :
  LegacyGame.choose_again u l out = (r, l', out') ->
  (List.length l' <= List.length l)%nat
  /\ match r with Raise e => e = EOFError | Ok c => Legacy.validate_choice c = true end.
Proof.
  revert u out. induction l as [|x l IH]; intros u out; cbn [LegacyGame.choose_again].
  - destruct (Legacy.validate_choice u) eqn:E; intros H; inversion H; subst; cbn; auto.
  - destruct (Legacy.validate_choice u) eqn:E.
    + intros H; inversion H; subst; cbn; auto.
    + intros H. apply IH in H as [H1 H2]. cbn. split; [lia|assumption].
Qed.

Lemma legacy_choose_again_valid u l out :
  Legacy.validate_choice u = true ->
  LegacyGame.choose_again u l out = (Ok u, l, out).
Proof. intros H. destruct l; cbn [LegacyGame.choose_again]; now rewrite H. Qed.

Lemma legacy_choose_again_skips (bad : list string) :
  forall (u good : string) (rest : list string) (out : list LegacyGame.Msg),
    Legacy.validate_choice u = false ->
    Forall (fun l => Legacy.validate_choice (PyStr.lower l) = false) bad ->
    Legacy.validate_choice (PyStr.lower good) = true ->
    exists out',
      LegacyGame.choose_again u (bad ++ good :: rest) out = (Ok (PyStr.lower good), rest, out').
Proof.
  induction bad as [|b bad IH]; intros u good rest out Hu Hbad Hgood;
    cbn [app LegacyGame.choose_again]; rewrite Hu.
  - rewrite legacy_choose_again_valid by exact Hgood. eauto.
  - inversion Hbad; subst. now apply IH.
Qed.

Section LegacyRound.
Variable env : Env.

(** A round either is scored once or dies at the end of the input. *)
Lemma legacy_play_round_step (w : World LegacyGame.Console) :
  exists r w',
    LegacyGame.play_round env w = (r, w')
    /\ LegacyGame.score_history (obj w') = LegacyGame.score_history (obj w)
    /\ db (sys w') = db (sys w)
    /\ (legacy_unread w' <= legacy_unread w)%nat
    /\ match r with
       | Ok _ =>
           (legacy_unread w' < legacy_unread w)%nat
           /\ rng_pos (sys w') = S (S (rng_pos (sys w)))
           /\ (LegacyGame.wins (LegacyGame.game (obj w'))
               = LegacyGame.wins (LegacyGame.game (obj w)) + 1
               /\ LegacyGame.losses (LegacyGame.game (obj w'))
                  = LegacyGame.losses (LegacyGame.game (obj w))
               \/ LegacyGame.wins (LegacyGame.game (obj w'))
                  = LegacyGame.wins (LegacyGame.game (obj w))
                  /\ LegacyGame.losses (LegacyGame.game (obj w'))
                     = LegacyGame.losses (LegacyGame.game (obj w)) + 1)
       | Raise e => e = EOFError /\ LegacyGame.game (obj w') = LegacyGame.game (obj w)
       end.
Proof.
  destruct w as [[tb cp rp sp] [[wi lo] lines out hist]].
  legacy_unfold. cbn. case_all.
  all: repeat match goal with
       | H : LegacyGame.choose_again _ _ _ = _ |- _ =>
           apply legacy_choose_again_length in H; destruct H
       end.
  all: do 2 eexists; (split; [reflexivity|]); cbn in *.
  all: repeat apply conj; try reflexivity; try lia; auto.
Qed.

End LegacyRound.

Section LegacyRun.
Variable env : Env.

Lemma legacy_input_step (prompt : string) (w : World LegacyGame.Console) :
  exists r w',
    LegacyGame.input prompt w = (r, w')
    /\ LegacyGame.score_history (obj w') = LegacyGame.score_history (obj w)
    /\ legacy_game w' = legacy_game w
    /\ sys w' = sys w
    /\ match r with
       | Ok _ => S (legacy_unread w') = legacy_unread w
       | Raise e => e = EOFError /\ legacy_unread w' = legacy_unread w
       end.
Proof.
  destruct w as [sy [g lines out hist]]. legacy_unfold. cbn.
  destruct lines; cbn; do 2 eexists; (split; [reflexivity|]); cbn; auto.
Qed.

Lemma legacy_rounds_spec (fuel : nat) :
  forall w : World LegacyGame.Console,
    (legacy_unread w < fuel)%nat ->
    exists r w',
      LegacyGame.rounds env fuel w = Some (r, w')
      /\ LegacyGame.score_history (obj w') = LegacyGame.score_history (obj w)
      /\ db (sys w') = db (sys w)
      /\ match r with
         | Ok _ =>
             LegacyGame.wins (legacy_game w) <= LegacyGame.wins (legacy_game w')
             /\ LegacyGame.losses (legacy_game w) <= LegacyGame.losses (legacy_game w')
             /\ legacy_score w + 1 <= legacy_score w'
         | Raise e => e = EOFError
         end.
Proof.
  induction fuel as [|fuel IH]; intros w Hlen; [lia|]. cbn [LegacyGame.rounds].
  unfold Effects.bind at 1.
  destruct (legacy_play_round_step env w) as (r1 & w1 & Hp & Hh1 & Hdb1 & Hl1 & Hr1).
  rewrite Hp. destruct r1 as [[]|e].
  - destruct Hr1 as (Hlt & _ & Hscore).
    destruct (legacy_input_step "Play again? (y/n): " w1)
      as (r2 & w2 & Hi & Hh2 & Hg2 & Hs2 & Hr2).
    rewrite Hi. destruct r2 as [again|e].
    + destruct (_ =? _)%string.
      * destruct (IH w2) as (r & w' & Hr & Hh & Hdb & Hres); [lia|].
        exists r, w'. split; [exact Hr|]. rewrite Hg2 in Hres.
        repeat apply conj; try congruence.
        destruct r as [[]|e]; [|assumption]. lia.
      * do 2 eexists. split; [reflexivity|]. rewrite Hg2.
        repeat apply conj; try congruence; lia.
    + do 2 eexists. split; [reflexivity|]. destruct Hr2 as [-> _].
      repeat apply conj; try congruence.
  - do 2 eexists. split; [reflexivity|]. destruct Hr1 as [-> _].
    repeat apply conj; auto.
Qed.

(** X20. A [run] of the first game ends (given one unit of fuel more than
    there are lines to read) in one of two ways.  Either it returns: then
    exactly one line was appended to the score file, with the final wins
    and losses, and at least one round was played.  Or the input ended
    first: then [EOFError] escapes, which nothing in the game catches, and
    the score file is as it was, whatever was won before. *)
Theorem X20_legacy_run_writes_score_once (w : World LegacyGame.Console) :
  exists r w',
    LegacyGame.run env (S (legacy_unread w)) w = Some (r, w')
    /\ db (sys w') = db (sys w)
    /\ match r with
       | Ok _ =>
           LegacyGame.score_history (obj w')
           = LegacyGame.score_history (obj w)
             ++ [(LegacyGame.wins (legacy_game w'), LegacyGame.losses (legacy_game w'))]
           /\ LegacyGame.wins (legacy_game w) <= LegacyGame.wins (legacy_game w')
           /\ LegacyGame.losses (legacy_game w) <= LegacyGame.losses (legacy_game w')
           /\ legacy_score w + 1 <= legacy_score w'
       | Raise e =>
           e = EOFError
           /\ LegacyGame.score_history (obj w') = LegacyGame.score_history (obj w)
       end.
Proof.
  unfold LegacyGame.run.
  assert (Hintro : exists r1 w1,
             (Effects.bind (LegacyGame.print LegacyGame.MsgIntro)
                (fun _ => Effects.bind
                   (LegacyGame.input "Would you like to see the rules? (y/n): ")
                   (fun rules => if (PyStr.lower rules =? "y")%string
                                 then LegacyGame.print LegacyGame.MsgRules
                                 else Effects.ret tt))) w = (r1, w1)
             /\ LegacyGame.score_history (obj w1) = LegacyGame.score_history (obj w)
             /\ legacy_game w1 = legacy_game w
             /\ db (sys w1) = db (sys w)
             /\ (legacy_unread w1 <= legacy_unread w)%nat
             /\ match r1 with Ok _ => True | Raise e => e = EOFError end).
  { destruct w as [sy [g lines out hist]]. legacy_unfold. cbn.
    destruct lines; cbn; [do 2 eexists; repeat apply conj; reflexivity || auto|].
    destruct (_ =? _)%string; cbn; do 2 eexists;
      repeat apply conj; try reflexivity; auto. }
  destruct Hintro as (r1 & w1 & Hi & Hh1 & Hg1 & Hdb1 & Hl1 & Hr1).
  rewrite Hi. destruct r1 as [[]|e].
  - destruct (legacy_rounds_spec (S (legacy_unread w)) w1) as (r & w2 & Hr & Hh2 & Hdb2 & Hres);
      [lia|].
    rewrite Hr. destruct r as [[]|e].
    + destruct w2 as [sy2 [g2 l2 o2 h2]]. legacy_unfold. cbn in *.
      do 2 eexists. split; [reflexivity|]. cbn. rewrite Hg1 in Hres.
      repeat apply conj; try congruence; lia.
    + do 2 eexists. split; [reflexivity|]. repeat apply conj; congruence.
  - do 2 eexists. split; [reflexivity|]. repeat apply conj; congruence.
Qed.

(** X21. A round of the first game, when the player types any number of
    refused lines and then a line that, lower-cased but not trimmed, names
    a cup: the refused lines are skipped, two random draws are made, the
    round is won exactly when the line names the drawn cup, and wins or
    losses go up by one accordingly; the score file is not touched. *)
Theorem X21_legacy_round_played (sy : Sys) (g : LegacyGame.CupGame)
      (bad : list string) (good : string) (rest : list string)
      (out : list LegacyGame.Msg) (hist : list (Z * Z)) :
  Forall (fun l => Legacy.validate_choice (PyStr.lower l) = false) bad ->
  Legacy.validate_choice (PyStr.lower good) = true ->
  exists cup out',
    nth_error Legacy.choices (rng env (rng_pos sy) mod 3)%nat = Some cup
    /\ LegacyGame.play_round env
         (mkWorld sy (LegacyGame.mkConsole g (bad ++ good :: rest) out hist))
       = (Ok tt,
          mkWorld (mkSys (db sy) (clock_pos sy) (S (S (rng_pos sy))) (save_pos sy))
                  (LegacyGame.mkConsole
                     (if (PyStr.lower good =? cup)%string
                      then LegacyGame.mkCupGame (LegacyGame.wins g + 1) (LegacyGame.losses g)
                      else LegacyGame.mkCupGame (LegacyGame.wins g) (LegacyGame.losses g + 1))
                     rest out' hist)).
Proof.
  intros Hbad Hgood.
  destruct (nth_error Legacy.choices (rng env (rng_pos sy) mod 3)%nat) as [cup|] eqn:Hcup.
  2:{ apply nth_error_None in Hcup. exfalso.
      pose proof (Nat.mod_upper_bound (rng env (rng_pos sy)) 3) as Hb.
      cbn [List.length Legacy.choices] in *. lia. }
  destruct (nth_error LegacyGame.prizes (rng env (S (rng_pos sy)) mod 5)%nat) as [prize|] eqn:Hp.
  2:{ apply nth_error_None in Hp. exfalso.
      pose proof (Nat.mod_upper_bound (rng env (S (rng_pos sy))) 5) as Hb.
      cbn [List.length LegacyGame.prizes] in *. lia. }
  exists cup.
  unfold LegacyGame.play_round.
  unfold Effects.bind at 1. unfold Effects.random_choice at 1.
  cbn [sys obj rng_pos]. change (List.length Legacy.choices) with 3%nat. rewrite Hcup.
  unfold Effects.bind at 1. unfold Effects.random_choice at 1.
  cbn [sys obj rng_pos db clock_pos save_pos].
  change (List.length LegacyGame.prizes) with 5%nat. rewrite Hp.
  assert (Hread : exists out1,
             Effects.bind (LegacyGame.input "Choose a cup (left, middle, right): ")
               (fun line => LegacyGame.while_invalid (PyStr.lower line))
               (mkWorld (mkSys (db sy) (clock_pos sy) (S (S (rng_pos sy))) (save_pos sy))
                        (LegacyGame.mkConsole g (bad ++ good :: rest) out hist))
             = (Ok (PyStr.lower good),
                mkWorld (mkSys (db sy) (clock_pos sy) (S (S (rng_pos sy))) (save_pos sy))
                        (LegacyGame.mkConsole g rest out1 hist))).
  { legacy_unfold. destruct bad as [|b bad]; cbn -[LegacyGame.choose_again].
    - rewrite legacy_choose_again_valid by exact Hgood. eauto.
    - inversion Hbad; subst.
      destruct (legacy_choose_again_skips bad (PyStr.lower b) good rest
                  (out ++ [LegacyGame.MsgPrompt "Choose a cup (left, middle, right): "])
                  H1 H2 Hgood) as [out' Ho].
      rewrite Ho. eauto. }
  destruct Hread as [out1 Hread].
  unfold Effects.bind at 1 in Hread.
  unfold Effects.bind at 1.
  destruct (LegacyGame.input "Choose a cup (left, middle, right): " _) as [[line|e] w1];
    [|discriminate Hread].
  unfold Effects.bind at 1. rewrite Hread.
  legacy_unfold. cbn. destruct (_ =? _)%string; cbn; eexists; split; reflexivity.
Qed.

End LegacyRun.

(** ** Concrete runs of the further properties *)

Lemma X1_end_game_stores_once_witness :
  exists w',
    Web.end_game (demo_env 5 false) c4_world = (Web.REnded 3 0 (5 - 0), w')
    /\ Web.end_game (demo_env 5 false) w' = (Web.RError 400 "No active game", w').
Proof.
  eexists.
  apply (X1_end_game_stores_once (demo_env 5 false) c4_world
           (demo_session "easy" "streak" (set_max_rounds (Some 10) easy_cups) 3 0)
           eq_refl eq_refl eq_refl).
Defined.

Lemma X2_end_game_store_error_keeps_game_witness :
  fst (Web.end_game (flaky_env 5) c4_world) = Web.RError 500 "Failed to end game"
  /\ obj (snd (Web.end_game (flaky_env 5) c4_world)) = obj c4_world
  /\ db (sys (snd (Web.end_game (flaky_env 5) c4_world))) = []
  /\ (store_down (flaky_env 5) 1 = false ->
      exists d,
        db (sys (snd (Web.end_game (flaky_env 5) (snd (Web.end_game (flaky_env 5) c4_world)))))
        = [] ++ [mkRecord "easy" "streak" 3 0 (Some d)]).
Proof.
  apply (X2_end_game_store_error_keeps_game (flaky_env 5) c4_world
           (demo_session "easy" "streak" (set_max_rounds (Some 10) easy_cups) 3 0)
           eq_refl eq_refl eq_refl).
Defined.

Lemma X3_at_most_one_record_per_session_witness :
  exists s',
    obj (snd (Web.serve_all (demo_env 5 false)
                [Web.PlayRound (play_body "right"); Web.GameStatus; Web.EndGame] c4_world))
    = Some s'
    /\ (db (sys (snd (Web.serve_all (demo_env 5 false)
                        [Web.PlayRound (play_body "right"); Web.GameStatus; Web.EndGame]
                        c4_world))) = []
        \/ (true = true /\ Web.game_active s' = false
            /\ exists d,
                 db (sys (snd (Web.serve_all (demo_env 5 false)
                                 [Web.PlayRound (play_body "right"); Web.GameStatus; Web.EndGame]
                                 c4_world)))
                 = [] ++ [mkRecord (Web.difficulty s') (Web.game_mode s')
                                   (Web.wins s') (Web.losses s') (Some d)])).
Proof.
  apply (X3_at_most_one_record_per_session (demo_env 5 false)
           [Web.PlayRound (play_body "right"); Web.GameStatus; Web.EndGame]
           (mkSys [] 1 0 0)
           (demo_session "easy" "streak" (set_max_rounds (Some 10) easy_cups) 3 0)
           eq_refl).
Defined.

Lemma X4_status_poll_read_only_witness :
  rng_pos (sys (snd (Web.get_game_status (demo_env 10 false) c2_world))) = 0%nat
  /\ (obj (snd (Web.get_game_status (demo_env 10 false) c2_world)) = obj c2_world
      \/ obj (snd (Web.get_game_status (demo_env 10 false) c2_world))
         = Some (Web.set_game_active false (demo_session "hard" "timed" hard_timed 2 1)))
  /\ (Web.session_get_game_active (obj (snd (Web.get_game_status (demo_env 10 false) c2_world)))
      = true ->
      obj (snd (Web.get_game_status (demo_env 10 false) c2_world)) = obj c2_world
      /\ db (sys (snd (Web.get_game_status (demo_env 10 false) c2_world))) = []
      /\ save_pos (sys (snd (Web.get_game_status (demo_env 10 false) c2_world))) = 0%nat
      /\ exists remaining,
           fst (Web.get_game_status (demo_env 10 false) c2_world)
           = Web.RStatus "hard" "timed" 2 1 4 remaining hard_timed
           /\ match remaining with
              | Some t => ("timed" =? "timed")%string = true /\ (0 < t)%Q
              | None => ("timed" =? "timed")%string = false
              end).
Proof.
  apply (X4_status_poll_read_only (demo_env 10 false) c2_world
           (demo_session "hard" "timed" hard_timed 2 1) eq_refl).
Defined.

Lemma X5_round_outcome_witness :
  In "left" ["left"; "right"]
  /\ In "a Ferrari" prizes
  /\ (exists data, play_body "right" = Some data
                   /\ false = (normalised data =? "left")%string
                   /\ In (normalised data) ["left"; "right"])
  /\ 3 = 3 + (if false then 1 else 0)
  /\ 1 = 0 + (if false then 0 else 1)
  /\ option_map Web.wins (obj c4_after) = Some 3
  /\ option_map Web.losses (obj c4_after) = Some 1
  /\ rng_pos (sys c4_after) = 2%nat.
Proof.
  apply (X5_round_outcome (demo_env 5 false) (play_body "right") (mkSys [] 1 0 0)
           (demo_session "easy" "streak" (set_max_rounds (Some 10) easy_cups) 3 0)
           (Web.RGameOver false "left" "a Ferrari" "Streak broken" 3 1 5) c4_after
           false "left" "a Ferrari" 3 1 eq_refl eq_refl).
Defined.

Lemma X6_round_number_counts_rounds_witness :
  0 <= Web.wins c9_session /\ 0 <= Web.losses c9_session
  /\ Web.wins c9_session + Web.losses c9_session <= Web.round_number c9_session
     <= Web.wins c9_session + Web.losses c9_session + 1
  /\ (Web.game_active c9_session = true ->
      Web.round_number c9_session = Web.wins c9_session + Web.losses c9_session + 1).
Proof.
  apply (X6_round_number_counts_rounds (demo_env 5 false) c9_requests (mkSys [] 0 0 0)
           c9_session eq_refl).
Defined.

Lemma X7_streak_game_has_one_loss_at_most_witness :
  Web.losses c9_session <= 1
  /\ (Web.game_active c9_session = true -> Web.losses c9_session = 0).
Proof.
  apply (X7_streak_game_has_one_loss_at_most (demo_env 5 false) c9_requests
           (mkSys [] 0 0 0) c9_session eq_refl eq_refl).
Defined.

Lemma X8_classic_game_stays_active_witness :
  exists s',
    obj (snd (Web.serve_all (demo_env 5 false)
                [Web.PlayRound (play_body "left"); Web.GameStatus;
                 Web.PlayRound (play_body "middle")]
                (mkWorld (mkSys [] 1 0 0) (Some classic_session)))) = Some s'
    /\ Web.game_active s' = true
    /\ db (sys (snd (Web.serve_all (demo_env 5 false)
                       [Web.PlayRound (play_body "left"); Web.GameStatus;
                        Web.PlayRound (play_body "middle")]
                       (mkWorld (mkSys [] 1 0 0) (Some classic_session))))) = [].
Proof.
  apply (X8_classic_game_stays_active (demo_env 5 false)
           [Web.PlayRound (play_body "left"); Web.GameStatus;
            Web.PlayRound (play_body "middle")]
           (mkSys [] 1 0 0) classic_session eq_refl).
  - repeat split.
  - reflexivity.
Defined.

Lemma X9_play_round_without_choice_witness :
  Web.play_round (demo_env 5 false) None c4_world
  = (Web.RError 500 "Failed to play round", c4_world).
Proof.
  apply (proj1 (X9_play_round_without_choice (demo_env 5 false)) c4_world
               (demo_session "easy" "streak" (set_max_rounds (Some 10) easy_cups) 3 0)
               eq_refl eq_refl).
Defined.

Lemma X10_start_game_rejects_witness :
  Web.start_game (demo_env 5 false) (Some (Web.mkStartBody (Some "Easy") None)) c4_world
  = (Web.RError 400 "Invalid difficulty", c4_world).
Proof.
  apply (proj1 (X10_start_game_rejects (demo_env 5 false)
                  (Some (Web.mkStartBody (Some "Easy") None)) c4_world)).
  simpl. intros [H|[H|[H|[]]]]; discriminate H.
Defined.

Lemma X11_terminal_round_played_witness :
  exists out',
    Terminal.play_round (demo_env 5 false)
      (mkWorld (mkSys [] 0 0 0)
               (Terminal.mkConsole (Terminal.new EASY STREAK)
                                   (["middle"; ""] ++ " LEFT " :: ["y"]) []))
    = (Ok true,
       mkWorld (mkSys [] 0 2 0)
               (Terminal.mkConsole (Terminal.set_wins 1 (Terminal.new EASY STREAK))
                                   ["y"] out')).
Proof.
  apply (X11_terminal_round_played (demo_env 5 false) (mkSys [] 0 0 0)
           (Terminal.new EASY STREAK) ["middle"; ""] " LEFT " ["y"] [] "left"
           eq_refl eq_refl).
  - repeat constructor.
  - reflexivity.
Defined.

Lemma X12_run_on_short_input_witness :
  exists w' out,
    Terminal.run (demo_env 5 false) 3 (streak_game ["n"]) = Some w'
    /\ db (sys w') = []
    /\ save_pos (sys w') = 0%nat
    /\ rng_pos (sys w') = 0%nat
    /\ Terminal.wins (Terminal.game (obj w')) = 0
    /\ Terminal.losses (Terminal.game (obj w')) = 0
    /\ Terminal.stdout (obj w') = out ++ [Terminal.MsgUnexpectedError].
Proof.
  apply (X12_run_on_short_input (demo_env 5 false) 3 (streak_game ["n"])).
  simpl. lia.
Defined.

Lemma X14_run_stores_the_final_score_witness :
  exists w' duration,
    Terminal.run (demo_env 5 false) 5 (streak_game ["n"; "n"; "left"; "right"]) = Some w'
    /\ db (sys w') = [] ++ [summary_record (Terminal.game (obj w')) duration].
Proof.
  apply (X14_run_stores_the_final_score (demo_env 5 false)
           (streak_game ["n"; "n"; "left"; "right"]) eq_refl).
  - simpl. lia.
  - reflexivity.
Defined.

Lemma X15_show_summary_record_witness :
  exists w' duration,
    Terminal.show_summary (demo_env 5 false) (streak_game ["left"]) = (Ok tt, w')
    /\ Terminal.game (obj w') = Terminal.new EASY STREAK
    /\ Terminal.stdin (obj w') = ["left"]
    /\ rng_pos (sys w') = 0%nat
    /\ duration = None
    /\ (store_down (demo_env 5 false) 0 = false ->
        db (sys w') = [] ++ [summary_record (Terminal.new EASY STREAK) duration])
    /\ (store_down (demo_env 5 false) 0 = true -> db (sys w') = []).
Proof.
  apply (X15_show_summary_record (demo_env 5 false) (streak_game ["left"])).
Defined.


Lemma X17_statistics_by_category_witness :
  1 <= Statistics.cat_sessions (Statistics.mkCategoryRow 1 5 1 None "medium" "timed").
Proof.
  apply (proj2 (proj2 (proj2 (proj2 (proj2 (X17_statistics_by_category two_sessions)))))
               (Statistics.mkCategoryRow 1 5 1 None "medium" "timed")).
  simpl. right. left. reflexivity.
Defined.

Lemma X18_show_statistics_cases_witness :
  Statistics.show_statistics false [mkRecord "easy" "classic" 0 0 None]
  = [Statistics.LineHeader; Statistics.LineTotalSessions 1; Statistics.LineTotalWins 0;
     Statistics.LineTotalLosses 0; Statistics.LineError].
Proof.
  apply (proj1 (proj2 (X18_show_statistics_cases false [mkRecord "easy" "classic" 0 0 None]))
               eq_refl).
  - discriminate.
  - reflexivity.
Defined.

Lemma X19_menus_return_first_accepted_line_witness :
  Selection.select_difficulty (["4"; "invalid"] ++ " 1 " :: ["2"]) []
  = (Some EASY, ["2"],
     ([] ++ [Selection.MsgMenu "Select difficulty:"
               ["1. Easy (2 cups)"; "2. Medium (3 cups)"; "3. Hard (4 cups)"]])
     ++ refusals ["4"; "invalid"] ++ [Selection.MsgPrompt "Enter choice (1-3): "]).
Proof.
  apply (proj1 (X19_menus_return_first_accepted_line ["4"; "invalid"] " 1 " ["2"] []) EASY).
  - repeat constructor.
  - reflexivity.
Defined.

Lemma X21_legacy_round_played_witness :
  exists cup out',
    nth_error Legacy.choices (rng (demo_env 5 false) 0 mod 3)%nat = Some cup
    /\ LegacyGame.play_round (demo_env 5 false) (legacy_console ([" left"] ++ "LEFT" :: ["n"]))
       = (Ok tt,
          mkWorld (mkSys [] 0 2 0)
                  (LegacyGame.mkConsole
                     (if (PyStr.lower "LEFT" =? cup)%string
                      then LegacyGame.mkCupGame (0 + 1) 0
                      else LegacyGame.mkCupGame 0 (0 + 1))
                     ["n"] out' [])).
Proof.
  apply (X21_legacy_round_played (demo_env 5 false) (mkSys [] 0 0 0)
           (LegacyGame.mkCupGame 0 0) [" left"] "LEFT" ["n"] [] []).
  - repeat constructor.
  - reflexivity.
Defined.
